(** * opergroup_bgp_sros: an event-triggered interface controller

    A shallow embedding of
    [Hackathon/sros-event-handling/examples/opergroup_bgp_sros.py].

    The script runs once per BGP event on the router.  It counts the
    established sessions of the peers configured in group [rr] and, when
    the count crosses [MIN_NUM_ACTIVE_BGP_SESSIONS], disables or enables
    the interfaces whose name contains [tester].

    Python dictionaries are insertion-ordered association lists, the
    router and the libraries the script calls ([pysros], [utime],
    [datetime]) are the methods of a type class, and the script itself
    lives in a monad that threads the router, records every external call
    in a trace and propagates exceptions. *)

From Stdlib Require Import List String Ascii ZArith Arith Bool Lia DecimalString.
Import ListNotations.
Open Scope string_scope.

(** ** Python data *)

(** The values the script builds and receives: leaves (a [str], also the
    [.data] of a pysros [Leaf]) and dictionaries (also pysros
    [Container]s). *)
#[warnings="-register-all"]
Inductive pyval : Type :=
| PStr (s : string)
| PDict (d : list (string * pyval)).

(** A [dict] keeps its items in insertion order. *)
Definition dict (V : Type) : Type := list (string * V).

Definition dict_keys {V} (d : dict V) : list string := map fst d.

(** [k in d] *)
Definition dict_contains {V} (d : dict V) (k : string) : bool :=
  existsb (String.eqb k) (dict_keys d).

(** [d[k]], [None] standing for [KeyError] *)
Fixpoint dict_get {V} (d : dict V) (k : string) : option V :=
  match d with
  | [] => None
  | (k', v) :: rest => if String.eqb k k' then Some v else dict_get rest k
  end.

(** [d[k] = v]: an existing key keeps its position, a new one goes last. *)
Fixpoint dict_set {V} (d : dict V) (k : string) (v : V) : dict V :=
  match d with
  | [] => [(k, v)]
  | (k', v') :: rest =>
      if String.eqb k k' then (k', v) :: rest else (k', v') :: dict_set rest k v
  end.

(** Truth value of a dictionary: empty is false. *)
Definition dict_truthy {V} (d : dict V) : bool :=
  match d with [] => false | _ :: _ => true end.

(** [needle in hay] on strings *)
Fixpoint str_contains (needle hay : string) : bool :=
  match hay with
  | EmptyString => prefix needle EmptyString
  | String _ rest => prefix needle hay || str_contains needle rest
  end.

(** [c.isdigit()], on the ASCII characters event subjects are made of *)
Definition isdigit (c : ascii) : bool :=
  (48 <=? nat_of_ascii c)%nat && (nat_of_ascii c <=? 57)%nat.

(** [s.split(".")[0]]: the text before the first dot *)
Fixpoint split_dot_head (s : string) : string :=
  match s with
  | EmptyString => EmptyString
  | String c rest =>
      if Ascii.eqb c "."%char then EmptyString else String c (split_dot_head rest)
  end.

(** ["%d" % n] *)
Definition fmt_d (n : nat) : string := NilZero.string_of_uint (Nat.to_uint n).

Definition nl : string := String (ascii_of_nat 10) EmptyString.
Definition tab : string := String (ascii_of_nat 9) EmptyString.
Definition dquote : string := String (ascii_of_nat 34) EmptyString.

(** [sep.join(l)] *)
Definition join (sep : string) (l : list string) : string := String.concat sep l.

(** ** Constants of the script *)

Definition WELL_KNOWN_EBGP_GROUP_NAME : string := "rr".
Definition MIN_NUM_ACTIVE_BGP_SESSIONS : nat := 1.

(** The substring that marks an interface as downstream. *)
Definition downstream_tag : string := "tester".

Definition base_router : string := "/router[router-name=" ++ dquote ++ "Base" ++ dquote ++ "]".
Definition interface_state_path : string := "/nokia-state:state" ++ base_router ++ "/interface".
Definition bgp_state_path : string := "/nokia-state:state" ++ base_router ++ "/bgp/neighbor".
Definition bgp_conf_path : string := "/nokia-conf:configure" ++ base_router ++ "/bgp/neighbor".
Definition cfg_path : string := "/nokia-conf:configure" ++ base_router.

(** ** Events, exceptions, external calls *)

(** The fields of a [pysros.ehs] event the script reads. *)
Record Event : Type := mkEvent { eventid : Z; subject : string }.

Inductive exn : Type :=
| SrosMgmtError (msg : string)   (* [args] is the 1-tuple [(msg,)] *)
| TypeError (msg : string)
| IndexError (msg : string)
| KeyError (key : string)
| AttributeError (msg : string)
| AssertionError (msg : string)
| ValueError (msg : string)
| OtherError (name : string).    (* LookupError, RuntimeError, ... of the transport *)

Inductive outcome (A : Type) : Type :=
| Ok (a : A)
| Raise (e : exn).
Arguments Ok {A} a.
Arguments Raise {A} e.

(** The values of the [datetime] module the script handles, by their
    attributes: a [datetime] (with its offset from UTC when it has one) and
    a [timedelta]. *)
Record datetime : Type := mkDatetime {
  year : nat; month : nat; day : nat;
  hour : nat; minute : nat; second : nat; microsecond : nat;
  utcoffset : option Z
}.

Record timedelta : Type := mkTimedelta { days : Z; seconds : Z; microseconds : Z }.

(** One row of the report: interface, last operational change, time since. *)
Definition row : Type := (string * datetime * timedelta)%type.

(** What the script does to the outside, in order.  [Table.print] writes
    the heading, then one line per row as it takes the row from the
    iterable it was given, then the count; a generator hands its rows over
    with [Yield]. *)
Inductive action : Type :=
| Connect (host username : string)
| GetEvent
| RunningGet (path : string) (filter : pyval)
| CandidateSet (path : string) (payload : pyval)
| Sleep (secs : nat)
| Print (text : string)
| PrintValue (v : pyval)
| Yield (r : row)
| TableHeader (title : string) (cols : list (nat * string))
| TableRow (r : row)
| TableFooter (showCount : string) (count : nat)
| Disconnect.

(** The router and the clock, as far as the script can see them.  Reads
    are snapshots of the current state; [candidate.set] and the passing of
    time change it. *)
Class World (W : Type) : Type := {
  (** [pysros.ehs.get_event()] *)
  get_event : W -> option Event;
  (** [connection.running.get(path, filter=...)] *)
  running_get : W -> string -> pyval -> outcome (dict pyval);
  (** [connection.candidate.set(path, payload)] *)
  candidate_set : W -> string -> pyval -> outcome unit * W;
  (** what the router does during [time.sleep(secs)] *)
  elapse : W -> nat -> W;
  (** [strftime("%Y/%m/%d %H:%M:%S", localtime())] *)
  strftime_localtime : W -> string;
  (** [datetime.fromisoformat(text)], [ValueError] when [text] is not an
      ISO time *)
  fromisoformat : W -> string -> outcome datetime;
  (** [datetime.now()] *)
  datetime_now : W -> datetime;
  (** [now - last], [TypeError] between a naive and an aware datetime *)
  datetime_sub : W -> datetime -> datetime -> outcome timedelta
}.

(** ** The monad of the script

    A computation takes the world, and yields the calls it made, the world
    it leaves and either a value or the exception that ended it. *)

Section Script.

Context {W : Type} `{World W}.

Definition M (A : Type) : Type := W -> list action * W * outcome A.

Definition ret {A} (a : A) : M A := fun w => ([], w, Ok a).

Definition raise {A} (e : exn) : M A := fun w => ([], w, Raise e).

Definition bind {A B} (m : M A) (f : A -> M B) : M B :=
  fun w =>
    match m w with
    | (t1, w1, Ok a) =>
        match f a w1 with
        | (t2, w2, r) => ((t1 ++ t2)%list, w2, r)
        end
    | (t1, w1, Raise e) => (t1, w1, Raise e)
    end.

Notation "x <- m ;; k" := (bind m (fun x => k))
  (at level 61, m at next level, right associativity).
Notation "m ;; k" := (bind m (fun _ => k))
  (at level 61, right associativity).

(** An external call that leaves the world as it is. *)
Definition emit (a : action) : M unit := fun w => ([a], w, Ok tt).

(** [try: m except SrosMgmtError: h1 except TypeError: h2] *)
Definition try_except {A} (m : M A)
    (on_mgmt : string -> M A) (on_type : string -> M A) : M A :=
  fun w =>
    match m w with
    | (t1, w1, Raise (SrosMgmtError msg)) =>
        match on_mgmt msg w1 with (t2, w2, r) => ((t1 ++ t2)%list, w2, r) end
    | (t1, w1, Raise (TypeError msg)) =>
        match on_type msg w1 with (t2, w2, r) => ((t1 ++ t2)%list, w2, r) end
    | r => r
    end.

(** *** The external calls *)

Definition connect (host username : string) : M unit := emit (Connect host username).

Definition disconnect : M unit := emit Disconnect.

Definition ehs_get_event : M (option Event) :=
  fun w => ([GetEvent], w, Ok (get_event w)).

Definition connection_running_get (path : string) (filter : pyval) : M (dict pyval) :=
  fun w => ([RunningGet path filter], w, running_get w path filter).

Definition connection_candidate_set (path : string) (payload : pyval) : M unit :=
  fun w =>
    match candidate_set w path payload with
    | (r, w') => ([CandidateSet path payload], w', r)
    end.

Definition time_sleep (secs : nat) : M unit :=
  fun w => ([Sleep secs], elapse w secs, Ok tt).

Definition print (text : string) : M unit := emit (Print text).

Definition print_value (v : pyval) : M unit := emit (PrintValue v).

(** ** The script *)

(** [print_log]: the line is stamped with [strftime] of the local time
    (the first [time_str] of the source is overwritten before use). *)
Definition print_log (message : string) : M unit :=
  fun w =>
    let time_str := strftime_localtime w in
    print ("At time " ++ time_str ++ ": " ++ message) w.

(** [router_timestamp_to_datetime]: the text of the leaf before its first
    dot, parsed. *)
Definition router_timestamp_to_datetime (router_timestamp_string : pyval) : M datetime :=
  match router_timestamp_string with
  | PStr data => fun w => ([], w, fromisoformat w (split_dot_head data))
  | PDict _ => raise (AttributeError "data")
  end.

(** [to_rows]: a generator.  Its trace holds the rows it yields, in
    order; its result is all of them when it runs to its end. *)
Fixpoint to_rows (active_interfaces : dict pyval) : M (list row) :=
  match active_interfaces with
  | [] => ret []
  | (key, value) :: rest =>
      now <- (fun w => ([], w, Ok (datetime_now w))) ;;
      leaf <- match value with
              | PDict d =>
                  match dict_get d "last-oper-change" with
                  | Some v => ret v
                  | None => raise (KeyError "last-oper-change")
                  end
              | PStr _ => raise (TypeError "string indices must be integers")
              end ;;
      last <- router_timestamp_to_datetime leaf ;;
      elapsed <- (fun w => ([], w, datetime_sub w now last)) ;;
      emit (Yield (key, last, elapsed)) ;;
      rows <- to_rows rest ;;
      ret ((key, last, elapsed) :: rows)
  end.

(** [table.print(rows)]: the heading, a line for each row as the iterable
    yields it, and the count once the iterable is exhausted.  An exception
    of the iterable leaves what was written so far. *)
Definition table_print (title : string) (cols : list (nat * string))
    (showCount : string) (rows : M (list row)) : M unit :=
  fun w =>
    match rows w with
    | (yields, w1, r) =>
        let lines :=
          map (fun a => match a with Yield r => TableRow r | other => other end) yields in
        match r with
        | Ok rs =>
            ((TableHeader title cols :: lines
              ++ [TableFooter showCount (List.length rs)])%list, w1, Ok tt)
        | Raise e => (TableHeader title cols :: lines, w1, Raise e)
        end
    end.

(** [print_table] *)
Definition print_table (rows : M (list row)) (info header : string) : M unit :=
  let cols :=
    [ (20, "Interface");
      (40, "Last oper change");
      (18, info ++ " since") ]%nat in
  let title := "Interfaces modified by script " ++ header in
  table_print title cols "Interfaces" rows.

(** [find_interfaces] *)
Definition find_interfaces (oper_status_filter : string) : M (dict pyval) :=
  let interface_filter := PDict [("oper-state", PStr oper_status_filter)] in
  base_router_state <- connection_running_get interface_state_path interface_filter ;;
  let active_interfaces :=
    fold_left
      (fun (active_interfaces : dict pyval) '(interface, state) =>
         if negb (str_contains downstream_tag interface)
         then active_interfaces
         else dict_set active_interfaces interface state)
      base_router_state [] in
  ret active_interfaces.

(** The [nokia-conf:interface] part of the payload, one entry per
    interface. *)
Definition interface_payload (active_interfaces : dict pyval) (change : string)
  : dict pyval :=
  fold_left
    (fun (payload : dict pyval) interface =>
       dict_set payload interface
         (PDict [("interface-name", PStr interface); ("admin-state", PStr change)]))
    (dict_keys active_interfaces) [].

(** [modify_downstream_interfaces] *)
Definition modify_downstream_interfaces
    (active_interfaces : dict pyval) (change : string) : M bool :=
  (if existsb (String.eqb change) ["enable"; "disable"]
   then ret tt
   else raise (AssertionError ("Action must be enable or disable. Found " ++ change))) ;;
  print ("Interfaces to be brought "
         ++ (if String.eqb change "enable" then "up" else "down")
         ++ ":" ++ nl ++ tab
         ++ join (nl ++ tab) (dict_keys active_interfaces) ++ nl) ;;
  let interfaces := interface_payload active_interfaces change in
  let cfg_payload := PDict [("nokia-conf:interface", PDict interfaces)] in
  (if dict_truthy interfaces
   then
     try_except
       (connection_candidate_set cfg_path cfg_payload)
       (fun args =>
          print ("Disabling the active interfaces failed due to an error:"
                 ++ nl ++ tab ++ args))
       (fun error =>
          print error ;;
          print_value cfg_payload)
   else ret tt) ;;
  ret true.

(** The loop of [count_ebgp_sessions_established] over the two snapshots. *)
Definition count_sessions (find_ebgp_configuration bgp_session_state : dict pyval) : nat :=
  fold_left
    (fun number_of_active_ebgp_sessions ebgp_session =>
       if dict_contains bgp_session_state ebgp_session
       then number_of_active_ebgp_sessions + 1
       else number_of_active_ebgp_sessions)
    (dict_keys find_ebgp_configuration) 0.

Definition nb_filter : pyval :=
  PDict [("statistics",
          PDict [("received-paths", PDict []); ("session-state", PStr "Established")])].

Definition ebgp_group_filter : pyval :=
  PDict [("ip-address", PDict []); ("group", PStr WELL_KNOWN_EBGP_GROUP_NAME)].

(** [count_ebgp_sessions_established] *)
Definition count_ebgp_sessions_established : M nat :=
  bgp_session_state <- connection_running_get bgp_state_path nb_filter ;;
  find_ebgp_configuration <- connection_running_get bgp_conf_path ebgp_group_filter ;;
  ret (count_sessions find_ebgp_configuration bgp_session_state).

Definition found_peerings (active_ebgp_sessions : nat) : string :=
  "Found " ++ fmt_d active_ebgp_sessions ++ " active peerings, we need "
  ++ fmt_d MIN_NUM_ACTIVE_BGP_SESSIONS ++ ". ".

(** [backwardsHandler] *)
Definition backwardsHandler (subject : string) : M unit :=
  print_log ("received a BGP session degradation event for BGP Peer :"
             ++ nl ++ tab ++ subject ++ "," ++ nl
             ++ "We need at least a single uplink bgp peer! Checking other peerings.") ;;
  active_ebgp_sessions <- count_ebgp_sessions_established ;;
  if (MIN_NUM_ACTIVE_BGP_SESSIONS <=? active_ebgp_sessions)%nat
  then
    print_log (found_peerings active_ebgp_sessions ++ "Situation is manageable." ++ nl)
  else
    print_log (found_peerings active_ebgp_sessions
               ++ "Protect the downstream network!" ++ nl) ;;
    active_interfaces <- find_interfaces "up" ;;
    if dict_truthy active_interfaces
    then
      print_table (to_rows active_interfaces) "Up" "(up -> down) [BEFORE]" ;;
      time_sleep 1 ;;
      modify_downstream_interfaces active_interfaces "disable" ;;
      time_sleep 1 ;;
      inactive_interfaces <- find_interfaces "down" ;;
      if dict_truthy inactive_interfaces
      then print_table (to_rows inactive_interfaces) "Down" "(up -> down) [AFTER]"
      else ret tt
    else
      print "No changes required, interfaces already down.".

(** [establishedHandler]: the message of the branch that re-enables is
    built but not logged, and there is nothing to do below the threshold. *)
Definition establishedHandler (subject : string) : M unit :=
  print_log ("received a BGP session establishment event for BGP Peer :"
             ++ nl ++ tab ++ subject ++ "," ++ nl) ;;
  active_ebgp_sessions <- count_ebgp_sessions_established ;;
  if (MIN_NUM_ACTIVE_BGP_SESSIONS <=? active_ebgp_sessions)%nat
  then
    active_interfaces <- find_interfaces "down" ;;
    if dict_truthy active_interfaces
    then
      print_table (to_rows active_interfaces) "Down" "(down -> up) [BEFORE]" ;;
      time_sleep 1 ;;
      modify_downstream_interfaces active_interfaces "enable" ;;
      time_sleep 1 ;;
      inactive_interfaces <- find_interfaces "up" ;;
      if dict_truthy inactive_interfaces
      then print_table (to_rows inactive_interfaces) "Up" "(down -> up) [AFTER]"
      else ret tt
    else
      print "No changes required, interfaces already up."
  else ret tt.

(** [trigger_event.subject[0].isdigit()] *)
Definition subject_starts_with_digit (trigger_event : Event) : M bool :=
  match subject trigger_event with
  | EmptyString => raise (IndexError "string index out of range")
  | String c _ => ret (isdigit c)
  end.

Definition unused : string := "local connection only - unused".

(** [main] *)
Definition main : M unit :=
  connect unused unused ;;
  trigger_event <- ehs_get_event ;;
  match trigger_event with
  | None => disconnect
  | Some event =>
      malformed <- subject_starts_with_digit event ;;
      if malformed
      then disconnect
      else
        (if (eventid event =? 2039)%Z
         then backwardsHandler (subject event)
         else if (eventid event =? 2038)%Z
         then establishedHandler (subject event)
         else ret tt) ;;
        disconnect
  end.

End Script.

Notation "x <- m ;; k" := (bind m (fun x => k))
  (at level 61, m at next level, right associativity).
Notation "m ;; k" := (bind m (fun _ => k))
  (at level 61, right associativity).

(** ** Observations on a run *)

Definition trace_of {W A} (x : list action * W * outcome A) : list action := fst (fst x).
Definition world_of {W A} (x : list action * W * outcome A) : W := snd (fst x).
Definition result_of {W A} (x : list action * W * outcome A) : outcome A := snd x.

(** The names a payload of [candidate.set] carries: the keys of the
    dictionaries below its top-level entries. *)
Definition payload_interfaces (payload : pyval) : list string :=
  match payload with
  | PDict top =>
      flat_map (fun '(_, v) => match v with
                               | PDict entries => dict_keys entries
                               | PStr _ => []
                               end) top
  | PStr _ => []
  end.

(** The interfaces whose administrative state a trace writes. *)
Definition mutated (t : list action) : list string :=
  flat_map (fun a => match a with
                     | CandidateSet _ payload => payload_interfaces payload
                     | _ => []
                     end) t.

Definition is_set (a : action) : bool :=
  match a with CandidateSet _ _ => true | _ => false end.

Definition is_sleep (a : action) : bool :=
  match a with Sleep _ => true | _ => false end.

Definition is_session (a : action) : bool :=
  match a with Connect _ _ | Disconnect => true | _ => false end.

Definition is_disconnect (a : action) : bool :=
  match a with Disconnect => true | _ => false end.

(** How often the State Mutator is called, the script pauses, the session
    is released. *)
Definition mutations (t : list action) : nat := List.length (filter is_set t).
Definition pauses (t : list action) : nat := List.length (filter is_sleep t).
Definition releases (t : list action) : nat := List.length (filter is_disconnect t).

(** Neither a pause nor a mutation. *)
Definition quiet (t : list action) : Prop :=
  Forall (fun a => is_set a = false /\ is_sleep a = false) t.

(** The name contains the downstream tag. *)
Definition tagged (name : string) : Prop :=
  exists pre post, name = pre ++ downstream_tag ++ post.

Definition oper_state_filter (s : string) : pyval := PDict [("oper-state", PStr s)].

(** The payload that sets [change] on the interfaces of [d]. *)
Definition cfg_payload (d : dict pyval) (change : string) : pyval :=
  PDict [("nokia-conf:interface", PDict (interface_payload d change))].

(** The message that announces the change. *)
Definition to_be_brought (d : dict pyval) (change : string) : string :=
  "Interfaces to be brought "
  ++ (if String.eqb change "enable" then "up" else "down")
  ++ ":" ++ nl ++ tab ++ join (nl ++ tab) (dict_keys d) ++ nl.

(** A small program logic: every call [m] makes satisfies [P], and a
    value it returns satisfies [Q]. *)
Definition emits {W A} (P : action -> Prop) (m : W -> list action * W * outcome A)
    (Q : A -> Prop) : Prop :=
  forall w, Forall P (trace_of (m w)) /\ forall a, result_of (m w) = Ok a -> Q a.

(** The interfaces a single call writes are tagged. *)
Definition writes_tagged (a : action) : Prop := Forall tagged (mutated [a]).

(** At most [n] of the calls of [m] satisfy [p], however it ends. *)
Definition atmost {W A} (p : action -> bool) (n : nat)
    (m : W -> list action * W * outcome A) : Prop :=
  forall w, List.length (filter p (trace_of (m w))) <= n.

(** The entry of the payload for one interface. *)
Definition payload_entry (change interface : string) : string * pyval :=
  (interface, PDict [("interface-name", PStr interface); ("admin-state", PStr change)]).

(** A call that writes goes to the configuration of the Base router and
    sets nothing but [admin-state] to [change]. *)
Definition writes_only (change : string) (a : action) : Prop :=
  match a with
  | CandidateSet path payload =>
      path = cfg_path
      /\ exists names,
           payload = PDict [("nokia-conf:interface",
                             PDict (map (payload_entry change) names))]
  | _ => True
  end.

(** The interfaces of a snapshot that carry the downstream tag. *)
Definition downstream (snapshot : dict pyval) : dict pyval :=
  filter (fun kv => str_contains downstream_tag (fst kv)) snapshot.

(** What [to_rows] makes of one interface. *)
Definition row_of {W} `{World W} (w : W) (r : row) (kv : string * pyval) : Prop :=
  exists fields data,
    snd kv = PDict fields
    /\ dict_get fields "last-oper-change" = Some (PStr data)
    /\ fst (fst r) = fst kv
    /\ fromisoformat w (split_dot_head data) = Ok (snd (fst r))
    /\ datetime_sub w (datetime_now w) (snd (fst r)) = Ok (snd r).

(** The opening lines of the two handlers. *)
Definition degradation_notice (subject : string) : string :=
  "received a BGP session degradation event for BGP Peer :"
  ++ nl ++ tab ++ subject ++ "," ++ nl
  ++ "We need at least a single uplink bgp peer! Checking other peerings.".

Definition establishment_notice (subject : string) : string :=
  "received a BGP session establishment event for BGP Peer :"
  ++ nl ++ tab ++ subject ++ "," ++ nl.

(** A call of the table printer or a row on its way to it. *)
Definition is_table (a : action) : bool :=
  match a with
  | Yield _ | TableHeader _ _ | TableRow _ | TableFooter _ _ => true
  | _ => false
  end.

(** The verification of a transition: the query with the opposite filter
    and its report. *)
Definition verification {W} `{World W} (opposite info header : string) : M unit :=
  inactive_interfaces <- find_interfaces opposite ;;
  if dict_truthy inactive_interfaces
  then print_table (to_rows inactive_interfaces) info header
  else ret tt.

(** [candidate.set] raised one of the two errors
    [modify_downstream_interfaces] catches. *)
Definition rejected (r : outcome unit) : Prop :=
  match r with
  | Raise (SrosMgmtError _) | Raise (TypeError _) => True
  | _ => False
  end.

(** The run as the specification words it for a rejected batch: the
    invocation runs to completion. *)
Definition completes_after_rejection {W} `{World W} (w : W) : Prop :=
  forall payload,
    In (CandidateSet cfg_path payload) (trace_of (main w)) ->
    rejected (fst (candidate_set (elapse w 1) cfg_path payload)) ->
    result_of (main w) = Ok tt.

(** ** The Event Router as the specification words it

    Discard when no event is available or the subject begins with a
    digit; otherwise 2039 goes to the degradation handler, 2038 to the
    establishment handler, and any other id to none. *)

Definition begins_with_digit (s : string) : bool :=
  match s with
  | EmptyString => false
  | String c _ => isdigit c
  end.

Definition spec_dispatch {W} `{World W} (trigger_event : option Event) : M unit :=
  match trigger_event with
  | None => ret tt
  | Some event =>
      if begins_with_digit (subject event) then ret tt
      else if (eventid event =? 2039)%Z then backwardsHandler (subject event)
      else if (eventid event =? 2038)%Z then establishedHandler (subject event)
      else ret tt
  end.

Definition spec_router {W} `{World W} : M unit :=
  connect unused unused ;;
  trigger_event <- ehs_get_event ;;
  spec_dispatch trigger_event ;;
  disconnect.

(** The session as the specification words it: released exactly once. *)
Definition released_once (t : list action) : Prop := releases t = 1.

(** The handler [main] picks for an event that passed the guard. *)
Definition handler_for {W} `{World W} (event : Event) : M unit :=
  if (eventid event =? 2039)%Z then backwardsHandler (subject event)
  else if (eventid event =? 2038)%Z then establishedHandler (subject event)
  else ret tt.

(** The event is discarded by the router as specified. *)
Definition discarded (trigger_event : option Event) : bool :=
  match trigger_event with
  | None => true
  | Some event => begins_with_digit (subject event)
  end.

(** The settle pause as the specification words it: a run that applies a
    mutation pauses once. *)
Definition single_settle_pause (t : list action) : Prop :=
  mutations t <> 0 -> pauses t = 1.

(** The finished BEFORE report of a selection: the heading, a line for
    each selected interface, the count. *)
Definition before_report (selected : dict pyval) (report : list action) : Prop :=
  exists direction cols rows,
    report = (TableHeader ("Interfaces modified by script " ++ direction ++ " [BEFORE]")
                cols
              :: map TableRow rows ++ [TableFooter "Interfaces" (List.length rows)])%list
    /\ map (fun r : row => fst (fst r)) rows = dict_keys selected.

(** What a run that applies a mutation looks like: a pause, the single
    mutation, a second pause and at once the query with the opposite
    filter; nothing else pauses or mutates. *)
Definition settles_around (change opposite : string) (t : list action) : Prop :=
  exists pre report selected mid2 post,
    t = (pre ++ report
         ++ Sleep 1 :: Print (to_be_brought selected change)
         :: CandidateSet cfg_path (cfg_payload selected change) :: mid2
         ++ Sleep 1 :: RunningGet interface_state_path (oper_state_filter opposite)
         :: post)%list
    /\ quiet pre /\ before_report selected report /\ quiet mid2 /\ quiet post.

(** The session is opened by the first call and released by the last,
    and by no other. *)
Definition scoped_session (t : list action) : Prop :=
  exists body,
    t = (Connect unused unused :: body ++ [Disconnect])%list
    /\ Forall (fun a => is_session a = false) body.

(** ** A router to run the script on

    The theorems below hold for every [World].  This one is small enough
    to compute with: interfaces follow their administrative state while
    the script sleeps, and a fault can be planted in the queries or in
    [candidate.set]. *)

Module SimRouter.

Record interface : Type := mkInterface {
  if_name : string;
  oper_state : string;
  admin_state : string;
  last_oper_change : string
}.

Record router : Type := mkRouter {
  pending : option Event;                 (* what [get_event] delivers *)
  interfaces : list interface;
  neighbors : list (string * string);     (* peer address, session state *)
  configured : list (string * string);    (* peer address, group *)
  query_fault : option exn;
  set_fault : option exn;
  clock : string;                         (* local time, as [strftime] prints it *)
  timestamp : string                      (* the same instant, as the state model has it *)
}.

Definition interface_entry (i : interface) : string * pyval :=
  (if_name i,
   PDict [("oper-state", PStr (oper_state i));
          ("last-oper-change", PStr (last_oper_change i))]).

Definition neighbor_entry (n : string * string) : string * pyval :=
  (fst n, PDict [("statistics", PDict [("session-state", PStr (snd n))])]).

Definition configured_entry (n : string * string) : string * pyval :=
  (fst n, PDict [("ip-address", PStr (fst n)); ("group", PStr (snd n))]).

Definition sim_running_get (r : router) (path : string) (filter : pyval)
  : outcome (dict pyval) :=
  match query_fault r with
  | Some e => Raise e
  | None =>
      if String.eqb path interface_state_path then
        match filter with
        | PDict [(_, PStr wanted)] =>
            Ok (map interface_entry
                  (List.filter (fun i => String.eqb (oper_state i) wanted) (interfaces r)))
        | _ => Raise (TypeError "filter")
        end
      else if String.eqb path bgp_state_path then
        Ok (map neighbor_entry
              (List.filter (fun n => String.eqb (snd n) "Established") (neighbors r)))
      else if String.eqb path bgp_conf_path then
        Ok (map configured_entry
              (List.filter (fun n => String.eqb (snd n) WELL_KNOWN_EBGP_GROUP_NAME)
                 (configured r)))
      else Raise (OtherError "LookupError")
  end.

Definition requested_admin_state (payload : pyval) (name : string) : option string :=
  match payload with
  | PDict [(_, PDict entries)] =>
      match dict_get entries name with
      | Some (PDict fields) =>
          match dict_get fields "admin-state" with
          | Some (PStr s) => Some s
          | _ => None
          end
      | _ => None
      end
  | _ => None
  end.

Definition with_interfaces (r : router) (l : list interface) : router :=
  mkRouter (pending r) l (neighbors r) (configured r)
           (query_fault r) (set_fault r) (clock r) (timestamp r).

Definition sim_candidate_set (r : router) (path : string) (payload : pyval)
  : outcome unit * router :=
  match set_fault r with
  | Some e => (Raise e, r)
  | None =>
      (Ok tt,
       with_interfaces r
         (map (fun i =>
                 match requested_admin_state payload (if_name i) with
                 | Some s => mkInterface (if_name i) (oper_state i) s (last_oper_change i)
                 | None => i
                 end)
              (interfaces r)))
  end.

Definition settle (now : string) (i : interface) : interface :=
  let target := if String.eqb (admin_state i) "disable" then "down" else "up" in
  if String.eqb (oper_state i) target then i
  else mkInterface (if_name i) target (admin_state i) now.

Definition sim_elapse (r : router) (secs : nat) : router :=
  with_interfaces r (map (settle (timestamp r)) (interfaces r)).

(** The clock library of the lab reads [YYYY-MM-DDTHH:MM:SS], the form
    its state model uses, and nothing else. *)
Fixpoint digits_value (s : string) (acc : nat) : option nat :=
  match s with
  | EmptyString => Some acc
  | String c rest =>
      if isdigit c then digits_value rest (10 * acc + (nat_of_ascii c - 48)) else None
  end.

Definition number_at (text : string) (start len : nat) : option nat :=
  digits_value (substring start len text) 0.

Definition separator_at (text : string) (n : nat) (c : ascii) : bool :=
  match String.get n text with
  | Some c' => Ascii.eqb c c'
  | None => false
  end.

Definition sim_fromisoformat (text : string) : outcome datetime :=
  let invalid := Raise (ValueError ("Invalid isoformat string: " ++ text)) in
  if (String.length text =? 19)%nat
     && separator_at text 4 "-" && separator_at text 7 "-"
     && separator_at text 10 "T"
     && separator_at text 13 ":" && separator_at text 16 ":"
  then
    match number_at text 0 4, number_at text 5 2, number_at text 8 2,
          number_at text 11 2, number_at text 14 2, number_at text 17 2 with
    | Some y, Some mo, Some d, Some h, Some mi, Some sec =>
        if ((1 <=? mo) && (mo <=? 12) && (1 <=? d) && (d <=? 31)
            && (h <? 24) && (mi <? 60) && (sec <? 60))%nat
        then Ok (mkDatetime y mo d h mi sec 0 None)
        else invalid
    | _, _, _, _, _, _ => invalid
    end
  else invalid.

(** Days since 1970-01-01 of a date of the Gregorian calendar. *)
Definition days_from_civil (y m d : Z) : Z :=
  let y' := if (m <=? 2)%Z then (y - 1)%Z else y in
  let era := (y' / 400)%Z in
  let yoe := (y' - era * 400)%Z in
  let mp := if (2 <? m)%Z then (m - 3)%Z else (m + 9)%Z in
  let doy := ((153 * mp + 2) / 5 + d - 1)%Z in
  let doe := (yoe * 365 + yoe / 4 - yoe / 100 + doy)%Z in
  (era * 146097 + doe - 719468)%Z.

Definition microseconds_since_epoch (t : datetime) : Z :=
  ((days_from_civil (Z.of_nat (year t)) (Z.of_nat (month t)) (Z.of_nat (day t)) * 86400
    + Z.of_nat (hour t) * 3600 + Z.of_nat (minute t) * 60 + Z.of_nat (second t)
    - match utcoffset t with Some offset => offset | None => 0 end) * 1000000
   + Z.of_nat (microsecond t))%Z.

Definition sim_datetime_sub (now last : datetime) : outcome timedelta :=
  match utcoffset now, utcoffset last with
  | None, Some _ | Some _, None =>
      Raise (TypeError "can't subtract offset-naive and offset-aware datetimes")
  | _, _ =>
      let total := (microseconds_since_epoch now - microseconds_since_epoch last)%Z in
      let rest := (total mod 86400000000)%Z in
      Ok (mkTimedelta (total / 86400000000) (rest / 1000000) (rest mod 1000000))
  end.

Definition sim_now (r : router) : datetime :=
  match sim_fromisoformat (split_dot_head (timestamp r)) with
  | Ok t => t
  | Raise _ => mkDatetime 1970 1 1 0 0 0 0 None
  end.

#[global] Instance sim_world : World router := {
  get_event := pending;
  running_get := sim_running_get;
  candidate_set := sim_candidate_set;
  elapse := sim_elapse;
  strftime_localtime := clock;
  fromisoformat := fun _ => sim_fromisoformat;
  datetime_now := sim_now;
  datetime_sub := fun _ => sim_datetime_sub
}.

(** Two downstream interfaces and one uplink, all up; one peer configured
    in group [rr]. *)
Definition lab_interfaces : list interface :=
  [ mkInterface "tester4" "up" "enable" "2023-05-11T22:14:01.3Z";
    mkInterface "uplink1" "up" "enable" "2023-05-11T22:14:01.3Z";
    mkInterface "tester5" "up" "enable" "2023-05-11T22:14:01.3Z" ].

Definition lab (ev : option Event) (nbrs : list (string * string)) : router :=
  mkRouter ev lab_interfaces nbrs [("10.1.5.5", "rr"); ("10.9.9.9", "other")]
           None None "2023/05/11 22:16:49" "2023-05-11T22:16:50.1Z".

Definition degraded : Event := mkEvent 2039 "Peer 1: 10.1.5.5".
Definition established : Event := mkEvent 2038 "Peer 1: 10.1.5.5".

(** The lab after the last session went down, and once it is back. *)
Definition lab_down : router := lab (Some degraded) [("10.1.5.5", "Active")].
Definition lab_up : router := lab (Some established) [("10.1.5.5", "Established")].

Definition with_set_fault (r : router) (e : exn) : router :=
  mkRouter (pending r) (interfaces r) (neighbors r) (configured r)
           (query_fault r) (Some e) (clock r) (timestamp r).

Definition with_query_fault (r : router) (e : exn) : router :=
  mkRouter (pending r) (interfaces r) (neighbors r) (configured r)
           (Some e) (set_fault r) (clock r) (timestamp r).

Definition with_event (r : router) (ev : option Event) : router :=
  mkRouter ev (interfaces r) (neighbors r) (configured r)
           (query_fault r) (set_fault r) (clock r) (timestamp r).

Definition with_neighbors (r : router) (nbrs : list (string * string)) : router :=
  mkRouter (pending r) (interfaces r) nbrs (configured r)
           (query_fault r) (set_fault r) (clock r) (timestamp r).

(** The lab once the degradation run has taken the downstream interfaces
    down and the session has come back. *)
Definition lab_restored : router :=
  with_neighbors (with_event (world_of (main lab_down)) (Some established))
    [("10.1.5.5", "Established")].

End SimRouter.

(** The same router behind a clock library that cannot parse its
    timestamps: [datetime.fromisoformat] raises [ValueError]. *)

Module Unparsed.

Record router : Type := mkRouter { base : SimRouter.router }.

#[global] Instance unparsed_world : World router := {
  get_event := fun r => SimRouter.pending (base r);
  running_get := fun r => SimRouter.sim_running_get (base r);
  candidate_set := fun r path payload =>
    (fst (SimRouter.sim_candidate_set (base r) path payload),
     mkRouter (snd (SimRouter.sim_candidate_set (base r) path payload)));
  elapse := fun r secs => mkRouter (SimRouter.sim_elapse (base r) secs);
  strftime_localtime := fun r => SimRouter.clock (base r);
  fromisoformat := fun r text => Raise (ValueError ("Invalid isoformat string: " ++ text));
  datetime_now := fun r => SimRouter.sim_now (base r);
  datetime_sub := fun _ => SimRouter.sim_datetime_sub
}.

End Unparsed.

(** The same router again, out of reach of the management session once
    the script has paused twice. *)

Module Outage.

Record router : Type := mkRouter { base : SimRouter.router; slept : nat }.

#[global] Instance outage_world : World router := {
  get_event := fun r => SimRouter.pending (base r);
  running_get := fun r path filter =>
    if (2 <=? slept r)%nat then Raise (OtherError "LookupError")
    else SimRouter.sim_running_get (base r) path filter;
  candidate_set := fun r path payload =>
    (fst (SimRouter.sim_candidate_set (base r) path payload),
     mkRouter (snd (SimRouter.sim_candidate_set (base r) path payload)) (slept r));
  elapse := fun r secs => mkRouter (SimRouter.sim_elapse (base r) secs) (S (slept r));
  strftime_localtime := fun r => SimRouter.clock (base r);
  fromisoformat := fun _ => SimRouter.sim_fromisoformat;
  datetime_now := fun r => SimRouter.sim_now (base r);
  datetime_sub := fun _ => SimRouter.sim_datetime_sub
}.

(** The lab after the last session went down, with a router that rejects
    the batch and then goes out of reach. *)
Definition lab_rejecting : router :=
  mkRouter (SimRouter.with_set_fault SimRouter.lab_down
              (SrosMgmtError "MINOR: MGMT_CORE #2301")) 0.

End Outage.

(** * Properties *)

(** ** Strings and dictionaries *)

Lemma prefix_app (n post : string) : prefix n (n ++ post) = true.
Proof.
  induction n as [|c n IH]; simpl; [now destruct post|].
  destruct (Ascii.ascii_dec c c) as [_|ne]; [exact IH | now elim ne].
Qed.

Lemma prefix_split (n h : string) :
  prefix n h = true -> exists post, h = n ++ post.
Proof.
  revert h; induction n as [|c n IH]; intros h Hp.
  - now exists h.
  - destruct h as [|c' h]; simpl in Hp; [discriminate|].
    destruct (Ascii.ascii_dec c c') as [->|_]; [|discriminate].
    destruct (IH _ Hp) as [post ->]. now exists post.
Qed.

Lemma str_contains_prefix (n h : string) :
  prefix n h = true -> str_contains n h = true.
Proof.
  destruct h as [|c h]; intros Hp; [exact Hp|].
  change (prefix n (String c h) || str_contains n h = true).
  now rewrite Hp.
Qed.

(** [str_contains] decides the substring relation. *)
Lemma str_contains_spec (n h : string) :
  str_contains n h = true <-> exists pre post, h = pre ++ n ++ post.
Proof.
  split.
  - induction h as [|c h IH]; cbn [str_contains]; intros Hc.
    + destruct (prefix_split _ _ Hc) as [post E]. now exists EmptyString, post.
    + apply orb_true_iff in Hc. destruct Hc as [Hp|Hr].
      * destruct (prefix_split _ _ Hp) as [post E]. now exists EmptyString, post.
      * destruct (IH Hr) as (pre & post & ->). now exists (String c pre), post.
  - intros (pre & post & ->).
    induction pre as [|c pre IH]; cbn [append str_contains].
    + apply str_contains_prefix, prefix_app.
    + rewrite IH. apply orb_true_r.
Qed.

Lemma dict_contains_In {V} (d : dict V) (k : string) :
  dict_contains d k = true <-> In k (dict_keys d).
Proof.
  unfold dict_contains. rewrite existsb_exists. split.
  - intros (x & Hin & Heq). apply String.eqb_eq in Heq. now subst.
  - intros Hin. exists k. split; [assumption | apply String.eqb_refl].
Qed.

Lemma dict_set_keys {V} (d : dict V) (k : string) (v : V) (k' : string) :
  In k' (dict_keys (dict_set d k v)) -> k' = k \/ In k' (dict_keys d).
Proof.
  induction d as [|[k0 v0] d IH]; simpl.
  - intros [<-|[]]. now left.
  - destruct (String.eqb k k0) eqn:E; simpl.
    + intros [<-|Hin]; right; [now left | now right].
    + intros [<-|Hin]; [right; now left|].
      destruct (IH Hin) as [->|Hin']; [now left | right; now right].
Qed.

Lemma dict_set_truthy {V} (d : dict V) (k : string) (v : V) :
  dict_truthy (dict_set d k v) = true.
Proof.
  destruct d as [|[k0 v0] d]; simpl; [reflexivity|].
  now destruct (String.eqb k k0).
Qed.

(** The loop of [find_interfaces] only ever adds tagged names. *)
Lemma select_tagged (snapshot acc : dict pyval) :
  Forall tagged (dict_keys acc) ->
  Forall tagged
    (dict_keys
       (fold_left
          (fun (active_interfaces : dict pyval) '(interface, state) =>
             if negb (str_contains downstream_tag interface)
             then active_interfaces
             else dict_set active_interfaces interface state)
          snapshot acc)).
Proof.
  revert acc; induction snapshot as [|[k v] rest IH]; intros acc Hacc; simpl.
  - exact Hacc.
  - apply IH. destruct (str_contains downstream_tag k) eqn:E; simpl; [|exact Hacc].
    apply Forall_forall. intros k' Hin.
    destruct (dict_set_keys _ _ _ _ Hin) as [->|Hold].
    + now apply str_contains_spec.
    + rewrite Forall_forall in Hacc. now apply Hacc.
Qed.

(** The payload names no interface that was not selected. *)
Lemma payload_keys (P : string -> Prop) (change : string) (names : list string)
    (acc : dict pyval) :
  Forall P names -> Forall P (dict_keys acc) ->
  Forall P
    (dict_keys
       (fold_left
          (fun (payload : dict pyval) interface =>
             dict_set payload interface
               (PDict [("interface-name", PStr interface); ("admin-state", PStr change)]))
          names acc)).
Proof.
  revert acc; induction names as [|k rest IH]; intros acc Hn Hacc; simpl.
  - exact Hacc.
  - inversion Hn as [|? ? Hk Hrest]; subst. apply IH; [exact Hrest|].
    apply Forall_forall. intros k' Hin.
    destruct (dict_set_keys _ _ _ _ Hin) as [->|Hold]; [exact Hk|].
    rewrite Forall_forall in Hacc. now apply Hacc.
Qed.

Lemma interface_payload_keys (P : string -> Prop) (d : dict pyval) (change : string) :
  Forall P (dict_keys d) -> Forall P (dict_keys (interface_payload d change)).
Proof. intros Hd. apply payload_keys; [exact Hd | constructor]. Qed.

Lemma payload_truthy (change : string) (names : list string) (acc : dict pyval) :
  dict_truthy acc = true \/ names <> [] ->
  dict_truthy
    (fold_left
       (fun (payload : dict pyval) interface =>
          dict_set payload interface
            (PDict [("interface-name", PStr interface); ("admin-state", PStr change)]))
       names acc) = true.
Proof.
  revert acc; induction names as [|k rest IH]; intros acc Hor; simpl.
  - destruct Hor as [Hacc|Hne]; [exact Hacc | now elim Hne].
  - apply IH. left. apply dict_set_truthy.
Qed.

(** A non-empty selection gives a non-empty payload. *)
Lemma interface_payload_truthy (d : dict pyval) (change : string) :
  dict_truthy d = true -> dict_truthy (interface_payload d change) = true.
Proof.
  intros Hd. apply payload_truthy. right.
  destruct d; [discriminate | simpl; discriminate].
Qed.

(** ** The Session Counter *)

Lemma count_loop (S : dict pyval) (names : list string) (acc : nat) :
  fold_left
    (fun number_of_active_ebgp_sessions ebgp_session =>
       if dict_contains S ebgp_session
       then number_of_active_ebgp_sessions + 1
       else number_of_active_ebgp_sessions)
    names acc
  = acc + List.length (filter (dict_contains S) names).
Proof.
  revert acc; induction names as [|k rest IH]; intros acc; simpl; [lia|].
  rewrite IH. destruct (dict_contains S k); simpl; lia.
Qed.

Lemma count_sessions_filter (C S : dict pyval) :
  count_sessions C S = List.length (filter (dict_contains S) (dict_keys C)).
Proof. unfold count_sessions. now rewrite count_loop. Qed.

(** ** Rules of the program logic *)

Section Logic.

Context {W : Type} `{World W}.

Variable P : action -> Prop.

Local Abbreviation emits P m Q := (@emits W _ P m Q).

Lemma emits_ret {A} (a : A) (Q : A -> Prop) : Q a -> emits P (ret a) Q.
Proof.
  intros Hq w. split; [constructor|].
  intros a' E. now inversion E; subst.
Qed.

Lemma emits_raise {A} (e : exn) (Q : A -> Prop) : emits P (raise e) Q.
Proof. intros w. split; [constructor | discriminate]. Qed.

Lemma emits_emit (a : action) (Q : unit -> Prop) :
  P a -> Q tt -> emits P (emit a) Q.
Proof.
  intros Hp Hq w. split; [repeat constructor; exact Hp|].
  intros [] _. exact Hq.
Qed.

Lemma emits_weaken {A} (m : M A) (Q Q' : A -> Prop) :
  emits P m Q -> (forall a, Q a -> Q' a) -> emits P m Q'.
Proof.
  intros Hm Himp w. destruct (Hm w) as [Ht Hr].
  split; [exact Ht | intros a E; apply Himp, Hr, E].
Qed.

Lemma emits_bind {A B} (m : M A) (f : A -> M B) (Q1 : A -> Prop) (Q2 : B -> Prop) :
  emits P m Q1 -> (forall a, Q1 a -> emits P (f a) Q2) -> emits P (bind m f) Q2.
Proof.
  intros Hm Hf w. unfold bind.
  destruct (Hm w) as [Ht Hr].
  destruct (m w) as [[t1 w1] [a|e]]; cbn in *.
  - destruct (Hf a (Hr a eq_refl) w1) as [Ht2 Hr2].
    destruct (f a w1) as [[t2 w2] r]; cbn in *.
    split; [apply Forall_app; now split | exact Hr2].
  - split; [exact Ht | discriminate].
Qed.

Lemma emits_try_except {A} (m : M A) (on_mgmt on_type : string -> M A) (Q : A -> Prop) :
  emits P m Q ->
  (forall msg, emits P (on_mgmt msg) Q) ->
  (forall msg, emits P (on_type msg) Q) ->
  emits P (try_except m on_mgmt on_type) Q.
Proof.
  intros Hm H1 H2 w. unfold try_except.
  destruct (Hm w) as [Ht Hr].
  destruct (m w) as [[t1 w1] [a|e]]; cbn in *; [now split|].
  destruct e; cbn; try (split; [exact Ht | discriminate]).
  - destruct (H1 msg w1) as [Ht2 Hr2].
    destruct (on_mgmt msg w1) as [[t2 w2] r]; cbn in *.
    split; [apply Forall_app; now split | exact Hr2].
  - destruct (H2 msg w1) as [Ht2 Hr2].
    destruct (on_type msg w1) as [[t2 w2] r]; cbn in *.
    split; [apply Forall_app; now split | exact Hr2].
Qed.

Lemma emits_if {A} (b : bool) (m1 m2 : M A) (Q : A -> Prop) :
  emits P m1 Q -> emits P m2 Q -> emits P (if b then m1 else m2) Q.
Proof. now destruct b. Qed.

(** The calls of the script, one rule each. *)

Lemma emits_running_get (path : string) (filter : pyval) :
  P (RunningGet path filter) ->
  emits P (connection_running_get path filter) (fun _ => True).
Proof. intros Hp w. split; [repeat constructor; exact Hp | trivial]. Qed.

Lemma emits_candidate_set (path : string) (payload : pyval) :
  P (CandidateSet path payload) ->
  emits P (connection_candidate_set path payload) (fun _ => True).
Proof.
  intros Hp w. unfold connection_candidate_set.
  destruct (candidate_set w path payload) as [r w'].
  split; [repeat constructor; exact Hp | trivial].
Qed.

Lemma emits_time_sleep (secs : nat) :
  P (Sleep secs) -> emits P (time_sleep secs) (fun _ => True).
Proof. intros Hp w. split; [repeat constructor; exact Hp | trivial]. Qed.

Lemma emits_print_log (message : string) :
  (forall text, P (Print text)) -> emits P (print_log message) (fun _ => True).
Proof. intros Hp w. split; [repeat constructor; apply Hp | trivial]. Qed.

(** [to_rows] yields and does nothing else: its trace is the rows it
    yields, the world is as it was, and a run to the end returns the rows
    yielded, one for each interface. *)
Lemma to_rows_run (d : dict pyval) (w : W) :
  exists yielded r,
    to_rows d w = (map Yield yielded, w, r)
    /\ (forall rows, r = Ok rows ->
          rows = yielded /\ map (fun x : row => fst (fst x)) rows = dict_keys d).
Proof.
  induction d as [|[key value] rest IH].
  - exists [], (Ok []). split; [reflexivity|].
    intros rows E. inversion E. now split.
  - destruct IH as (ys & r & Erest & Hr).
    cbn [to_rows]. unfold bind at 1. cbv beta iota. unfold bind at 1.
    destruct value as [s|fields];
      [exists [], (Raise (TypeError "string indices must be integers"));
       split; [reflexivity | discriminate]|].
    destruct (dict_get fields "last-oper-change") as [[data|sub]|];
      [| exists [], (Raise (AttributeError "data")); split; [reflexivity | discriminate]
       | exists [], (Raise (KeyError "last-oper-change"));
         split; [reflexivity | discriminate]].
    unfold ret at 1. cbv beta iota. unfold bind at 1.
    unfold router_timestamp_to_datetime.
    destruct (fromisoformat w (split_dot_head data)) as [last|e];
      [|exists [], (Raise e); split; [reflexivity | discriminate]].
    unfold bind at 1.
    destruct (datetime_sub w (datetime_now w) last) as [elapsed|e];
      [|exists [], (Raise e); split; [reflexivity | discriminate]].
    unfold bind at 1, emit. cbv beta iota. unfold bind at 1. rewrite Erest.
    destruct r as [rows|e].
    + exists ((key, last, elapsed) :: ys), (Ok ((key, last, elapsed) :: rows)).
      split; [cbn; now rewrite ?app_nil_r|].
      intros rows' E. inversion E; subst.
      destruct (Hr rows eq_refl) as [-> Hnames]. split; [reflexivity|].
      cbn. now rewrite Hnames.
    + exists ((key, last, elapsed) :: ys), (Raise e).
      split; [cbn; now rewrite ?app_nil_r | discriminate].
Qed.

Lemma table_lines (yielded : list row) :
  map (fun a => match a with Yield r => TableRow r | other => other end)
      (map Yield yielded)
  = map TableRow yielded.
Proof. now rewrite map_map. Qed.

(** [print_table] on the rows of a dictionary, by how the generator ends. *)
Lemma print_table_cases (d : dict pyval) (info header : string) (w : W) :
  exists yielded r,
    to_rows d w = (map Yield yielded, w, r)
    /\ (forall rows, r = Ok rows ->
          rows = yielded /\ map (fun x : row => fst (fst x)) rows = dict_keys d)
    /\ print_table (to_rows d) info header w
       = match r with
         | Ok rows =>
             ((TableHeader ("Interfaces modified by script " ++ header)%string
                 [ (20, "Interface"); (40, "Last oper change");
                   (18, (info ++ " since")%string) ]%nat
               :: map TableRow yielded
               ++ [TableFooter "Interfaces" (List.length rows)])%list, w, Ok tt)
         | Raise e =>
             (TableHeader ("Interfaces modified by script " ++ header)%string
                [ (20, "Interface"); (40, "Last oper change");
                  (18, (info ++ " since")%string) ]%nat
              :: map TableRow yielded, w, Raise e)
         end.
Proof.
  destruct (to_rows_run d w) as (ys & r & E & Hr).
  exists ys, r. split; [exact E|]. split; [exact Hr|].
  unfold print_table, table_print. rewrite E, table_lines.
  now destruct r.
Qed.

Lemma emits_to_rows (d : dict pyval) :
  (forall a, is_table a = true -> P a) ->
  emits P (to_rows d) (fun _ => True).
Proof.
  intros Hp w. destruct (to_rows_run d w) as (ys & r & -> & _).
  split; [|trivial]. cbn. apply Forall_forall. intros a Hin.
  apply in_map_iff in Hin. destruct Hin as (x & <- & _). now apply Hp.
Qed.

Lemma emits_print_table (d : dict pyval) (info header : string) :
  (forall a, is_table a = true -> P a) ->
  emits P (print_table (to_rows d) info header) (fun _ => True).
Proof.
  intros Hp w.
  destruct (print_table_cases d info header w) as (ys & r & _ & _ & ->).
  assert (Hrows : Forall P (map TableRow ys)).
  { apply Forall_forall. intros a Hin.
    apply in_map_iff in Hin. destruct Hin as (x & <- & _). now apply Hp. }
  split; [|trivial].
  destruct r as [rows|e]; cbn [trace_of fst].
  - constructor; [now apply Hp|]. apply Forall_app. split; [exact Hrows|].
    constructor; [now apply Hp | constructor].
  - constructor; [now apply Hp | exact Hrows].
Qed.

Lemma emits_find_interfaces (oper_status_filter : string) :
  (forall path filter, P (RunningGet path filter)) ->
  emits P (find_interfaces oper_status_filter)
        (fun d => Forall tagged (dict_keys d)).
Proof.
  intros Hp. unfold find_interfaces.
  eapply emits_bind; [apply emits_running_get, Hp|].
  intros snapshot _. apply emits_ret, select_tagged. constructor.
Qed.

(** What the calls other than [candidate.set] and the session's own must
    satisfy for a handler to satisfy [P]. *)
Hypothesis P_other : forall a, is_set a = false -> is_session a = false -> P a.

Lemma emits_modify_downstream_interfaces (d : dict pyval) (change : string) :
  P (CandidateSet cfg_path (cfg_payload d change)) ->
  emits P (modify_downstream_interfaces d change) (fun _ => True).
Proof.
  intros Hset. unfold modify_downstream_interfaces.
  eapply emits_bind with (Q1 := fun _ => True).
  { apply emits_if; [now apply emits_ret | apply emits_raise]. }
  intros _ _. eapply emits_bind with (Q1 := fun _ => True).
  { apply emits_emit; [now apply P_other | trivial]. }
  intros _ _. eapply emits_bind with (Q1 := fun _ => True).
  { apply emits_if; [|now apply emits_ret].
    apply emits_try_except.
    - apply emits_candidate_set, Hset.
    - intros msg. apply emits_emit; [now apply P_other | trivial].
    - intros msg. eapply emits_bind with (Q1 := fun _ => True).
      + apply emits_emit; [now apply P_other | trivial].
      + intros _ _. apply emits_emit; [now apply P_other | trivial]. }
  intros _ _. now apply emits_ret.
Qed.

Lemma emits_count : emits P count_ebgp_sessions_established (fun _ => True).
Proof.
  unfold count_ebgp_sessions_established.
  eapply emits_bind with (Q1 := fun _ => True);
    [apply emits_running_get; now apply P_other|].
  intros S _. eapply emits_bind with (Q1 := fun _ => True);
    [apply emits_running_get; now apply P_other|].
  intros C _. now apply emits_ret.
Qed.

(** Select, report, pause, mutate, pause, query again, report: the part
    the two handlers share, up to the direction. *)
Lemma emits_transition (before after change info1 header1 info2 header2 idle : string) :
  (forall d, Forall tagged (dict_keys d) ->
             P (CandidateSet cfg_path (cfg_payload d change))) ->
  emits P
    (active_interfaces <- find_interfaces before ;;
     if dict_truthy active_interfaces
     then
       print_table (to_rows active_interfaces) info1 header1 ;;
       time_sleep 1 ;;
       modify_downstream_interfaces active_interfaces change ;;
       time_sleep 1 ;;
       inactive_interfaces <- find_interfaces after ;;
       if dict_truthy inactive_interfaces
       then print_table (to_rows inactive_interfaces) info2 header2
       else ret tt
     else print idle)
    (fun _ => True).
Proof.
  intros Hset.
  eapply emits_bind; [apply emits_find_interfaces; intros; now apply P_other|].
  intros d Hd. apply emits_if; [|apply emits_emit; [now apply P_other | trivial]].
  eapply emits_bind with (Q1 := fun _ => True);
    [apply emits_print_table; intros a Ha; apply P_other; now destruct a|].
  intros _ _. eapply emits_bind with (Q1 := fun _ => True);
    [apply emits_time_sleep; now apply P_other|].
  intros _ _. eapply emits_bind with (Q1 := fun _ => True);
    [apply emits_modify_downstream_interfaces, Hset, Hd|].
  intros _ _. eapply emits_bind with (Q1 := fun _ => True);
    [apply emits_time_sleep; now apply P_other|].
  intros _ _. eapply emits_bind;
    [apply emits_find_interfaces; intros; now apply P_other|].
  intros d' _. apply emits_if; [|now apply emits_ret].
  apply emits_print_table; intros a Ha; apply P_other; now destruct a.
Qed.

Hypothesis P_set : forall d change,
  Forall tagged (dict_keys d) -> P (CandidateSet cfg_path (cfg_payload d change)).

Lemma emits_backwardsHandler (subject : string) :
  emits P (backwardsHandler subject) (fun _ => True).
Proof.
  unfold backwardsHandler.
  eapply emits_bind with (Q1 := fun _ => True);
    [apply emits_print_log; intros; now apply P_other|].
  intros _ _. eapply emits_bind; [apply emits_count|].
  intros n _. apply emits_if; [apply emits_print_log; intros; now apply P_other|].
  eapply emits_bind with (Q1 := fun _ => True);
    [apply emits_print_log; intros; now apply P_other|].
  intros _ _. apply emits_transition. intros d. apply P_set.
Qed.

Lemma emits_establishedHandler (subject : string) :
  emits P (establishedHandler subject) (fun _ => True).
Proof.
  unfold establishedHandler.
  eapply emits_bind with (Q1 := fun _ => True);
    [apply emits_print_log; intros; now apply P_other|].
  intros _ _. eapply emits_bind; [apply emits_count|].
  intros n _. apply emits_if; [|now apply emits_ret].
  apply emits_transition. intros d. apply P_set.
Qed.

End Logic.

(** ** What a run may touch *)

Lemma mutated_app (t1 t2 : list action) :
  mutated (t1 ++ t2) = (mutated t1 ++ mutated t2)%list.
Proof. apply flat_map_app. Qed.

Lemma writes_tagged_all (t : list action) :
  Forall writes_tagged t -> Forall tagged (mutated t).
Proof.
  induction 1 as [|a t Ha _ IH]; [constructor|].
  change (a :: t) with ([a] ++ t)%list.
  rewrite mutated_app. apply Forall_app. now split.
Qed.

Lemma writes_tagged_other (a : action) : is_set a = false -> writes_tagged a.
Proof. destruct a; intros E; try discriminate; constructor. Qed.

Lemma writes_tagged_set (d : dict pyval) (change : string) :
  Forall tagged (dict_keys d) ->
  writes_tagged (CandidateSet cfg_path (cfg_payload d change)).
Proof.
  intros Hd. unfold writes_tagged, mutated, cfg_payload. cbn.
  rewrite !app_nil_r. now apply interface_payload_keys.
Qed.

(** [main] satisfies what its calls satisfy. *)
Lemma emits_main {W} `{World W} (P : action -> Prop) :
  (forall a, is_set a = false -> P a) ->
  (forall d change, Forall tagged (dict_keys d) ->
                    P (CandidateSet cfg_path (cfg_payload d change))) ->
  emits P (main (W := W)) (fun _ => True).
Proof.
  intros Hother Hset. unfold main, connect, disconnect.
  eapply emits_bind with (Q1 := fun _ => True); [now apply emits_emit; auto|].
  intros _ _. eapply emits_bind with (Q1 := fun _ => True).
  { intros w. split; [repeat constructor; now apply Hother | trivial]. }
  intros [event|] _; [|now apply emits_emit; auto].
  eapply emits_bind with (Q1 := fun _ => True).
  { unfold subject_starts_with_digit. destruct (subject event);
      [apply emits_raise | now apply emits_ret]. }
  intros malformed _. apply emits_if; [now apply emits_emit; auto|].
  eapply emits_bind with (Q1 := fun _ => True); [|intros; now apply emits_emit; auto].
  repeat apply emits_if.
  - apply emits_backwardsHandler; auto.
  - apply emits_establishedHandler; auto.
  - now apply emits_ret.
Qed.

(** C1: in every run of the controller, every interface a
    [candidate.set] of the run writes has a name that contains the
    downstream tag [tester], and so has every interface [find_interfaces]
    returns, whatever the router answers. *)
Theorem only_tagged_interfaces {W} `{World W} (w : W) :
  Forall tagged (mutated (trace_of (main w)))
  /\ (forall oper_status_filter d,
        result_of (find_interfaces oper_status_filter w) = Ok d ->
        Forall tagged (dict_keys d)).
Proof.
  split.
  - apply writes_tagged_all.
    apply (emits_main writes_tagged writes_tagged_other writes_tagged_set w).
  - intros f d E.
    destruct (emits_find_interfaces (fun _ => True) f (fun _ _ => I) w) as [_ Hr].
    now apply Hr.
Qed.

(** The lab run writes [tester4] and [tester5], and nothing else. *)
Lemma only_tagged_interfaces_witness :
  result_of (find_interfaces "up" SimRouter.lab_down)
  = Ok (map SimRouter.interface_entry
          [SimRouter.mkInterface "tester4" "up" "enable" "2023-05-11T22:14:01.3Z";
           SimRouter.mkInterface "tester5" "up" "enable" "2023-05-11T22:14:01.3Z"])
  /\ mutated (trace_of (main SimRouter.lab_down)) = ["tester4"; "tester5"]
  /\ Forall tagged (mutated (trace_of (main SimRouter.lab_down)))
  /\ Forall tagged ["tester4"; "tester5"].
Proof.
  split; [reflexivity|]. split; [reflexivity|].
  split; [exact (proj1 (only_tagged_interfaces SimRouter.lab_down))|].
  exact (proj2 (only_tagged_interfaces SimRouter.lab_down) "up" _ eq_refl).
Defined.

(** C4: when the two queries answer with the snapshots [S] (the
    neighbours in state Established) and [C] (the neighbours configured in
    the monitored group), the Session Counter returns the number of peers
    of [C] that appear in [S]: the size of a duplicate-free list of exactly
    those peers.  The count is at most the size of [C], and it is 0,
    returned normally, when either snapshot is empty. *)
Theorem session_count_exact {W} `{World W} (w : W) (C S : dict pyval) :
  NoDup (dict_keys C) ->
  running_get w bgp_state_path nb_filter = Ok S ->
  running_get w bgp_conf_path ebgp_group_filter = Ok C ->
  exists n established,
    count_ebgp_sessions_established w
    = ([RunningGet bgp_state_path nb_filter;
        RunningGet bgp_conf_path ebgp_group_filter], w, Ok n)
    /\ NoDup established
    /\ (forall p, In p established <-> In p (dict_keys C) /\ In p (dict_keys S))
    /\ n = List.length established
    /\ 0 <= n <= List.length C
    /\ (C = [] \/ S = [] -> n = 0).
Proof.
  intros Hnd HS HC.
  exists (count_sessions C S), (filter (dict_contains S) (dict_keys C)).
  split.
  { unfold count_ebgp_sessions_established, bind, connection_running_get.
    rewrite HS, HC. reflexivity. }
  split; [now apply NoDup_filter|].
  split.
  { intros p. rewrite filter_In, dict_contains_In. tauto. }
  split; [apply count_sessions_filter|].
  split.
  { split; [lia|]. rewrite count_sessions_filter.
    unfold dict_keys at 1.
    rewrite <- (length_map fst C). apply filter_length_le. }
  intros [->| ->]; [reflexivity|].
  rewrite count_sessions_filter.
  induction (dict_keys C) as [|k rest IH]; [reflexivity|].
  inversion Hnd; subst. cbn. now apply IH.
Qed.

Lemma session_count_exact_witness :
  NoDup (dict_keys [SimRouter.configured_entry ("10.1.5.5", "rr")])
  /\ running_get SimRouter.lab_up bgp_state_path nb_filter
     = Ok [SimRouter.neighbor_entry ("10.1.5.5", "Established")]
  /\ running_get SimRouter.lab_up bgp_conf_path ebgp_group_filter
     = Ok [SimRouter.configured_entry ("10.1.5.5", "rr")]
  /\ exists n established,
       count_ebgp_sessions_established SimRouter.lab_up
       = ([RunningGet bgp_state_path nb_filter;
           RunningGet bgp_conf_path ebgp_group_filter], SimRouter.lab_up, Ok n)
       /\ NoDup established
       /\ (forall p, In p established <->
                     In p (dict_keys [SimRouter.configured_entry ("10.1.5.5", "rr")])
                     /\ In p (dict_keys [SimRouter.neighbor_entry ("10.1.5.5", "Established")]))
       /\ n = List.length established
       /\ 0 <= n <= List.length [SimRouter.configured_entry ("10.1.5.5", "rr")]
       /\ ([SimRouter.configured_entry ("10.1.5.5", "rr")] = []
           \/ [SimRouter.neighbor_entry ("10.1.5.5", "Established")] = [] -> n = 0).
Proof.
  assert (Hnd : NoDup (dict_keys [SimRouter.configured_entry ("10.1.5.5", "rr")])).
  { constructor; [intros [] | constructor]. }
  split; [exact Hnd|]. split; [reflexivity|]. split; [reflexivity|].
  exact (session_count_exact SimRouter.lab_up _ _ Hnd eq_refl eq_refl).
Defined.

(** ** How the parts run *)

Section Runs.

Context {W : Type} `{World W}.

Lemma run_bind {A B} (m : M A) (f : A -> M B) (w : W) :
  bind m f w
  = match m w with
    | (t1, w1, Ok a) =>
        match f a w1 with (t2, w2, r) => ((t1 ++ t2)%list, w2, r) end
    | (t1, w1, Raise e) => (t1, w1, Raise e)
    end.
Proof. reflexivity. Qed.

Lemma in_bind_l {A B} (m : M A) (f : A -> M B) (w : W) (x : action) :
  In x (trace_of (m w)) -> In x (trace_of (bind m f w)).
Proof.
  intros Hin. rewrite run_bind.
  destruct (m w) as [[t1 w1] [a|e]]; [|exact Hin].
  destruct (f a w1) as [[t2 w2] r]. apply in_or_app. now left.
Qed.

Lemma in_bind_r {A B} (m : M A) (f : A -> M B) (w w1 : W) (t1 : list action)
    (a : A) (x : action) :
  m w = (t1, w1, Ok a) -> In x (trace_of (f a w1)) -> In x (trace_of (bind m f w)).
Proof.
  intros E Hin. rewrite run_bind, E.
  destruct (f a w1) as [[t2 w2] r]. apply in_or_app. now right.
Qed.

Lemma quiet_app (t1 t2 : list action) : quiet t1 -> quiet t2 -> quiet (t1 ++ t2).
Proof. intros H1 H2. apply Forall_app. now split. Qed.

Lemma quiet_mutations (t : list action) : quiet t -> mutations t = 0.
Proof.
  unfold mutations. induction 1 as [|a t [Ha _] _ IH]; [reflexivity|].
  cbn. now rewrite Ha.
Qed.

Lemma quiet_pauses (t : list action) : quiet t -> pauses t = 0.
Proof.
  unfold pauses. induction 1 as [|a t [_ Ha] _ IH]; [reflexivity|].
  cbn. now rewrite Ha.
Qed.

Lemma quiet_mutated (t : list action) : quiet t -> mutated t = [].
Proof.
  induction 1 as [|a t [Ha _] _ IH]; [reflexivity|].
  change (a :: t) with ([a] ++ t)%list. rewrite mutated_app, IH.
  destruct a; try discriminate; reflexivity.
Qed.

Lemma mutations_app (t1 t2 : list action) :
  mutations (t1 ++ t2) = mutations t1 + mutations t2.
Proof. unfold mutations. now rewrite filter_app, length_app. Qed.

Lemma pauses_app (t1 t2 : list action) : pauses (t1 ++ t2) = pauses t1 + pauses t2.
Proof. unfold pauses. now rewrite filter_app, length_app. Qed.

(** A query is one call; it leaves the router as it is. *)
Lemma find_interfaces_run (oper_status_filter : string) (w : W) :
  exists r,
    find_interfaces oper_status_filter w
    = ([RunningGet interface_state_path (oper_state_filter oper_status_filter)], w, r).
Proof.
  unfold find_interfaces. rewrite run_bind. unfold connection_running_get.
  destruct (running_get w interface_state_path
              (PDict [("oper-state", PStr oper_status_filter)])) as [snapshot|e];
    eexists; reflexivity.
Qed.

(** The Session Counter asks twice and leaves the router as it is. *)
Lemma count_run (w : W) :
  exists t r,
    count_ebgp_sessions_established w = (t, w, r) /\ quiet t
    /\ (forall n, r = Ok n ->
          t = [RunningGet bgp_state_path nb_filter;
               RunningGet bgp_conf_path ebgp_group_filter]).
Proof.
  unfold count_ebgp_sessions_established. rewrite run_bind.
  unfold connection_running_get at 1.
  destruct (running_get w bgp_state_path nb_filter) as [S|e].
  - rewrite run_bind. unfold connection_running_get.
    destruct (running_get w bgp_conf_path ebgp_group_filter) as [C|e];
      do 2 eexists; (split; [reflexivity|]);
      (split; [repeat constructor | intros n E; now inversion E]).
  - do 2 eexists. split; [reflexivity|].
    split; [repeat constructor | discriminate].
Qed.

(** The report calls nothing but the table printer. *)
Lemma print_table_run (d : dict pyval) (info header : string) (w : W) :
  exists t r,
    print_table (to_rows d) info header w = (t, w, r) /\ quiet t
    /\ (forall rows, result_of (to_rows d w) = Ok rows -> r = Ok tt).
Proof.
  destruct (print_table_cases d info header w) as (ys & r & E & _ & Ep).
  assert (Hrows : quiet (map TableRow ys)).
  { apply Forall_forall. intros a Hin.
    apply in_map_iff in Hin. destruct Hin as (x & <- & _). now split. }
  rewrite Ep, E. destruct r as [rows|e]; do 2 eexists; (split; [reflexivity|]).
  - split; [|reflexivity].
    constructor; [now split|]. apply quiet_app; [exact Hrows | repeat constructor].
  - split; [|discriminate]. constructor; [now split | exact Hrows].
Qed.

(** [modify_downstream_interfaces] on a non-empty selection, by what
    [candidate.set] answers. *)
Lemma modify_run (d : dict pyval) (change : string) (w : W) :
  existsb (String.eqb change) ["enable"; "disable"] = true ->
  dict_truthy d = true ->
  modify_downstream_interfaces d change w
  = match candidate_set w cfg_path (cfg_payload d change) with
    | (Ok _, w') =>
        ([Print (to_be_brought d change);
          CandidateSet cfg_path (cfg_payload d change)], w', Ok true)
    | (Raise (SrosMgmtError args), w') =>
        ([Print (to_be_brought d change);
          CandidateSet cfg_path (cfg_payload d change);
          Print ("Disabling the active interfaces failed due to an error:"
                 ++ nl ++ tab ++ args)], w', Ok true)
    | (Raise (TypeError error), w') =>
        ([Print (to_be_brought d change);
          CandidateSet cfg_path (cfg_payload d change);
          Print error;
          PrintValue (cfg_payload d change)], w', Ok true)
    | (Raise e, w') =>
        ([Print (to_be_brought d change);
          CandidateSet cfg_path (cfg_payload d change)], w', Raise e)
    end.
Proof.
  intros Hchange Hd. unfold modify_downstream_interfaces.
  rewrite Hchange, (interface_payload_truthy d change Hd).
  unfold bind, try_except, connection_candidate_set, print, print_value, emit, ret.
  fold (cfg_payload d change).
  destruct (candidate_set w cfg_path (cfg_payload d change)) as [[[]|e] w'];
    [reflexivity|].
  destruct e; reflexivity.
Qed.

Lemma modify_cases (d : dict pyval) (change : string) (w : W) :
  existsb (String.eqb change) ["enable"; "disable"] = true ->
  dict_truthy d = true ->
  exists mid w' r,
    modify_downstream_interfaces d change w
    = (Print (to_be_brought d change)
       :: CandidateSet cfg_path (cfg_payload d change) :: mid, w', r)
    /\ quiet mid.
Proof.
  intros Hchange Hd. rewrite (modify_run d change w Hchange Hd).
  destruct (candidate_set w cfg_path (cfg_payload d change)) as [[[]|e] w'].
  - do 3 eexists. split; [reflexivity | constructor].
  - destruct e; do 3 eexists;
      (split; [reflexivity | repeat constructor]).
Qed.

End Runs.

(** ** The transition both handlers share *)

Section Transition.

Context {W : Type} `{World W}.

Variables before after change info1 header1 info2 header2 idle : string.

Local Abbreviation transition :=
  (active_interfaces <- find_interfaces before ;;
   if dict_truthy active_interfaces
   then
     print_table (to_rows active_interfaces) info1 header1 ;;
     time_sleep 1 ;;
     modify_downstream_interfaces active_interfaces change ;;
     time_sleep 1 ;;
     inactive_interfaces <- find_interfaces after ;;
     if dict_truthy inactive_interfaces
     then print_table (to_rows inactive_interfaces) info2 header2
     else ret tt
   else print idle).

(** Nothing selected: one query, one line, no pause, no mutation. *)
Lemma transition_idle (w : W) :
  result_of (find_interfaces before w) = Ok [] ->
  transition w
  = ([RunningGet interface_state_path (oper_state_filter before); Print idle], w, Ok tt).
Proof.
  intros E. rewrite run_bind.
  destruct (find_interfaces_run before w) as [r E0].
  rewrite E0 in *. cbn in E. subst r. reflexivity.
Qed.

(** Something selected and reported: the mutator is called with exactly
    the selection. *)
Lemma transition_mutates (w : W) (d : dict pyval) (rows : list row) :
  existsb (String.eqb change) ["enable"; "disable"] = true ->
  result_of (find_interfaces before w) = Ok d ->
  dict_truthy d = true ->
  result_of (to_rows d w) = Ok rows ->
  In (CandidateSet cfg_path (cfg_payload d change)) (trace_of (transition w)).
Proof.
  intros Hchange E Hd Hrows.
  destruct (find_interfaces_run before w) as [r E0].
  rewrite E0 in E. cbn in E. subst r.
  eapply in_bind_r; [exact E0|]. cbv beta. rewrite Hd.
  destruct (print_table_run d info1 header1 w) as (tp & rp & Ep & _ & Hok).
  rewrite (Hok rows Hrows) in Ep.
  eapply in_bind_r; [exact Ep|].
  eapply in_bind_r; [reflexivity|].
  apply in_bind_l.
  destruct (modify_cases d change (elapse w 1) Hchange Hd) as (mid & w2 & r2 & Em & _).
  rewrite Em. right. now left.
Qed.

(** A transition that mutates and returns: report, pause, mutation,
    pause, query with the opposite filter. *)
Lemma transition_settles (direction : string) (w w' : W) (t : list action) :
  header1 = direction ++ " [BEFORE]" ->
  existsb (String.eqb change) ["enable"; "disable"] = true ->
  transition w = (t, w', Ok tt) ->
  mutations t <> 0 ->
  settles_around change after t.
Proof.
  intros Hheader Hchange E Hmut. rewrite run_bind in E.
  destruct (find_interfaces_run before w) as [r0 E0]. rewrite E0 in E.
  destruct r0 as [d|e]; [|congruence]. cbv beta iota in E.
  destruct (dict_truthy d) eqn:Hd.
  2: { unfold print, emit in E. inversion E; subst. now elim Hmut. }
  rewrite run_bind in E.
  destruct (print_table_cases d info1 header1 w) as (ys & rr & _ & Hr & Ep).
  rewrite Ep in E. destruct rr as [rows|e]; [|congruence].
  destruct (Hr rows eq_refl) as [-> Hnames]. cbv beta iota in E.
  rewrite run_bind in E. unfold time_sleep at 1 in E. cbv beta iota in E.
  rewrite run_bind in E.
  destruct (modify_cases d change (elapse w 1) Hchange Hd) as (mid & w2 & r2 & Em & Hqm).
  rewrite Em in E. destruct r2 as [b|e]; [|congruence]. cbv beta iota in E.
  rewrite run_bind in E. unfold time_sleep at 1 in E. cbv beta iota in E.
  rewrite run_bind in E.
  destruct (find_interfaces_run after (elapse w2 1)) as [r3 E3]. rewrite E3 in E.
  destruct r3 as [d3|e]; [|congruence]. cbv beta iota in E.
  assert (Hpre : quiet [RunningGet interface_state_path (oper_state_filter before)])
    by (repeat constructor).
  assert (Hrep : before_report d
            (TableHeader ("Interfaces modified by script " ++ header1)%string
               [ (20, "Interface"); (40, "Last oper change");
                 (18, (info1 ++ " since")%string) ]%nat
             :: map TableRow ys ++ [TableFooter "Interfaces" (List.length ys)])%list).
  { rewrite Hheader. do 3 eexists. split; [reflexivity | exact Hnames]. }
  destruct (dict_truthy d3).
  - destruct (print_table_run d3 info2 header2 (elapse w2 1)) as (tp2 & rp2 & Ep2 & Hq2 & _).
    rewrite Ep2 in E. inversion E; subst.
    eexists [RunningGet interface_state_path (oper_state_filter before)], _, d, mid, tp2.
    split; [|split; [exact Hpre | split; [exact Hrep | now split]]].
    cbn [app]. now rewrite <- !app_assoc.
  - unfold ret in E. inversion E; subst.
    eexists [RunningGet interface_state_path (oper_state_filter before)], _, d, mid, [].
    split; [|split; [exact Hpre | split; [exact Hrep | split; [exact Hqm | constructor]]]].
    cbn [app]. now rewrite <- !app_assoc.
Qed.

End Transition.

Lemma before_report_quiet (selected : dict pyval) (report : list action) :
  before_report selected report -> quiet report.
Proof.
  intros (direction & cols & rows & -> & _).
  constructor; [now split|]. apply Forall_app. split; [|repeat constructor].
  apply Forall_forall. intros a Hin.
  apply in_map_iff in Hin. destruct Hin as (x & <- & _). now split.
Qed.

Lemma settles_around_prefix (change opposite : string) (pre t : list action) :
  quiet pre -> settles_around change opposite t ->
  settles_around change opposite (pre ++ t).
Proof.
  intros Hq (pre' & report & d & mid2 & post & -> & H1 & H2 & H3 & H4).
  exists (pre ++ pre')%list, report, d, mid2, post.
  split; [now rewrite <- app_assoc|].
  repeat split; try assumption. now apply Forall_app.
Qed.

Lemma settles_around_suffix (change opposite : string) (t post : list action) :
  quiet post -> settles_around change opposite t ->
  settles_around change opposite (t ++ post).
Proof.
  intros Hq (pre & report & d & mid2 & post' & -> & H1 & H2 & H3 & H4).
  exists pre, report, d, mid2, (post' ++ post)%list.
  split.
  - rewrite <- !app_assoc. cbn [app]. rewrite <- !app_assoc. reflexivity.
  - repeat split; try assumption. now apply Forall_app.
Qed.

Lemma pauses_cons (a : action) (t : list action) :
  pauses (a :: t) = (if is_sleep a then 1 else 0) + pauses t.
Proof. unfold pauses. cbn. now destruct (is_sleep a). Qed.

Lemma mutations_cons (a : action) (t : list action) :
  mutations (a :: t) = (if is_set a then 1 else 0) + mutations t.
Proof. unfold mutations. cbn. now destruct (is_set a). Qed.

Lemma settles_around_pauses (change opposite : string) (t : list action) :
  settles_around change opposite t -> pauses t = 2 /\ mutations t = 1.
Proof.
  intros (pre & report & d & mid2 & post & -> & H1 & Hrep & H3 & H4).
  pose proof (before_report_quiet _ _ Hrep) as H2.
  split.
  - repeat (rewrite ?pauses_app, ?pauses_cons).
    rewrite (quiet_pauses _ H1), (quiet_pauses _ H2),
      (quiet_pauses _ H3), (quiet_pauses _ H4).
    reflexivity.
  - repeat (rewrite ?mutations_app, ?mutations_cons).
    rewrite (quiet_mutations _ H1), (quiet_mutations _ H2),
      (quiet_mutations _ H3), (quiet_mutations _ H4).
    reflexivity.
Qed.

(** ** The handlers *)

Section Handlers.

Context {W : Type} `{World W}.

Lemma print_log_run (message : string) (w : W) :
  print_log message w
  = ([Print ("At time " ++ strftime_localtime w ++ ": " ++ message)], w, Ok tt).
Proof. reflexivity. Qed.

(** Below the threshold the degradation handler is a log line away from
    the transition; at or above it, it only logs. *)
Lemma backwardsHandler_run (subject : string) (w : W) (count : nat) :
  result_of (count_ebgp_sessions_established w) = Ok count ->
  exists pre,
    quiet pre
    /\ if (MIN_NUM_ACTIVE_BGP_SESSIONS <=? count)%nat
       then backwardsHandler subject w = (pre, w, Ok tt)
       else
         forall t w' r,
           (active_interfaces <- find_interfaces "up" ;;
            if dict_truthy active_interfaces
            then
              print_table (to_rows active_interfaces) "Up" "(up -> down) [BEFORE]" ;;
              time_sleep 1 ;;
              modify_downstream_interfaces active_interfaces "disable" ;;
              time_sleep 1 ;;
              inactive_interfaces <- find_interfaces "down" ;;
              if dict_truthy inactive_interfaces
              then print_table (to_rows inactive_interfaces) "Down" "(up -> down) [AFTER]"
              else ret tt
            else print "No changes required, interfaces already down.") w
           = (t, w', r) ->
           backwardsHandler subject w = ((pre ++ t)%list, w', r).
Proof.
  intros Ec.
  destruct (count_run w) as (tc & rc & Erun & Hqc & _).
  rewrite Erun in Ec. cbn in Ec. subst rc.
  unfold backwardsHandler.
  destruct (MIN_NUM_ACTIVE_BGP_SESSIONS <=? count)%nat eqn:Hle.
  - eexists. split; [|rewrite run_bind, print_log_run; cbv beta iota;
                      rewrite run_bind, Erun; cbv beta iota;
                      rewrite Hle, print_log_run; reflexivity].
    apply quiet_app; [repeat constructor|].
    apply quiet_app; [exact Hqc | repeat constructor].
  - eexists. split; [|intros t w' r Et;
                      rewrite run_bind, print_log_run; cbv beta iota;
                      rewrite run_bind, Erun; cbv beta iota;
                      rewrite Hle, run_bind, print_log_run; cbv beta iota;
                      rewrite Et, !app_assoc; reflexivity].
    apply quiet_app; [|repeat constructor].
    apply quiet_app; [repeat constructor | exact Hqc].
Qed.

(** At or above the threshold the establishment handler is the
    transition after a log line and the count; below it, it stops. *)
Lemma establishedHandler_run (subject : string) (w : W) (count : nat) :
  result_of (count_ebgp_sessions_established w) = Ok count ->
  exists pre,
    quiet pre
    /\ if (MIN_NUM_ACTIVE_BGP_SESSIONS <=? count)%nat
       then
         forall t w' r,
           (active_interfaces <- find_interfaces "down" ;;
            if dict_truthy active_interfaces
            then
              print_table (to_rows active_interfaces) "Down" "(down -> up) [BEFORE]" ;;
              time_sleep 1 ;;
              modify_downstream_interfaces active_interfaces "enable" ;;
              time_sleep 1 ;;
              inactive_interfaces <- find_interfaces "up" ;;
              if dict_truthy inactive_interfaces
              then print_table (to_rows inactive_interfaces) "Up" "(down -> up) [AFTER]"
              else ret tt
            else print "No changes required, interfaces already up.") w
           = (t, w', r) ->
           establishedHandler subject w = ((pre ++ t)%list, w', r)
       else establishedHandler subject w = (pre, w, Ok tt).
Proof.
  intros Ec.
  destruct (count_run w) as (tc & rc & Erun & Hqc & _).
  rewrite Erun in Ec. cbn in Ec. subst rc.
  unfold establishedHandler.
  destruct (MIN_NUM_ACTIVE_BGP_SESSIONS <=? count)%nat eqn:Hle.
  - eexists. split; [|intros t w' r Et;
                      rewrite run_bind, print_log_run; cbv beta iota;
                      rewrite run_bind, Erun; cbv beta iota;
                      rewrite Hle, Et, app_assoc; reflexivity].
    apply quiet_app; [repeat constructor | exact Hqc].
  - eexists. split; [|rewrite run_bind, print_log_run; cbv beta iota;
                      rewrite run_bind, Erun; cbv beta iota;
                      rewrite Hle; reflexivity].
    apply quiet_app; [repeat constructor|].
    apply quiet_app; [exact Hqc | constructor].
Qed.

(** A handler whose count fails stops there. *)
Lemma handler_count_fails (subject : string) (w : W) (e : exn) :
  result_of (count_ebgp_sessions_established w) = Raise e ->
  exists pre,
    quiet pre
    /\ backwardsHandler subject w = (pre, w, Raise e)
    /\ exists pre', quiet pre' /\ establishedHandler subject w = (pre', w, Raise e).
Proof.
  intros Ec.
  destruct (count_run w) as (tc & rc & Erun & Hqc & _).
  rewrite Erun in Ec. cbn in Ec. subst rc.
  eexists. split; [|split].
  2: { unfold backwardsHandler.
       rewrite run_bind, print_log_run; cbv beta iota.
       rewrite run_bind, Erun. reflexivity. }
  - apply quiet_app; [repeat constructor | exact Hqc].
  - eexists. split.
    2: { unfold establishedHandler.
         rewrite run_bind, print_log_run; cbv beta iota.
         rewrite run_bind, Erun. reflexivity. }
    apply quiet_app; [repeat constructor | exact Hqc].
Qed.

End Handlers.

(** ** The Event Router *)

Section Router.

Context {W : Type} `{World W}.

Lemma then_disconnect_run (handler : M unit) (w : W) :
  (handler ;; disconnect) w
  = match handler w with
    | (th, wh, Ok _) => ((th ++ [Disconnect])%list, wh, Ok tt)
    | (th, wh, Raise e) => (th, wh, Raise e)
    end.
Proof.
  rewrite run_bind. destruct (handler w) as [[th wh] [[]|e]]; reflexivity.
Qed.

(** [main], case by case. *)
Lemma main_run (w : W) :
  main w
  = match get_event w with
    | None => ([Connect unused unused; GetEvent; Disconnect], w, Ok tt)
    | Some event =>
        match subject event with
        | EmptyString =>
            ([Connect unused unused; GetEvent], w,
             Raise (IndexError "string index out of range"))
        | String c _ =>
            if isdigit c
            then ([Connect unused unused; GetEvent; Disconnect], w, Ok tt)
            else
              match handler_for event w with
              | (th, wh, Ok _) =>
                  (Connect unused unused :: GetEvent :: (th ++ [Disconnect])%list,
                   wh, Ok tt)
              | (th, wh, Raise e) =>
                  (Connect unused unused :: GetEvent :: th, wh, Raise e)
              end
        end
    end.
Proof.
  unfold main. rewrite run_bind. unfold connect, emit at 1. cbv beta iota.
  rewrite run_bind. unfold ehs_get_event at 1. cbv beta iota.
  destruct (get_event w) as [[id subj]|]; [|reflexivity].
  rewrite run_bind. unfold subject_starts_with_digit.
  cbv beta iota delta [subject eventid].
  destruct subj as [|c rest]; [reflexivity|].
  unfold ret at 1. cbv beta iota.
  destruct (isdigit c); [reflexivity|].
  rewrite then_disconnect_run.
  remember (handler_for (mkEvent id (String c rest))) as handler eqn:Eh.
  unfold handler_for in Eh. cbv beta iota delta [subject eventid] in Eh.
  rewrite <- Eh.
  destruct (handler w) as [[th wh] [[]|e]]; reflexivity.
Qed.

Lemma handler_for_not_session (event : Event) (w : W) :
  Forall (fun a => is_session a = false) (trace_of (handler_for event w)).
Proof.
  assert (Hother : forall a, is_set a = false -> is_session a = false ->
                             is_session a = false) by auto.
  assert (Hset : forall d change, Forall tagged (dict_keys d) ->
                   is_session (CandidateSet cfg_path (cfg_payload d change)) = false)
    by reflexivity.
  unfold handler_for.
  destruct (eventid event =? 2039)%Z;
    [apply (emits_backwardsHandler _ Hother Hset (subject event) w)|].
  destruct (eventid event =? 2038)%Z;
    [apply (emits_establishedHandler _ Hother Hset (subject event) w)|].
  constructor.
Qed.

End Router.

(** ** The threshold *)

(** C2: a degradation event whose session count is at least
    [MIN_NUM_ACTIVE_BGP_SESSIONS] ends normally with no [candidate.set] and
    the router untouched.  A count below it starts the restriction: the
    handler selects with filter [up], and a non-empty selection that can
    be reported is sent to [candidate.set] with [disable].  The threshold
    is 1, so 0 restricts and 1 does not. *)
Theorem degradation_threshold {W} `{World W} (w : W) (subject : string) (count : nat) :
  result_of (count_ebgp_sessions_established w) = Ok count ->
  (MIN_NUM_ACTIVE_BGP_SESSIONS <= count ->
     result_of (backwardsHandler subject w) = Ok tt
     /\ mutations (trace_of (backwardsHandler subject w)) = 0
     /\ mutated (trace_of (backwardsHandler subject w)) = []
     /\ world_of (backwardsHandler subject w) = w)
  /\ (count < MIN_NUM_ACTIVE_BGP_SESSIONS ->
        In (RunningGet interface_state_path (oper_state_filter "up"))
           (trace_of (backwardsHandler subject w))
        /\ forall d rows,
             result_of (find_interfaces "up" w) = Ok d ->
             dict_truthy d = true ->
             result_of (to_rows d w) = Ok rows ->
             In (CandidateSet cfg_path (cfg_payload d "disable"))
                (trace_of (backwardsHandler subject w)))
  /\ MIN_NUM_ACTIVE_BGP_SESSIONS = 1.
Proof.
  intros Ec.
  destruct (backwardsHandler_run subject w count Ec) as (pre & Hq & Hrun).
  split; [|split; [|reflexivity]].
  - intros Hle. apply Nat.leb_le in Hle. rewrite Hle in Hrun. rewrite Hrun.
    cbn [result_of trace_of world_of fst snd].
    repeat split; [now apply quiet_mutations | now apply quiet_mutated].
  - intros Hlt. apply Nat.leb_gt in Hlt. rewrite Hlt in Hrun.
    match type of Hrun with
    | forall t w' r, ?m = _ -> _ =>
        specialize (Hrun (trace_of m) (world_of m) (result_of m));
        assert (Hm : m = (trace_of m, world_of m, result_of m))
          by (destruct m as [[? ?] ?]; reflexivity);
        specialize (Hrun Hm); clear Hm
    end.
    rewrite Hrun. cbn [trace_of fst]. split.
    + apply in_or_app. right. apply in_bind_l.
      destruct (find_interfaces_run "up" w) as [r ->]. now left.
    + intros d rows Ed Hd Hrows. apply in_or_app. right.
      now apply (transition_mutates "up" "down" "disable" "Up" "(up -> down) [BEFORE]"
                   "Down" "(up -> down) [AFTER]"
                   "No changes required, interfaces already down." w d rows).
Qed.

(** In the lab: with no session left both downstream interfaces are
    disabled; with one session nothing is. *)
Lemma degradation_threshold_witness :
  result_of (count_ebgp_sessions_established SimRouter.lab_down) = Ok 0
  /\ In (CandidateSet cfg_path
           (cfg_payload
              (map SimRouter.interface_entry
                 [SimRouter.mkInterface "tester4" "up" "enable" "2023-05-11T22:14:01.3Z";
                  SimRouter.mkInterface "tester5" "up" "enable" "2023-05-11T22:14:01.3Z"])
              "disable"))
        (trace_of (backwardsHandler "Peer 1: 10.1.5.5" SimRouter.lab_down))
  /\ result_of (count_ebgp_sessions_established
                  (SimRouter.lab (Some SimRouter.degraded) [("10.1.5.5", "Established")]))
     = Ok 1
  /\ mutated (trace_of (backwardsHandler "Peer 1: 10.1.5.5"
                          (SimRouter.lab (Some SimRouter.degraded)
                             [("10.1.5.5", "Established")]))) = [].
Proof.
  split; [reflexivity|]. split.
  - refine (proj2 (proj1 (proj2
      (degradation_threshold SimRouter.lab_down "Peer 1: 10.1.5.5" 0 eq_refl))
      (Nat.lt_0_1)) _ _ eq_refl eq_refl eq_refl).
  - split; [reflexivity|].
    exact (proj1 (proj2 (proj2 (proj1
      (degradation_threshold
         (SimRouter.lab (Some SimRouter.degraded) [("10.1.5.5", "Established")])
         "Peer 1: 10.1.5.5" 1 eq_refl) (le_n 1))))).
Defined.

(** C3: an establishment event whose session count is below
    [MIN_NUM_ACTIVE_BGP_SESSIONS] ends normally with no [candidate.set], no
    pause and the router untouched; a run of the handler that does mutate
    therefore met the threshold. *)
Theorem establishment_below_threshold {W} `{World W} (w : W) (subject : string)
    (count : nat) :
  result_of (count_ebgp_sessions_established w) = Ok count ->
  count < MIN_NUM_ACTIVE_BGP_SESSIONS ->
  result_of (establishedHandler subject w) = Ok tt
  /\ mutations (trace_of (establishedHandler subject w)) = 0
  /\ mutated (trace_of (establishedHandler subject w)) = []
  /\ pauses (trace_of (establishedHandler subject w)) = 0
  /\ world_of (establishedHandler subject w) = w.
Proof.
  intros Ec Hlt.
  destruct (establishedHandler_run subject w count Ec) as (pre & Hq & Hrun).
  apply Nat.leb_gt in Hlt. rewrite Hlt in Hrun. rewrite Hrun.
  cbn [result_of trace_of world_of fst snd].
  repeat split;
    [now apply quiet_mutations | now apply quiet_mutated | now apply quiet_pauses].
Qed.

(** In the lab: the session is reported established but is not. *)
Lemma establishment_below_threshold_witness :
  result_of (count_ebgp_sessions_established
               (SimRouter.lab (Some SimRouter.established) [("10.1.5.5", "Active")]))
  = Ok 0
  /\ 0 < MIN_NUM_ACTIVE_BGP_SESSIONS
  /\ result_of (establishedHandler "Peer 1: 10.1.5.5"
                  (SimRouter.lab (Some SimRouter.established) [("10.1.5.5", "Active")]))
     = Ok tt
  /\ mutations (trace_of (establishedHandler "Peer 1: 10.1.5.5"
                   (SimRouter.lab (Some SimRouter.established) [("10.1.5.5", "Active")])))
     = 0.
Proof.
  split; [reflexivity|]. split; [exact Nat.lt_0_1|].
  pose proof (establishment_below_threshold
                (SimRouter.lab (Some SimRouter.established) [("10.1.5.5", "Active")])
                "Peer 1: 10.1.5.5" 0 eq_refl Nat.lt_0_1) as Hw.
  split; [exact (proj1 Hw) | exact (proj1 (proj2 Hw))].
Defined.

(** ** The settle pause *)

Lemma backwardsHandler_settles {W} `{World W} (subject : string) (w w' : W)
    (t : list action) :
  backwardsHandler subject w = (t, w', Ok tt) ->
  mutations t <> 0 ->
  settles_around "disable" "down" t.
Proof.
  intros E Hm.
  destruct (count_run w) as (tc & [n|e] & Erun & Hqc & _).
  - destruct (backwardsHandler_run subject w n) as (pre & Hq & Hrun);
      [now rewrite Erun|].
    destruct (MIN_NUM_ACTIVE_BGP_SESSIONS <=? n)%nat.
    + rewrite Hrun in E. inversion E; subst. elim Hm. now apply quiet_mutations.
    + match type of Hrun with
      | forall t w' r, ?m = _ -> _ => destruct m as [[tb wb] rb] eqn:Et
      end.
      rewrite (Hrun _ _ _ eq_refl) in E. inversion E; subst.
      apply settles_around_prefix; [exact Hq|].
      rewrite mutations_app, (quiet_mutations _ Hq) in Hm.
      eapply transition_settles with (direction := "(up -> down)");
        [| |exact Et | exact Hm]; reflexivity.
  - destruct (handler_count_fails subject w e) as (pre & _ & Eb & _);
      [now rewrite Erun|].
    rewrite Eb in E. discriminate.
Qed.

Lemma establishedHandler_settles {W} `{World W} (subject : string) (w w' : W)
    (t : list action) :
  establishedHandler subject w = (t, w', Ok tt) ->
  mutations t <> 0 ->
  settles_around "enable" "up" t.
Proof.
  intros E Hm.
  destruct (count_run w) as (tc & [n|e] & Erun & Hqc & _).
  - destruct (establishedHandler_run subject w n) as (pre & Hq & Hrun);
      [now rewrite Erun|].
    destruct (MIN_NUM_ACTIVE_BGP_SESSIONS <=? n)%nat.
    + match type of Hrun with
      | forall t w' r, ?m = _ -> _ => destruct m as [[tb wb] rb] eqn:Et
      end.
      rewrite (Hrun _ _ _ eq_refl) in E. inversion E; subst.
      apply settles_around_prefix; [exact Hq|].
      rewrite mutations_app, (quiet_mutations _ Hq) in Hm.
      eapply transition_settles with (direction := "(down -> up)");
        [| |exact Et | exact Hm]; reflexivity.
    + rewrite Hrun in E. inversion E; subst. elim Hm. now apply quiet_mutations.
  - destruct (handler_count_fails subject w e) as (_ & _ & _ & pre & _ & Ee);
      [now rewrite Erun|].
    rewrite Ee in E. discriminate.
Qed.

(** C7, as the code has it: a run of [main] that applies a mutation and
    returns pauses twice, for one second each time: once right after the
    finished BEFORE report - title, one row for each selected interface,
    footer - and before the State Mutator is called, which announces and
    writes these same interfaces, and once between that call and the
    query with the opposite filter ([down] after [disable], [up] after
    [enable]), which follows the second pause at once.  There is one
    mutation and no other pause. *)
Theorem settle_pause_around_mutation {W} `{World W} (w w' : W) (t : list action) :
  main w = (t, w', Ok tt) ->
  mutations t <> 0 ->
  pauses t = 2 /\ mutations t = 1
  /\ exists event,
       get_event w = Some event
       /\ ((eventid event = 2039%Z /\ settles_around "disable" "down" t)
           \/ (eventid event = 2038%Z /\ settles_around "enable" "up" t)).
Proof.
  intros E Hm. rewrite main_run in E.
  destruct (get_event w) as [event|] eqn:Hev;
    [|inversion E; subst; now elim Hm].
  destruct (subject event) as [|c rest]; [discriminate|].
  destruct (isdigit c); [inversion E; subst; now elim Hm|].
  destruct (handler_for event w) as [[th wh] [[]|e]] eqn:Eh; [|discriminate].
  inversion E; subst. clear E.
  assert (Hth : mutations th <> 0).
  { intros Hz. apply Hm.
    rewrite !mutations_cons, mutations_app, Hz. reflexivity. }
  assert (Hwrap : forall change opposite,
            settles_around change opposite th ->
            settles_around change opposite
              (Connect unused unused :: GetEvent :: th ++ [Disconnect])).
  { intros change opposite Hs.
    apply (settles_around_prefix change opposite [Connect unused unused; GetEvent]);
      [repeat constructor|].
    apply settles_around_suffix; [repeat constructor | exact Hs]. }
  assert (Hcase : (eventid event = 2039%Z /\ settles_around "disable" "down" th)
                  \/ (eventid event = 2038%Z /\ settles_around "enable" "up" th)).
  { unfold handler_for in Eh.
    destruct (eventid event =? 2039)%Z eqn:E39.
    - left. split; [now apply Z.eqb_eq|].
      now apply (backwardsHandler_settles (subject event) w w').
    - destruct (eventid event =? 2038)%Z eqn:E38.
      + right. split; [now apply Z.eqb_eq|].
        now apply (establishedHandler_settles (subject event) w w').
      + inversion Eh; subst. now elim Hth. }
  destruct Hcase as [[Hid Hs]|[Hid Hs]].
  - destruct (settles_around_pauses _ _ _ (Hwrap _ _ Hs)) as [Hp Hmu].
    split; [exact Hp|]. split; [exact Hmu|].
    exists event. split; [reflexivity|]. left. split; [exact Hid | now apply Hwrap].
  - destruct (settles_around_pauses _ _ _ (Hwrap _ _ Hs)) as [Hp Hmu].
    split; [exact Hp|]. split; [exact Hmu|].
    exists event. split; [reflexivity|]. right. split; [exact Hid | now apply Hwrap].
Qed.

(** In the lab the degradation run pauses before and after the mutation. *)
Lemma settle_pause_around_mutation_witness :
  main SimRouter.lab_down
  = (trace_of (main SimRouter.lab_down), world_of (main SimRouter.lab_down), Ok tt)
  /\ mutations (trace_of (main SimRouter.lab_down)) <> 0
  /\ pauses (trace_of (main SimRouter.lab_down)) = 2
  /\ mutations (trace_of (main SimRouter.lab_down)) = 1
  /\ exists event,
       get_event SimRouter.lab_down = Some event
       /\ ((eventid event = 2039%Z
            /\ settles_around "disable" "down" (trace_of (main SimRouter.lab_down)))
           \/ (eventid event = 2038%Z
               /\ settles_around "enable" "up" (trace_of (main SimRouter.lab_down)))).
Proof.
  assert (Hne : mutations (trace_of (main SimRouter.lab_down)) <> 0)
    by (vm_compute; discriminate).
  split; [reflexivity|]. split; [exact Hne|].
  exact (settle_pause_around_mutation SimRouter.lab_down _ _ eq_refl Hne).
Defined.

(** C7, as the specification words it, fails in the lab: the run that
    disables the two downstream interfaces pauses twice, the first time
    before the mutation. *)
Lemma single_settle_pause_counterexample :
  ~ single_settle_pause (trace_of (main SimRouter.lab_down)).
Proof.
  intros Hc.
  assert (Hp : pauses (trace_of (main SimRouter.lab_down)) = 1)
    by (apply Hc; vm_compute; discriminate).
  vm_compute in Hp. discriminate.
Qed.

(** ** The management session *)

Lemma not_session_releases (t : list action) :
  Forall (fun a => is_session a = false) t -> releases t = 0.
Proof.
  unfold releases. induction 1 as [|a t Ha _ IH]; [reflexivity|].
  cbn. destruct a; try discriminate; exact IH.
Qed.

Lemma releases_app (t1 t2 : list action) :
  releases (t1 ++ t2) = releases t1 + releases t2.
Proof. unfold releases. now rewrite filter_app, length_app. Qed.

Lemma scoped_session_releases (t : list action) : scoped_session t -> releases t = 1.
Proof.
  intros (body & -> & Hbody).
  change (Connect unused unused :: body ++ [Disconnect])
    with ([Connect unused unused] ++ body ++ [Disconnect])%list.
  rewrite !releases_app, (not_session_releases _ Hbody). reflexivity.
Qed.

(** C8, as the code has it: on every path on which [main] returns - no
    event, a subject that starts with a digit, an id without a handler, a
    handler that runs to its end, errors of the State Mutator it swallows
    included - the session is opened by the first call and released by
    the last, exactly once. *)
Theorem session_released_on_return {W} `{World W} (w w' : W) (t : list action) :
  main w = (t, w', Ok tt) ->
  scoped_session t /\ released_once t.
Proof.
  intros E.
  assert (Hs : scoped_session t).
  { rewrite main_run in E.
    destruct (get_event w) as [event|].
    - destruct (subject event) as [|c rest]; [discriminate|].
      destruct (isdigit c).
      + inversion E; subst. exists [GetEvent]. split; [reflexivity | repeat constructor].
      + pose proof (handler_for_not_session event w) as Hh.
        destruct (handler_for event w) as [[th wh] [[]|e]]; [|discriminate].
        inversion E; subst. exists (GetEvent :: th).
        split; [reflexivity | constructor; [reflexivity | exact Hh]].
    - inversion E; subst. exists [GetEvent]. split; [reflexivity | repeat constructor]. }
  split; [exact Hs | now apply scoped_session_releases].
Qed.

Lemma session_released_on_return_witness :
  main SimRouter.lab_down
  = (trace_of (main SimRouter.lab_down), world_of (main SimRouter.lab_down), Ok tt)
  /\ scoped_session (trace_of (main SimRouter.lab_down))
  /\ released_once (trace_of (main SimRouter.lab_down)).
Proof.
  split; [reflexivity|].
  exact (session_released_on_return SimRouter.lab_down _ _ eq_refl).
Defined.

(** C8, as the specification words it, fails when a query raises: the
    exception leaves [main] before the session is released. *)
Lemma released_once_counterexample :
  ~ released_once
      (trace_of (main (SimRouter.with_query_fault SimRouter.lab_down
                         (OtherError "LookupError")))).
Proof. vm_compute. discriminate. Qed.

(** An exception that leaves [main] leaves the session open. *)
Lemma session_open_on_raise {W} `{World W} (w w' : W) (t : list action) (e : exn) :
  main w = (t, w', Raise e) -> releases t = 0.
Proof.
  intros E. rewrite main_run in E.
  destruct (get_event w) as [event|]; [|discriminate].
  destruct (subject event) as [|c rest]; [now inversion E|].
  destruct (isdigit c); [discriminate|].
  pose proof (handler_for_not_session event w) as Hh.
  destruct (handler_for event w) as [[th wh] [[]|e']]; [discriminate|].
  inversion E; subst.
  change (releases th = 0). apply not_session_releases. exact Hh.
Qed.

(** ** Routing *)

Lemma spec_router_run {W} `{World W} (w : W) :
  spec_router w
  = match get_event w with
    | None => ([Connect unused unused; GetEvent; Disconnect], w, Ok tt)
    | Some event =>
        if begins_with_digit (subject event)
        then ([Connect unused unused; GetEvent; Disconnect], w, Ok tt)
        else
          match handler_for event w with
          | (th, wh, Ok _) =>
              (Connect unused unused :: GetEvent :: (th ++ [Disconnect])%list, wh, Ok tt)
          | (th, wh, Raise e) =>
              (Connect unused unused :: GetEvent :: th, wh, Raise e)
          end
    end.
Proof.
  unfold spec_router. rewrite run_bind. unfold connect, emit at 1. cbv beta iota.
  rewrite run_bind. unfold ehs_get_event at 1. cbv beta iota.
  rewrite then_disconnect_run.
  destruct (get_event w) as [event|]; [|reflexivity].
  unfold spec_dispatch.
  destruct (begins_with_digit (subject event)); [reflexivity|].
  fold (handler_for event).
  destruct (handler_for event w) as [[th wh] [[]|e]]; reflexivity.
Qed.

(** C5, as the code has it: when the event, if there is one, has a
    non-empty subject, [main] is the router of the specification: with no
    event or a subject that starts with a digit it connects, reads the
    event, disconnects and returns, no handler run and the router
    untouched; otherwise id 2039 runs the degradation handler, id 2038 the
    establishment handler and any other id none, and the session is
    released. *)
Theorem router_dispatch {W} `{World W} (w : W) :
  (forall event, get_event w = Some event -> subject event <> EmptyString) ->
  main w = spec_router w
  /\ (discarded (get_event w) = true ->
        main w = ([Connect unused unused; GetEvent; Disconnect], w, Ok tt)).
Proof.
  intros Hne. rewrite main_run, spec_router_run.
  destruct (get_event w) as [event|]; [|now split].
  specialize (Hne event eq_refl). cbn [discarded].
  destruct (subject event) as [|c rest]; [now elim Hne|].
  cbn [begins_with_digit]. destruct (isdigit c); [now split|].
  split; [reflexivity | discriminate].
Qed.

(** In the lab: the degradation event is routed, a subject such as [10]
    is discarded. *)
Lemma router_dispatch_witness :
  (forall event, get_event SimRouter.lab_down = Some event ->
                 subject event <> EmptyString)
  /\ main SimRouter.lab_down = spec_router SimRouter.lab_down
  /\ (forall event,
        get_event (SimRouter.with_event SimRouter.lab_down (Some (mkEvent 2039 "10")))
        = Some event -> subject event <> EmptyString)
  /\ main (SimRouter.with_event SimRouter.lab_down (Some (mkEvent 2039 "10")))
     = ([Connect unused unused; GetEvent; Disconnect],
        SimRouter.with_event SimRouter.lab_down (Some (mkEvent 2039 "10")), Ok tt).
Proof.
  assert (H1 : forall event, get_event SimRouter.lab_down = Some event ->
                             subject event <> EmptyString).
  { intros event E. injection E as <-. discriminate. }
  assert (H2 : forall event,
             get_event (SimRouter.with_event SimRouter.lab_down (Some (mkEvent 2039 "10")))
             = Some event -> subject event <> EmptyString).
  { intros event E. injection E as <-. discriminate. }
  split; [exact H1|]. split; [exact (proj1 (router_dispatch SimRouter.lab_down H1))|].
  split; [exact H2|].
  exact (proj2 (router_dispatch _ H2) eq_refl).
Defined.

(** C5, as the specification words it, fails on an event with an empty
    subject: the specified router runs the degradation handler, [main]
    raises before it gets there. *)
Lemma router_dispatch_counterexample :
  main (SimRouter.with_event SimRouter.lab_down (Some (mkEvent 2039 EmptyString)))
  <> spec_router (SimRouter.with_event SimRouter.lab_down (Some (mkEvent 2039 EmptyString))).
Proof.
  intros E. apply (f_equal result_of) in E. vm_compute in E. discriminate.
Qed.

(** C10: the guard of [main] raises exactly when the subject is empty.
    A run on an event with an empty subject ends in [IndexError] right
    after the event was read, without releasing the session; on any other
    event the guard returns whether the subject starts with a digit. *)
Theorem empty_subject_raises {W} `{World W} (w : W) (event : Event) :
  get_event w = Some event ->
  (subject event = EmptyString <->
   exists e, result_of (subject_starts_with_digit event w) = Raise e)
  /\ (subject event = EmptyString ->
        main w = ([Connect unused unused; GetEvent], w,
                  Raise (IndexError "string index out of range")))
  /\ (subject event <> EmptyString ->
        subject_starts_with_digit event w
        = ([], w, Ok (begins_with_digit (subject event)))).
Proof.
  intros Hev. split; [|split].
  - unfold subject_starts_with_digit.
    destruct (subject event) as [|c rest]; split.
    + intros _. eexists. reflexivity.
    + reflexivity.
    + discriminate.
    + intros [e E]. discriminate.
  - intros Hs. rewrite main_run, Hev, Hs. reflexivity.
  - unfold subject_starts_with_digit.
    destruct (subject event) as [|c rest]; [intros Hs; now elim Hs | reflexivity].
Qed.

Lemma empty_subject_raises_witness :
  get_event (SimRouter.with_event SimRouter.lab_down (Some (mkEvent 2039 EmptyString)))
  = Some (mkEvent 2039 EmptyString)
  /\ main (SimRouter.with_event SimRouter.lab_down (Some (mkEvent 2039 EmptyString)))
     = ([Connect unused unused; GetEvent],
        SimRouter.with_event SimRouter.lab_down (Some (mkEvent 2039 EmptyString)),
        Raise (IndexError "string index out of range")).
Proof.
  split; [reflexivity|].
  exact (proj1 (proj2 (empty_subject_raises
                         (SimRouter.with_event SimRouter.lab_down
                            (Some (mkEvent 2039 EmptyString)))
                         (mkEvent 2039 EmptyString) eq_refl)) eq_refl).
Defined.

(** ** Idempotence *)

(** C9: on a router where the selection with filter [up] is empty - every
    downstream interface is down already - the degradation handler makes
    no mutation and no pause and leaves the router as it was; the
    selection with filter [up] is empty afterwards as well, and a second
    degradation makes no mutation either. *)
Theorem restrict_idempotent {W} `{World W} (w : W) (subject subject' : string) :
  result_of (find_interfaces "up" w) = Ok [] ->
  mutations (trace_of (backwardsHandler subject w)) = 0
  /\ pauses (trace_of (backwardsHandler subject w)) = 0
  /\ world_of (backwardsHandler subject w) = w
  /\ result_of (find_interfaces "up" (world_of (backwardsHandler subject w))) = Ok []
  /\ mutations (trace_of (backwardsHandler subject'
                            (world_of (backwardsHandler subject w)))) = 0.
Proof.
  intros Eup.
  assert (Hone : forall s,
            quiet (trace_of (backwardsHandler s w))
            /\ world_of (backwardsHandler s w) = w).
  { intros s.
    destruct (count_run w) as (tc & [n|e] & Erun & Hqc & _).
    - destruct (backwardsHandler_run s w n) as (pre & Hq & Hrun);
        [now rewrite Erun|].
      destruct (MIN_NUM_ACTIVE_BGP_SESSIONS <=? n)%nat.
      + rewrite Hrun. now split.
      + rewrite (Hrun _ _ _
                   (transition_idle "up" "down" "disable" "Up" "(up -> down) [BEFORE]"
                      "Down" "(up -> down) [AFTER]"
                      "No changes required, interfaces already down." w Eup)).
        split; [|reflexivity].
        apply quiet_app; [exact Hq | repeat constructor].
    - destruct (handler_count_fails s w e) as (pre & Hq & Eb & _);
        [now rewrite Erun|].
      rewrite Eb. now split. }
  destruct (Hone subject) as [Hq Hw].
  rewrite Hw. destruct (Hone subject') as [Hq' _].
  repeat split;
    [now apply quiet_mutations | now apply quiet_pauses | exact Eup
     | now apply quiet_mutations].
Qed.

(** In the lab, after the degradation run has taken the downstream
    interfaces down. *)
Lemma restrict_idempotent_witness :
  result_of (find_interfaces "up" (world_of (main SimRouter.lab_down))) = Ok []
  /\ mutations (trace_of (backwardsHandler "Peer 1: 10.1.5.5"
                            (world_of (main SimRouter.lab_down)))) = 0
  /\ result_of (find_interfaces "up"
                  (world_of (backwardsHandler "Peer 1: 10.1.5.5"
                               (world_of (main SimRouter.lab_down))))) = Ok [].
Proof.
  split; [reflexivity|].
  pose proof (restrict_idempotent (world_of (main SimRouter.lab_down))
                "Peer 1: 10.1.5.5" "Peer 1: 10.1.5.5" eq_refl) as Hw.
  split; [exact (proj1 Hw) | exact (proj1 (proj2 (proj2 (proj2 Hw))))].
Defined.


(** ** Errors of the State Mutator *)

Lemma in_set_mutations (t : list action) (path : string) (payload : pyval) :
  In (CandidateSet path payload) t -> mutations t <> 0.
Proof.
  intros Hin. destruct (in_split _ _ Hin) as (t1 & t2 & ->).
  rewrite mutations_app, mutations_cons. cbn. lia.
Qed.

Section Rejection.

Context {W : Type} `{World W}.

Lemma bind_inv {A B} (m : M A) (f : A -> M B) (w w' : W) (t : list action)
    (r : outcome B) :
  bind m f w = (t, w', r) ->
  (exists t1 w1 a t2,
     m w = (t1, w1, Ok a) /\ f a w1 = (t2, w', r) /\ t = (t1 ++ t2)%list)
  \/ (exists e, m w = (t, w', Raise e) /\ r = Raise e).
Proof.
  rewrite run_bind. destruct (m w) as [[t1 w1] [a|e]].
  - destruct (f a w1) as [[t2 w2] r2] eqn:Ef. intros E. inversion E; subst.
    left. now exists t1, w1, a, t2.
  - intros E. inversion E; subst. right. now exists e.
Qed.

Lemma in_set_unique (t1 t2 : list action) (path : string) (payload sent : pyval) :
  mutations t1 = 0 -> mutations t2 = 0 ->
  In (CandidateSet path payload) (t1 ++ CandidateSet cfg_path sent :: t2) ->
  payload = sent.
Proof.
  intros H1 H2 Hin. apply in_app_or in Hin. destruct Hin as [Hin|[Hin|Hin]].
  - now elim (in_set_mutations _ _ _ Hin).
  - now inversion Hin.
  - now elim (in_set_mutations _ _ _ Hin).
Qed.

(** [modify_downstream_interfaces] on a non-empty selection: what it has
    done and how it ends, by the answer of [candidate.set]. *)
Lemma modify_by_answer (d : dict pyval) (change : string) (w : W) :
  existsb (String.eqb change) ["enable"; "disable"] = true ->
  dict_truthy d = true ->
  exists mid,
    quiet mid
    /\ modify_downstream_interfaces d change w
       = (Print (to_be_brought d change)
          :: CandidateSet cfg_path (cfg_payload d change) :: mid,
          snd (candidate_set w cfg_path (cfg_payload d change)),
          match fst (candidate_set w cfg_path (cfg_payload d change)) with
          | Ok _ | Raise (SrosMgmtError _) | Raise (TypeError _) => Ok true
          | Raise e => Raise e
          end).
Proof.
  intros Hchange Hd. rewrite (modify_run d change w Hchange Hd).
  destruct (candidate_set w cfg_path (cfg_payload d change)) as [[[]|e] w'].
  - exists []. split; [constructor | reflexivity].
  - destruct e; eexists; (split; [|reflexivity]); repeat constructor.
Qed.

Lemma verification_quiet (opposite info header : string) (w : W) :
  quiet (trace_of (verification opposite info header w)).
Proof.
  unfold verification. rewrite run_bind.
  destruct (find_interfaces_run opposite w) as [r ->].
  destruct r as [d|e]; [|repeat constructor]. cbv beta iota.
  destruct (dict_truthy d); [|repeat constructor].
  destruct (print_table_run d info header w) as (tp & rp & -> & Hq & _).
  cbn. constructor; [now split | exact Hq].
Qed.

Variables before after change info1 header1 info2 header2 idle : string.

Local Abbreviation transition :=
  (active_interfaces <- find_interfaces before ;;
   if dict_truthy active_interfaces
   then
     print_table (to_rows active_interfaces) info1 header1 ;;
     time_sleep 1 ;;
     modify_downstream_interfaces active_interfaces change ;;
     time_sleep 1 ;;
     inactive_interfaces <- find_interfaces after ;;
     if dict_truthy inactive_interfaces
     then print_table (to_rows inactive_interfaces) info2 header2
     else ret tt
   else print idle).

(** A transition whose batch is rejected goes on: second pause, then the
    verification, whose end is the end of the transition. *)
Lemma transition_after_rejection (w w' : W) (t : list action) (r : outcome unit)
    (payload : pyval) :
  existsb (String.eqb change) ["enable"; "disable"] = true ->
  transition w = (t, w', r) ->
  In (CandidateSet cfg_path payload) t ->
  rejected (fst (candidate_set (elapse w 1) cfg_path payload)) ->
  mutations t = 1
  /\ r = result_of
           (verification after info2 header2
              (elapse (snd (candidate_set (elapse w 1) cfg_path payload)) 1))
  /\ w' = world_of
            (verification after info2 header2
               (elapse (snd (candidate_set (elapse w 1) cfg_path payload)) 1)).
Proof.
  intros Hchange E Hin Hrej.
  destruct (find_interfaces_run before w) as [r0 E0].
  apply bind_inv in E.
  destruct E as [(ta & wa & d & tb & E1 & E & ->)|(e & E1 & ->)];
    rewrite E0 in E1; injection E1 as ? ? ?.
  2: { subst t. destruct Hin as [Hin|[]]. discriminate. }
  subst ta wa r0. cbv beta in E.
  destruct (dict_truthy d) eqn:Hd.
  2: { unfold print, emit in E. injection E as ? ? ?. subst tb.
       destruct Hin as [Hin|[Hin|[]]]; discriminate. }
  destruct (print_table_run d info1 header1 w) as (tp & rp & Ep & Hqp & _).
  apply bind_inv in E.
  destruct E as [(tc & wc & u & td & E1 & E & ->)|(e & E1 & ->)];
    rewrite Ep in E1; injection E1 as ? ? ?.
  2: { subst tb. apply in_set_mutations in Hin. elim Hin.
       rewrite mutations_app, (quiet_mutations _ Hqp). reflexivity. }
  subst tc wc rp. cbv beta in E.
  apply bind_inv in E.
  destruct E as [(te & we & u' & tf & E1 & E & ->)|(e & E1 & ->)];
    [|discriminate].
  unfold time_sleep in E1. injection E1 as ? ? ?. subst te we. cbv beta in E.
  destruct (modify_by_answer d change (elapse w 1) Hchange Hd) as (mid & Hqm & Em).
  assert (Hbefore : mutations (RunningGet interface_state_path (oper_state_filter before)
                          :: tp ++ [Sleep 1; Print (to_be_brought d change)]) = 0).
  { rewrite mutations_cons, mutations_app, (quiet_mutations _ Hqp). reflexivity. }
  apply bind_inv in E.
  destruct E as [(tg & wg & sent & th & E1 & E & ->)|(e & E1 & ->)];
    rewrite Em in E1; injection E1 as ? ? ?.
  - subst tg wg. cbv beta in E.
    apply bind_inv in E.
    destruct E as [(ti & wi & u'' & tv & E1 & E & ->)|(e & E1 & ->)];
      [|discriminate].
    unfold time_sleep in E1. injection E1 as ? ? ?. subst ti wi. cbv beta in E.
    change (verification after info2 header2
              (elapse (snd (candidate_set (elapse w 1) cfg_path (cfg_payload d change))) 1)
            = (tv, w', r)) in E.
    pose proof (verification_quiet after info2 header2
                  (elapse (snd (candidate_set (elapse w 1) cfg_path
                                  (cfg_payload d change))) 1)) as Hqv.
    rewrite E in Hqv. cbn [trace_of fst] in Hqv.
    assert (Hshape :
              ([RunningGet interface_state_path (oper_state_filter before)]
               ++ tp ++ [Sleep 1]
               ++ (Print (to_be_brought d change)
                   :: CandidateSet cfg_path (cfg_payload d change) :: mid)
               ++ [Sleep 1] ++ tv)%list
              = ((RunningGet interface_state_path (oper_state_filter before)
                  :: tp ++ [Sleep 1; Print (to_be_brought d change)])
                 ++ CandidateSet cfg_path (cfg_payload d change)
                 :: mid ++ Sleep 1 :: tv)%list).
    { cbn [app]. rewrite <- !app_assoc. reflexivity. }
    rewrite Hshape in Hin |- *.
    assert (Hafter : mutations (mid ++ Sleep 1 :: tv) = 0).
    { rewrite mutations_app, mutations_cons,
        (quiet_mutations _ Hqm), (quiet_mutations _ Hqv). reflexivity. }
    rewrite (in_set_unique _ _ _ _ _ Hbefore Hafter Hin), E.
    split; [|now split].
    rewrite mutations_app, Hbefore, mutations_cons, Hafter. reflexivity.
  - exfalso. subst tf.
    assert (Hshape :
              ([RunningGet interface_state_path (oper_state_filter before)]
               ++ tp ++ [Sleep 1]
               ++ Print (to_be_brought d change)
                  :: CandidateSet cfg_path (cfg_payload d change) :: mid)%list
              = ((RunningGet interface_state_path (oper_state_filter before)
                  :: tp ++ [Sleep 1; Print (to_be_brought d change)])
                 ++ CandidateSet cfg_path (cfg_payload d change) :: mid)%list).
    { cbn [app]. rewrite <- !app_assoc. reflexivity. }
    rewrite Hshape in Hin.
    rewrite (in_set_unique _ _ _ _ _ Hbefore (quiet_mutations _ Hqm) Hin) in Hrej.
    destruct (fst (candidate_set (elapse w 1) cfg_path (cfg_payload d change)))
      as [[]|[]]; try discriminate; exact Hrej.
Qed.

End Rejection.

Lemma in_quiet_set (t : list action) (path : string) (payload : pyval) :
  quiet t -> ~ In (CandidateSet path payload) t.
Proof.
  intros Hq Hin. apply in_set_mutations in Hin. now rewrite quiet_mutations in Hin.
Qed.

Lemma backwardsHandler_after_rejection {W} `{World W} (subject : string) (w w' : W)
    (t : list action) (r : outcome unit) (payload : pyval) :
  backwardsHandler subject w = (t, w', r) ->
  In (CandidateSet cfg_path payload) t ->
  rejected (fst (candidate_set (elapse w 1) cfg_path payload)) ->
  mutations t = 1
  /\ r = result_of
           (verification "down" "Down" "(up -> down) [AFTER]"
              (elapse (snd (candidate_set (elapse w 1) cfg_path payload)) 1))
  /\ w' = world_of
            (verification "down" "Down" "(up -> down) [AFTER]"
               (elapse (snd (candidate_set (elapse w 1) cfg_path payload)) 1)).
Proof.
  intros E Hin Hrej.
  destruct (count_run w) as (tc & [n|e] & Erun & Hqc & _).
  - destruct (backwardsHandler_run subject w n) as (pre & Hq & Hrun);
      [now rewrite Erun|].
    destruct (MIN_NUM_ACTIVE_BGP_SESSIONS <=? n)%nat.
    + rewrite Hrun in E. injection E as ? ? ?. subst t.
      now elim (in_quiet_set _ _ _ Hq Hin).
    + match type of Hrun with
      | forall t w' r, ?m = _ -> _ => destruct m as [[tb wb] rb] eqn:Et
      end.
      rewrite (Hrun _ _ _ eq_refl) in E. injection E as ? ? ?. subst t w' r.
      apply in_app_or in Hin.
      destruct Hin as [Hin|Hin]; [now elim (in_quiet_set _ _ _ Hq Hin)|].
      rewrite mutations_app, (quiet_mutations _ Hq).
      eapply transition_after_rejection; [|exact Et | exact Hin | exact Hrej].
      reflexivity.
  - destruct (handler_count_fails subject w e) as (pre & Hq & Eb & _);
      [now rewrite Erun|].
    rewrite Eb in E. injection E as ? ? ?. subst t.
    now elim (in_quiet_set _ _ _ Hq Hin).
Qed.

Lemma establishedHandler_after_rejection {W} `{World W} (subject : string) (w w' : W)
    (t : list action) (r : outcome unit) (payload : pyval) :
  establishedHandler subject w = (t, w', r) ->
  In (CandidateSet cfg_path payload) t ->
  rejected (fst (candidate_set (elapse w 1) cfg_path payload)) ->
  mutations t = 1
  /\ r = result_of
           (verification "up" "Up" "(down -> up) [AFTER]"
              (elapse (snd (candidate_set (elapse w 1) cfg_path payload)) 1))
  /\ w' = world_of
            (verification "up" "Up" "(down -> up) [AFTER]"
               (elapse (snd (candidate_set (elapse w 1) cfg_path payload)) 1)).
Proof.
  intros E Hin Hrej.
  destruct (count_run w) as (tc & [n|e] & Erun & Hqc & _).
  - destruct (establishedHandler_run subject w n) as (pre & Hq & Hrun);
      [now rewrite Erun|].
    destruct (MIN_NUM_ACTIVE_BGP_SESSIONS <=? n)%nat.
    + match type of Hrun with
      | forall t w' r, ?m = _ -> _ => destruct m as [[tb wb] rb] eqn:Et
      end.
      rewrite (Hrun _ _ _ eq_refl) in E. injection E as ? ? ?. subst t w' r.
      apply in_app_or in Hin.
      destruct Hin as [Hin|Hin]; [now elim (in_quiet_set _ _ _ Hq Hin)|].
      rewrite mutations_app, (quiet_mutations _ Hq).
      eapply transition_after_rejection; [|exact Et | exact Hin | exact Hrej].
      reflexivity.
    + rewrite Hrun in E. injection E as ? ? ?. subst t.
      now elim (in_quiet_set _ _ _ Hq Hin).
  - destruct (handler_count_fails subject w e) as (_ & _ & _ & pre & Hq & Ee);
      [now rewrite Erun|].
    rewrite Ee in E. injection E as ? ? ?. subst t.
    now elim (in_quiet_set _ _ _ Hq Hin).
Qed.

(** C6, as the code has it: when [candidate.set] raises [SrosMgmtError]
    [modify_downstream_interfaces] logs its detail, when it raises
    [TypeError] it prints the error and the payload; either way
    [candidate.set] was called once, with the whole batch, nothing is
    raised to the caller and the function returns [True].  A run of
    [main] whose batch was rejected this way made that one call and went
    on to the second pause and the verification - the query with the
    opposite filter and its report: it ends as the verification ends,
    and when that returns the session is released. *)
Theorem mutation_errors_swallowed {W} `{World W} (w w' : W) (d : dict pyval)
    (change detail : string) :
  existsb (String.eqb change) ["enable"; "disable"] = true ->
  dict_truthy d = true ->
  (candidate_set w cfg_path (cfg_payload d change) = (Raise (SrosMgmtError detail), w') ->
     modify_downstream_interfaces d change w
     = ([Print (to_be_brought d change);
         CandidateSet cfg_path (cfg_payload d change);
         Print ("Disabling the active interfaces failed due to an error:"
                ++ nl ++ tab ++ detail)], w', Ok true))
  /\ (candidate_set w cfg_path (cfg_payload d change) = (Raise (TypeError detail), w') ->
        modify_downstream_interfaces d change w
        = ([Print (to_be_brought d change);
            CandidateSet cfg_path (cfg_payload d change);
            Print detail;
            PrintValue (cfg_payload d change)], w', Ok true))
  /\ (forall (w0 wn : W) (t : list action) (r : outcome unit) (payload : pyval),
        main w0 = (t, wn, r) ->
        In (CandidateSet cfg_path payload) t ->
        rejected (fst (candidate_set (elapse w0 1) cfg_path payload)) ->
        mutations t = 1
        /\ exists event opposite info header,
             get_event w0 = Some event
             /\ ((eventid event = 2039%Z /\ opposite = "down" /\ info = "Down"
                  /\ header = "(up -> down) [AFTER]")
                 \/ (eventid event = 2038%Z /\ opposite = "up" /\ info = "Up"
                     /\ header = "(down -> up) [AFTER]"))
             /\ r = result_of
                      (verification opposite info header
                         (elapse (snd (candidate_set (elapse w0 1) cfg_path payload)) 1))
             /\ wn = world_of
                       (verification opposite info header
                          (elapse (snd (candidate_set (elapse w0 1) cfg_path payload)) 1))
             /\ (r = Ok tt -> released_once t)).
Proof.
  intros Hchange Hd. split; [|split].
  - intros Eset. rewrite (modify_run d change w Hchange Hd), Eset. reflexivity.
  - intros Eset. rewrite (modify_run d change w Hchange Hd), Eset. reflexivity.
  - clear w w' d change detail Hchange Hd.
    intros w wn t r payload E Hin Hrej. rewrite main_run in E.
    destruct (get_event w) as [event|] eqn:Hev.
    2: { injection E as ? ? ?. subst t.
         destruct Hin as [Hin|[Hin|[Hin|[]]]]; discriminate. }
    destruct (subject event) as [|c rest].
    { injection E as ? ? ?. subst t. destruct Hin as [Hin|[Hin|[]]]; discriminate. }
    destruct (isdigit c).
    { injection E as ? ? ?. subst t.
      destruct Hin as [Hin|[Hin|[Hin|[]]]]; discriminate. }
    pose proof (handler_for_not_session event w) as Hsession.
    destruct (handler_for event w) as [[th wh] rh] eqn:Eh.
    cbn [trace_of fst] in Hsession.
    assert (Hth : In (CandidateSet cfg_path payload) th).
    { destruct rh as [[]|e]; injection E as ? ? ?; subst t;
        destruct Hin as [Hin|[Hin|Hin]]; try discriminate; [|exact Hin].
      apply in_app_or in Hin. destruct Hin as [Hin|[Hin|[]]]; [exact Hin | discriminate]. }
    assert (Hhandler :
              mutations th = 1
              /\ exists opposite info header,
                   ((eventid event = 2039%Z /\ opposite = "down" /\ info = "Down"
                     /\ header = "(up -> down) [AFTER]")
                    \/ (eventid event = 2038%Z /\ opposite = "up" /\ info = "Up"
                        /\ header = "(down -> up) [AFTER]"))
                   /\ rh = result_of
                             (verification opposite info header
                                (elapse (snd (candidate_set (elapse w 1) cfg_path payload))
                                   1))
                   /\ wh = world_of
                             (verification opposite info header
                                (elapse (snd (candidate_set (elapse w 1) cfg_path payload))
                                   1))).
    { unfold handler_for in Eh.
      destruct (eventid event =? 2039)%Z eqn:E39.
      - destruct (backwardsHandler_after_rejection _ _ _ _ _ _ Eh Hth Hrej)
          as (Hm & Hr & Hw).
        split; [exact Hm|].
        exists "down", "Down", "(up -> down) [AFTER]".
        split; [left; now rewrite Z.eqb_eq in E39 | now split].
      - destruct (eventid event =? 2038)%Z eqn:E38.
        + destruct (establishedHandler_after_rejection _ _ _ _ _ _ Eh Hth Hrej)
            as (Hm & Hr & Hw).
          split; [exact Hm|].
          exists "up", "Up", "(down -> up) [AFTER]".
          split; [right; now rewrite Z.eqb_eq in E38 | now split].
        + injection Eh as ? ? ?. subst th. destruct Hth. }
    destruct Hhandler as (Hm & opposite & info & header & Hid & Hr & Hw).
    destruct rh as [[]|e]; injection E as ? ? ?; subst t wn r.
    + split.
      { rewrite !mutations_cons, mutations_app, Hm. reflexivity. }
      exists event, opposite, info, header.
      split; [reflexivity|]. split; [exact Hid|]. split; [exact Hr|].
      split; [exact Hw|]. intros _. apply scoped_session_releases.
      exists (GetEvent :: th). split; [reflexivity|]. now constructor.
    + split.
      { rewrite !mutations_cons, Hm. reflexivity. }
      exists event, opposite, info, header.
      split; [reflexivity|]. split; [exact Hid|]. split; [exact Hr|].
      split; [exact Hw | discriminate].
Qed.

(** In the lab: the router rejects the batch, or the payload, and the
    run goes on to its end. *)
Lemma mutation_errors_swallowed_witness :
  existsb (String.eqb "disable") ["enable"; "disable"] = true
  /\ dict_truthy (map SimRouter.interface_entry SimRouter.lab_interfaces) = true
  /\ modify_downstream_interfaces
       (map SimRouter.interface_entry SimRouter.lab_interfaces) "disable"
       (SimRouter.with_set_fault SimRouter.lab_down (SrosMgmtError "MINOR: MGMT_CORE #2301"))
     = ([Print (to_be_brought (map SimRouter.interface_entry SimRouter.lab_interfaces)
                  "disable");
         CandidateSet cfg_path
           (cfg_payload (map SimRouter.interface_entry SimRouter.lab_interfaces) "disable");
         Print ("Disabling the active interfaces failed due to an error:"
                ++ nl ++ tab ++ "MINOR: MGMT_CORE #2301")],
        SimRouter.with_set_fault SimRouter.lab_down (SrosMgmtError "MINOR: MGMT_CORE #2301"),
        Ok true)
  /\ modify_downstream_interfaces
       (map SimRouter.interface_entry SimRouter.lab_interfaces) "disable"
       (SimRouter.with_set_fault SimRouter.lab_down (TypeError "unhashable type"))
     = ([Print (to_be_brought (map SimRouter.interface_entry SimRouter.lab_interfaces)
                  "disable");
         CandidateSet cfg_path
           (cfg_payload (map SimRouter.interface_entry SimRouter.lab_interfaces) "disable");
         Print "unhashable type";
         PrintValue
           (cfg_payload (map SimRouter.interface_entry SimRouter.lab_interfaces) "disable")],
        SimRouter.with_set_fault SimRouter.lab_down (TypeError "unhashable type"),
        Ok true)
  /\ mutations (trace_of (main (SimRouter.with_set_fault SimRouter.lab_down
                                  (SrosMgmtError "MINOR: MGMT_CORE #2301")))) = 1
  /\ result_of (main (SimRouter.with_set_fault SimRouter.lab_down
                        (SrosMgmtError "MINOR: MGMT_CORE #2301"))) = Ok tt
  /\ released_once (trace_of (main (SimRouter.with_set_fault SimRouter.lab_down
                                      (SrosMgmtError "MINOR: MGMT_CORE #2301")))).
Proof.
  split; [reflexivity|]. split; [reflexivity|].
  pose proof (mutation_errors_swallowed
                (SimRouter.with_set_fault SimRouter.lab_down
                   (SrosMgmtError "MINOR: MGMT_CORE #2301"))
                (SimRouter.with_set_fault SimRouter.lab_down
                   (SrosMgmtError "MINOR: MGMT_CORE #2301"))
                (map SimRouter.interface_entry SimRouter.lab_interfaces)
                "disable" "MINOR: MGMT_CORE #2301" eq_refl eq_refl) as Hmgmt.
  pose proof (mutation_errors_swallowed
                (SimRouter.with_set_fault SimRouter.lab_down (TypeError "unhashable type"))
                (SimRouter.with_set_fault SimRouter.lab_down (TypeError "unhashable type"))
                (map SimRouter.interface_entry SimRouter.lab_interfaces)
                "disable" "unhashable type" eq_refl eq_refl) as Htype.
  split; [exact (proj1 Hmgmt eq_refl)|].
  split; [exact (proj1 (proj2 Htype) eq_refl)|].
  assert (Hin : In (CandidateSet cfg_path
                      (cfg_payload
                         (downstream (map SimRouter.interface_entry SimRouter.lab_interfaces))
                         "disable"))
                   (trace_of (main (SimRouter.with_set_fault SimRouter.lab_down
                                      (SrosMgmtError "MINOR: MGMT_CORE #2301"))))).
  { cbn. repeat (first [left; reflexivity | right]). }
  destruct (proj2 (proj2 Hmgmt)
              (SimRouter.with_set_fault SimRouter.lab_down
                 (SrosMgmtError "MINOR: MGMT_CORE #2301"))
              _ _ _ _ eq_refl Hin I)
    as (Hm & event & opposite & info & header & _ & _ & _ & _ & Hrel).
  split; [exact Hm|]. split; [reflexivity|]. exact (Hrel eq_refl).
Defined.

(** C6, as the specification words it, fails when the router rejects the
    batch and is out of reach afterwards: the error of [candidate.set] is
    swallowed, but the verification query raises and the invocation does
    not run to completion. *)
Lemma completes_after_rejection_counterexample :
  ~ completes_after_rejection Outage.lab_rejecting.
Proof.
  intros Hc.
  assert (Hin : In (CandidateSet cfg_path
                      (cfg_payload
                         (downstream (map SimRouter.interface_entry SimRouter.lab_interfaces))
                         "disable"))
                   (trace_of (main Outage.lab_rejecting))).
  { cbn. repeat (first [left; reflexivity | right]). }
  specialize (Hc _ Hin I). vm_compute in Hc. discriminate.
Qed.

(** * Further properties of the script *)

(** ** Dictionaries *)

Lemma dict_set_fresh {V} (d : dict V) (k : string) (v : V) :
  ~ In k (dict_keys d) -> dict_set d k v = (d ++ [(k, v)])%list.
Proof.
  induction d as [|[k0 v0] d IH]; intros Hfresh; [reflexivity|].
  cbn in *. destruct (String.eqb k k0) eqn:E.
  - apply String.eqb_eq in E. subst. elim Hfresh. now left.
  - rewrite IH; [reflexivity | intros Hin; apply Hfresh; now right].
Qed.

Lemma select_loop (snapshot acc : dict pyval) :
  NoDup (dict_keys acc ++ dict_keys snapshot) ->
  fold_left
    (fun (active_interfaces : dict pyval) '(interface, state) =>
       if negb (str_contains downstream_tag interface)
       then active_interfaces
       else dict_set active_interfaces interface state)
    snapshot acc
  = (acc ++ downstream snapshot)%list.
Proof.
  revert acc; induction snapshot as [|[k v] rest IH]; intros acc Hnd.
  - cbn. now rewrite app_nil_r.
  - cbn [fold_left downstream filter fst].
    cbn [dict_keys map fst] in Hnd.
    destruct (str_contains downstream_tag k) eqn:E; cbn [negb].
    + rewrite dict_set_fresh.
      * rewrite IH.
        -- now rewrite <- app_assoc.
        -- unfold dict_keys. rewrite map_app, <- app_assoc. exact Hnd.
      * intros Hin. apply (NoDup_remove_2 _ _ _ Hnd). apply in_or_app. now left.
    + apply IH. exact (NoDup_remove_1 _ _ _ Hnd).
Qed.

(** X1: when the router answers the query with a snapshot (a dictionary,
    so its keys are distinct), [find_interfaces] returns exactly the
    entries of the snapshot whose name contains [tester], in the order of
    the snapshot and with their state; it makes that one query and leaves
    the router as it is. *)
Theorem find_interfaces_selects {W} `{World W} (w : W) (oper_status_filter : string)
    (snapshot : dict pyval) :
  running_get w interface_state_path (oper_state_filter oper_status_filter) = Ok snapshot ->
  NoDup (dict_keys snapshot) ->
  find_interfaces oper_status_filter w
  = ([RunningGet interface_state_path (oper_state_filter oper_status_filter)], w,
     Ok (downstream snapshot))
  /\ (forall name, In name (dict_keys (downstream snapshot))
                   <-> In name (dict_keys snapshot) /\ tagged name)
  /\ (forall name state, In (name, state) (downstream snapshot)
                         <-> In (name, state) snapshot /\ tagged name).
Proof.
  intros Eget Hnd. split; [|split].
  - unfold find_interfaces. rewrite run_bind. unfold connection_running_get.
    fold (oper_state_filter oper_status_filter). rewrite Eget. cbv beta iota.
    now rewrite (select_loop snapshot [] Hnd).
  - intros name. unfold downstream, dict_keys. rewrite !in_map_iff. split.
    + intros ([k v] & <- & Hin). apply filter_In in Hin. destruct Hin as [Hin Ht].
      split; [now exists (k, v) | now apply str_contains_spec].
    + intros [([k v] & <- & Hin) Ht]. exists (k, v). split; [reflexivity|].
      apply filter_In. split; [exact Hin | now apply str_contains_spec].
  - intros name state. unfold downstream. rewrite filter_In.
    cbn [fst]. now rewrite str_contains_spec.
Qed.

Lemma find_interfaces_selects_witness :
  running_get SimRouter.lab_down interface_state_path (oper_state_filter "up")
  = Ok (map SimRouter.interface_entry SimRouter.lab_interfaces)
  /\ NoDup (dict_keys (map SimRouter.interface_entry SimRouter.lab_interfaces))
  /\ find_interfaces "up" SimRouter.lab_down
     = ([RunningGet interface_state_path (oper_state_filter "up")], SimRouter.lab_down,
        Ok (downstream (map SimRouter.interface_entry SimRouter.lab_interfaces)))
  /\ dict_keys (downstream (map SimRouter.interface_entry SimRouter.lab_interfaces))
     = ["tester4"; "tester5"].
Proof.
  assert (Hnd : NoDup (dict_keys (map SimRouter.interface_entry SimRouter.lab_interfaces))).
  { repeat constructor; cbn; intuition discriminate. }
  split; [reflexivity|]. split; [exact Hnd|].
  split; [|reflexivity].
  exact (proj1 (find_interfaces_selects SimRouter.lab_down "up" _ eq_refl Hnd)).
Defined.

Lemma payload_loop (change : string) (names : list string) (acc : dict pyval) :
  NoDup (dict_keys acc ++ names) ->
  fold_left
    (fun (payload : dict pyval) interface =>
       dict_set payload interface
         (PDict [("interface-name", PStr interface); ("admin-state", PStr change)]))
    names acc
  = (acc ++ map (payload_entry change) names)%list.
Proof.
  revert acc; induction names as [|k rest IH]; intros acc Hnd.
  - cbn. now rewrite app_nil_r.
  - cbn [fold_left map]. rewrite dict_set_fresh.
    + rewrite IH.
      * now rewrite <- app_assoc.
      * unfold dict_keys. rewrite map_app, <- app_assoc. exact Hnd.
    + intros Hin. apply (NoDup_remove_2 _ _ _ Hnd). apply in_or_app. now left.
Qed.

(** X2: the payload [modify_downstream_interfaces] builds for a selection
    (a dictionary, so its keys are distinct) has one entry per selected
    interface, in the order of the selection, that names the interface and
    sets [admin-state] to the requested change; the names the payload
    carries are those of the selection. *)
Theorem interface_payload_exact (d : dict pyval) (change : string) :
  NoDup (dict_keys d) ->
  interface_payload d change = map (payload_entry change) (dict_keys d)
  /\ payload_interfaces (cfg_payload d change) = dict_keys d
  /\ (forall name,
        dict_get (interface_payload d change) name
        = if dict_contains d name
          then Some (PDict [("interface-name", PStr name); ("admin-state", PStr change)])
          else None).
Proof.
  intros Hnd.
  assert (E : interface_payload d change = map (payload_entry change) (dict_keys d)).
  { unfold interface_payload. now rewrite (payload_loop change (dict_keys d) []). }
  split; [exact E|]. split.
  - unfold cfg_payload, payload_interfaces. cbn. rewrite app_nil_r, E.
    unfold dict_keys at 1. rewrite map_map. cbn. apply map_id.
  - intros name. rewrite E. unfold dict_contains.
    clear E Hnd. induction (dict_keys d) as [|k rest IH]; [reflexivity|].
    cbn. destruct (String.eqb name k) eqn:Ek.
    + apply String.eqb_eq in Ek. now subst.
    + exact IH.
Qed.

Lemma interface_payload_exact_witness :
  NoDup (dict_keys (downstream (map SimRouter.interface_entry SimRouter.lab_interfaces)))
  /\ interface_payload
       (downstream (map SimRouter.interface_entry SimRouter.lab_interfaces)) "disable"
     = [payload_entry "disable" "tester4"; payload_entry "disable" "tester5"]
  /\ payload_interfaces
       (cfg_payload (downstream (map SimRouter.interface_entry SimRouter.lab_interfaces))
          "disable")
     = ["tester4"; "tester5"].
Proof.
  assert (Hnd : NoDup (dict_keys (downstream (map SimRouter.interface_entry
                                                SimRouter.lab_interfaces)))).
  { repeat constructor; cbn; intuition discriminate. }
  split; [exact Hnd|].
  pose proof (interface_payload_exact _ "disable" Hnd) as Hw.
  split; [exact (proj1 Hw) | exact (proj1 (proj2 Hw))].
Defined.

(** ** The State Mutator's caller *)

(** X3: [modify_downstream_interfaces] guards its two inputs.  An action
    other than [enable] and [disable] fails the assertion before anything
    is printed or sent; an empty selection prints the announcement and
    returns [True] without calling [candidate.set], the router untouched. *)
Theorem modify_guards {W} `{World W} (w : W) (d : dict pyval) (change : string) :
  (existsb (String.eqb change) ["enable"; "disable"] = false ->
     modify_downstream_interfaces d change w
     = ([], w, Raise (AssertionError ("Action must be enable or disable. Found " ++ change))))
  /\ (existsb (String.eqb change) ["enable"; "disable"] = true ->
        dict_truthy d = false ->
        modify_downstream_interfaces d change w
        = ([Print (to_be_brought d change)], w, Ok true)).
Proof.
  split.
  - intros Hbad. unfold modify_downstream_interfaces.
    rewrite run_bind, Hbad. reflexivity.
  - intros Hok Hd. destruct d as [|entry d]; [|discriminate].
    unfold modify_downstream_interfaces. rewrite Hok. reflexivity.
Qed.

Lemma modify_guards_witness :
  existsb (String.eqb "shutdown") ["enable"; "disable"] = false
  /\ modify_downstream_interfaces
       (map SimRouter.interface_entry SimRouter.lab_interfaces) "shutdown" SimRouter.lab_down
     = ([], SimRouter.lab_down,
        Raise (AssertionError "Action must be enable or disable. Found shutdown"))
  /\ existsb (String.eqb "disable") ["enable"; "disable"] = true
  /\ dict_truthy (@nil (string * pyval)) = false
  /\ modify_downstream_interfaces [] "disable" SimRouter.lab_down
     = ([Print (to_be_brought [] "disable")], SimRouter.lab_down, Ok true).
Proof.
  split; [reflexivity|]. split.
  - exact (proj1 (modify_guards SimRouter.lab_down
                    (map SimRouter.interface_entry SimRouter.lab_interfaces) "shutdown")
             eq_refl).
  - split; [reflexivity|]. split; [reflexivity|].
    exact (proj2 (modify_guards SimRouter.lab_down [] "disable") eq_refl eq_refl).
Defined.

(** X4: on a non-empty selection [modify_downstream_interfaces] announces
    the change and calls [candidate.set] once with the whole batch.  When
    the call succeeds it returns [True] and the router is as the call left
    it; an exception other than [SrosMgmtError] and [TypeError] is not
    caught: it reaches the caller, nothing is logged. *)
Theorem modify_outcomes {W} `{World W} (w w' : W) (d : dict pyval) (change : string) :
  existsb (String.eqb change) ["enable"; "disable"] = true ->
  dict_truthy d = true ->
  (candidate_set w cfg_path (cfg_payload d change) = (Ok tt, w') ->
     modify_downstream_interfaces d change w
     = ([Print (to_be_brought d change);
         CandidateSet cfg_path (cfg_payload d change)], w', Ok true))
  /\ (forall e,
        candidate_set w cfg_path (cfg_payload d change) = (Raise e, w') ->
        (forall msg, e <> SrosMgmtError msg) ->
        (forall msg, e <> TypeError msg) ->
        modify_downstream_interfaces d change w
        = ([Print (to_be_brought d change);
            CandidateSet cfg_path (cfg_payload d change)], w', Raise e)).
Proof.
  intros Hchange Hd. split.
  - intros Eset. rewrite (modify_run d change w Hchange Hd), Eset. reflexivity.
  - intros e Eset Hm Ht. rewrite (modify_run d change w Hchange Hd), Eset.
    destruct e; try reflexivity; [now elim (Hm msg) | now elim (Ht msg)].
Qed.

Lemma modify_outcomes_witness :
  existsb (String.eqb "disable") ["enable"; "disable"] = true
  /\ dict_truthy (map SimRouter.interface_entry SimRouter.lab_interfaces) = true
  /\ result_of (modify_downstream_interfaces
                  (map SimRouter.interface_entry SimRouter.lab_interfaces) "disable"
                  SimRouter.lab_down) = Ok true
  /\ result_of (modify_downstream_interfaces
                  (map SimRouter.interface_entry SimRouter.lab_interfaces) "disable"
                  (SimRouter.with_set_fault SimRouter.lab_down (OtherError "RuntimeError")))
     = Raise (OtherError "RuntimeError").
Proof.
  split; [reflexivity|]. split; [reflexivity|]. split.
  - exact (f_equal result_of
             (proj1 (modify_outcomes SimRouter.lab_down _
                       (map SimRouter.interface_entry SimRouter.lab_interfaces)
                       "disable" eq_refl eq_refl) eq_refl)).
  - refine (f_equal result_of
              (proj2 (modify_outcomes
                        (SimRouter.with_set_fault SimRouter.lab_down
                           (OtherError "RuntimeError")) _
                        (map SimRouter.interface_entry SimRouter.lab_interfaces)
                        "disable" eq_refl eq_refl)
                 (OtherError "RuntimeError") eq_refl _ _));
      intros msg; discriminate.
Defined.

(** ** The Session Counter, continued *)

(** X5: a query that raises ends the Session Counter with that exception.
    When the query for the session states fails the configuration is not
    asked for; the router is left as it is either way. *)
Theorem count_propagates {W} `{World W} (w : W) (e : exn) :
  (running_get w bgp_state_path nb_filter = Raise e ->
     count_ebgp_sessions_established w
     = ([RunningGet bgp_state_path nb_filter], w, Raise e))
  /\ (forall S,
        running_get w bgp_state_path nb_filter = Ok S ->
        running_get w bgp_conf_path ebgp_group_filter = Raise e ->
        count_ebgp_sessions_established w
        = ([RunningGet bgp_state_path nb_filter;
            RunningGet bgp_conf_path ebgp_group_filter], w, Raise e)).
Proof.
  split.
  - intros Es. unfold count_ebgp_sessions_established.
    rewrite run_bind. unfold connection_running_get. now rewrite Es.
  - intros S Es Ec. unfold count_ebgp_sessions_established.
    rewrite run_bind. unfold connection_running_get at 1. rewrite Es. cbv beta iota.
    rewrite run_bind. unfold connection_running_get. now rewrite Ec.
Qed.

Lemma count_propagates_witness :
  running_get (SimRouter.with_query_fault SimRouter.lab_down (OtherError "LookupError"))
    bgp_state_path nb_filter = Raise (OtherError "LookupError")
  /\ count_ebgp_sessions_established
       (SimRouter.with_query_fault SimRouter.lab_down (OtherError "LookupError"))
     = ([RunningGet bgp_state_path nb_filter],
        SimRouter.with_query_fault SimRouter.lab_down (OtherError "LookupError"),
        Raise (OtherError "LookupError")).
Proof.
  split; [reflexivity|].
  exact (proj1 (count_propagates
                  (SimRouter.with_query_fault SimRouter.lab_down (OtherError "LookupError"))
                  (OtherError "LookupError")) eq_refl).
Defined.

Lemma filter_length_zero {A} (f : A -> bool) (l : list A) :
  List.length (filter f l) = 0 <-> forall x, In x l -> f x = false.
Proof.
  induction l as [|a l IH]; cbn; [tauto|].
  destruct (f a) eqn:E; cbn.
  - split; [discriminate|]. intros Hall. specialize (Hall a (or_introl eq_refl)). congruence.
  - rewrite IH. split.
    + intros Hall x [<-|Hin]; [exact E | now apply Hall].
    + intros Hall x Hin. apply Hall. now right.
Qed.

Lemma filter_length_all {A} (f : A -> bool) (l : list A) :
  List.length (filter f l) = List.length l <-> forall x, In x l -> f x = true.
Proof.
  induction l as [|a l IH]; cbn; [tauto|].
  pose proof (filter_length_le f l) as Hle.
  destruct (f a) eqn:E; cbn.
  - split.
    + intros Hlen x [<-|Hin]; [exact E|]. apply IH; [lia | exact Hin].
    + intros Hall. f_equal. apply IH. intros x Hin. apply Hall. now right.
  - split; [lia|]. intros Hall. specialize (Hall a (or_introl eq_refl)). congruence.
Qed.

(** X6: the count is 0 exactly when no configured peer has an
    established session, it reaches the threshold exactly when at least
    one has, and it equals the number of configured peers exactly when all
    of them have. *)
Theorem count_sessions_threshold (C S : dict pyval) :
  (count_sessions C S = 0 <->
   forall peer, In peer (dict_keys C) -> ~ In peer (dict_keys S))
  /\ (MIN_NUM_ACTIVE_BGP_SESSIONS <= count_sessions C S <->
      exists peer, In peer (dict_keys C) /\ In peer (dict_keys S))
  /\ (count_sessions C S = List.length C <->
      forall peer, In peer (dict_keys C) -> In peer (dict_keys S)).
Proof.
  rewrite count_sessions_filter.
  assert (Hzero : List.length (filter (dict_contains S) (dict_keys C)) = 0 <->
                  forall peer, In peer (dict_keys C) -> ~ In peer (dict_keys S)).
  { rewrite filter_length_zero. split; intros Hall peer Hin.
    - rewrite <- dict_contains_In. rewrite (Hall peer Hin). discriminate.
    - specialize (Hall peer Hin). rewrite <- dict_contains_In in Hall.
      now destruct (dict_contains S peer). }
  split; [exact Hzero|]. split.
  - unfold MIN_NUM_ACTIVE_BGP_SESSIONS. split.
    + intros Hle.
      destruct (filter (dict_contains S) (dict_keys C)) as [|peer rest] eqn:Ef;
        [cbn in Hle; lia|].
      assert (Hin : In peer (filter (dict_contains S) (dict_keys C)))
        by (rewrite Ef; now left).
      apply filter_In in Hin. destruct Hin as [Hin Hc].
      exists peer. split; [exact Hin | now apply dict_contains_In].
    + intros (peer & Hin & HinS).
      destruct (Nat.eq_dec (List.length (filter (dict_contains S) (dict_keys C))) 0)
        as [Ez|Hnz]; [|lia].
      now elim (proj1 Hzero Ez peer Hin).
  - rewrite <- (length_map fst C). fold (dict_keys C).
    rewrite filter_length_all. split; intros Hall peer Hin.
    + now apply dict_contains_In, Hall.
    + now apply dict_contains_In, Hall.
Qed.

(** ** The report *)

Lemma no_dot_cons (c : ascii) (rest : string) :
  str_contains "." (String c rest) = false ->
  Ascii.eqb c "."%char = false /\ str_contains "." rest = false.
Proof.
  cbn [str_contains]. intros Hc. apply orb_false_iff in Hc. destruct Hc as [Hp Hr].
  split; [|exact Hr].
  cbn [prefix] in Hp. destruct (ascii_dec "."%char c) as [<-|Hne].
  - destruct rest; discriminate.
  - apply Ascii.eqb_neq. congruence.
Qed.

(** X7: [router_timestamp_to_datetime] cuts the leaf at its first dot and
    hands the text before it to [datetime.fromisoformat]: the fractional
    seconds and whatever follows them never reach the parser, a timestamp
    without a dot is parsed whole, and the outcome - the datetime, or the
    [ValueError] of a text that is no ISO time - is the parser's.  It calls
    nothing else; a container in place of the leaf has no [data] and raises
    [AttributeError]. *)
Theorem router_timestamp_truncates {W} `{World W} (w : W) (whole rest : string) :
  str_contains "." whole = false ->
  router_timestamp_to_datetime (PStr (whole ++ "." ++ rest)) w
  = ([], w, fromisoformat w whole)
  /\ router_timestamp_to_datetime (PStr whole) w = ([], w, fromisoformat w whole)
  /\ (forall fields,
        router_timestamp_to_datetime (PDict fields) w = ([], w, Raise (AttributeError "data")))
  /\ (forall data,
        router_timestamp_to_datetime (PStr data) w
        = ([], w, fromisoformat w (split_dot_head data))
        /\ str_contains "." (split_dot_head data) = false).
Proof.
  intros Hnd.
  change ("." ++ rest) with (String "."%char rest).
  assert (Hcut : split_dot_head (whole ++ String "."%char rest) = whole
                 /\ split_dot_head whole = whole).
  { induction whole as [|c whole IH]; [now split|].
    destruct (no_dot_cons _ _ Hnd) as [Hc Hr]. destruct (IH Hr) as [IH1 IH2].
    cbn [append split_dot_head]. rewrite Hc. now rewrite IH1, IH2. }
  destruct Hcut as [Hcut1 Hcut2].
  split; [|split; [|split]].
  - unfold router_timestamp_to_datetime. now rewrite Hcut1.
  - unfold router_timestamp_to_datetime. now rewrite Hcut2.
  - reflexivity.
  - intros data. split; [reflexivity|].
    induction data as [|c data IH]; [reflexivity|].
    cbn [split_dot_head]. destruct (Ascii.eqb c "."%char) eqn:E; [reflexivity|].
    cbn [str_contains]. rewrite IH, orb_false_r.
    cbn [prefix]. destruct (ascii_dec "."%char c) as [<-|_]; [discriminate | reflexivity].
Qed.

(** In the lab: a timestamp of the state model is parsed without its
    fraction, and a text that is no time raises [ValueError]. *)
Lemma router_timestamp_truncates_witness :
  str_contains "." "2023-05-11T22:14:01" = false
  /\ router_timestamp_to_datetime (PStr "2023-05-11T22:14:01.3Z") SimRouter.lab_down
     = ([], SimRouter.lab_down, Ok (mkDatetime 2023 5 11 22 14 1 0 None))
  /\ str_contains "." "never" = false
  /\ router_timestamp_to_datetime (PStr "never") SimRouter.lab_down
     = ([], SimRouter.lab_down, Raise (ValueError "Invalid isoformat string: never")).
Proof.
  split; [reflexivity|]. split.
  - exact (proj1 (router_timestamp_truncates SimRouter.lab_down
                    "2023-05-11T22:14:01" "3Z" eq_refl)).
  - split; [reflexivity|].
    exact (proj1 (proj2 (router_timestamp_truncates SimRouter.lab_down
                           "never" EmptyString eq_refl))).
Defined.

(** X8: [to_rows] is a generator that only yields: however it ends, its
    trace is the rows it has yielded so far and nothing else, and the
    router is as it was.  When it runs to its end it has yielded one row
    for each interface, in the order of the dictionary: the name, the
    datetime [fromisoformat] parsed from the truncated [last-oper-change]
    of that interface, and [datetime.now()] minus that datetime. *)
Theorem to_rows_one_per_interface {W} `{World W} (w : W) (d : dict pyval) :
  (exists yielded,
     trace_of (to_rows d w) = map Yield yielded
     /\ world_of (to_rows d w) = w
     /\ List.length yielded <= List.length d)
  /\ (forall rows,
        result_of (to_rows d w) = Ok rows ->
        trace_of (to_rows d w) = map Yield rows
        /\ Forall2 (row_of w) rows d
        /\ map (fun r : row => fst (fst r)) rows = dict_keys d).
Proof.
  assert (Hrun : exists ys r,
            to_rows d w = (map Yield ys, w, r)
            /\ List.length ys <= List.length d
            /\ (forall rows, r = Ok rows -> rows = ys /\ Forall2 (row_of w) rows d)).
  { induction d as [|[key value] rest IH].
    - exists [], (Ok []). split; [reflexivity|]. split; [apply le_n|].
      intros rows E. inversion E. split; [reflexivity | constructor].
    - destruct IH as (ys & r & Erest & Hlen & Hr).
      cbn [to_rows]. unfold bind at 1. cbv beta iota. unfold bind at 1.
      destruct value as [s|fields];
        [exists [], (Raise (TypeError "string indices must be integers"));
         split; [reflexivity | split; [apply Nat.le_0_l | discriminate]]|].
      destruct (dict_get fields "last-oper-change") as [[data|sub]|] eqn:Eg;
        [| exists [], (Raise (AttributeError "data"));
           split; [reflexivity | split; [apply Nat.le_0_l | discriminate]]
         | exists [], (Raise (KeyError "last-oper-change"));
           split; [reflexivity | split; [apply Nat.le_0_l | discriminate]]].
      unfold ret at 1. cbv beta iota. unfold bind at 1.
      unfold router_timestamp_to_datetime.
      destruct (fromisoformat w (split_dot_head data)) as [last|e] eqn:Ep;
        [|exists [], (Raise e);
          split; [reflexivity | split; [apply Nat.le_0_l | discriminate]]].
      unfold bind at 1.
      destruct (datetime_sub w (datetime_now w) last) as [elapsed|e] eqn:Es;
        [|exists [], (Raise e);
          split; [reflexivity | split; [apply Nat.le_0_l | discriminate]]].
      unfold bind at 1, emit. cbv beta iota. unfold bind at 1. rewrite Erest.
      destruct r as [rows|e].
      + exists ((key, last, elapsed) :: ys), (Ok ((key, last, elapsed) :: rows)).
        split; [cbn; now rewrite ?app_nil_r|]. split; [cbn; lia|].
        intros rows' E. inversion E; subst.
        destruct (Hr rows eq_refl) as [-> HF]. split; [reflexivity|].
        constructor; [|exact HF].
        exists fields, data. cbn [fst snd]. now repeat split.
      + exists ((key, last, elapsed) :: ys), (Raise e).
        split; [cbn; now rewrite ?app_nil_r|]. split; [cbn; lia | discriminate]. }
  destruct Hrun as (ys & r & E & Hlen & Hr). rewrite E.
  cbn [trace_of world_of result_of fst snd]. split.
  - exists ys. now repeat split.
  - intros rows ->. destruct (Hr rows eq_refl) as [-> HF].
    split; [reflexivity|]. split; [exact HF|].
    clear E Hr Hlen. induction HF as [|x [key value] rows d Hx _ IH]; [reflexivity|].
    destruct Hx as (fields & data & _ & _ & Hname & _).
    cbn in *. now rewrite IH, Hname.
Qed.

(** In the lab: the two downstream interfaces, up for 2 min 49 s. *)
Lemma to_rows_one_per_interface_witness :
  result_of (to_rows (downstream (map SimRouter.interface_entry SimRouter.lab_interfaces))
               SimRouter.lab_down)
  = Ok [("tester4", mkDatetime 2023 5 11 22 14 1 0 None, mkTimedelta 0 169 0);
        ("tester5", mkDatetime 2023 5 11 22 14 1 0 None, mkTimedelta 0 169 0)]
  /\ trace_of (to_rows (downstream (map SimRouter.interface_entry SimRouter.lab_interfaces))
                 SimRouter.lab_down)
     = map Yield
         [("tester4", mkDatetime 2023 5 11 22 14 1 0 None, mkTimedelta 0 169 0);
          ("tester5", mkDatetime 2023 5 11 22 14 1 0 None, mkTimedelta 0 169 0)].
Proof.
  split; [reflexivity|].
  exact (proj1 (proj2 (to_rows_one_per_interface SimRouter.lab_down
                         (downstream (map SimRouter.interface_entry
                                        SimRouter.lab_interfaces)))
                 _ eq_refl)).
Defined.

(** X9: an interface whose state has no [last-oper-change] ends [to_rows]
    with [KeyError] once the rows before it have been yielded.
    [print_table] has by then written the heading and a line for each of
    those rows; it writes no further line and no count, and passes the
    exception on. *)
Theorem to_rows_missing_key {W} `{World W} (w : W) (before after : dict pyval)
    (name : string) (fields : dict pyval) (rows : list row) (info header : string) :
  result_of (to_rows before w) = Ok rows ->
  dict_get fields "last-oper-change" = None ->
  to_rows (before ++ (name, PDict fields) :: after)%list w
  = (map Yield rows, w, Raise (KeyError "last-oper-change"))
  /\ print_table (to_rows (before ++ (name, PDict fields) :: after)%list) info header w
     = (TableHeader ("Interfaces modified by script " ++ header)
          [ (20, "Interface"); (40, "Last oper change"); (18, info ++ " since") ]%nat
        :: map TableRow rows, w, Raise (KeyError "last-oper-change")).
Proof.
  intros E Hmiss.
  assert (Hrows : to_rows (before ++ (name, PDict fields) :: after)%list w
                  = (map Yield rows, w, Raise (KeyError "last-oper-change"))).
  { revert rows E. induction before as [|[key value] rest IH]; intros rows E.
    - cbn in E. inversion E; subst.
      cbn [app to_rows]. unfold bind. rewrite Hmiss. reflexivity.
    - cbn [app to_rows]. cbn [to_rows] in E.
      unfold bind at 1. unfold bind at 1 in E. cbv beta iota in E |- *.
      unfold bind at 1. unfold bind at 1 in E.
      destruct value as [s|fields']; [discriminate|].
      destruct (dict_get fields' "last-oper-change") as [[data|sub]|];
        try discriminate.
      unfold ret at 1. unfold ret at 1 in E. cbv beta iota in E |- *.
      unfold bind at 1. unfold bind at 1 in E.
      unfold router_timestamp_to_datetime in E |- *.
      destruct (fromisoformat w (split_dot_head data)) as [last|e]; [|discriminate].
      unfold bind at 1. unfold bind at 1 in E.
      destruct (datetime_sub w (datetime_now w) last) as [elapsed|e]; [|discriminate].
      unfold bind at 1, emit. unfold bind at 1, emit in E. cbv beta iota in E |- *.
      unfold bind at 1. unfold bind at 1 in E.
      destruct (to_rows_run rest w) as (ys & r & Er & Hr).
      rewrite Er in E. destruct r as [rows'|e]; [|discriminate].
      destruct (Hr rows' eq_refl) as [-> _].
      cbn in E. inversion E; subst.
      rewrite (IH ys); [|now rewrite Er].
      cbn. now rewrite ?app_nil_r. }
  split; [exact Hrows|].
  unfold print_table, table_print. now rewrite Hrows, table_lines.
Qed.

(** In the lab: [tester4] is printed, [tester5] has no timestamp. *)
Lemma to_rows_missing_key_witness :
  result_of (to_rows [SimRouter.interface_entry
                        (SimRouter.mkInterface "tester4" "up" "enable"
                           "2023-05-11T22:14:01.3Z")] SimRouter.lab_down)
  = Ok [("tester4", mkDatetime 2023 5 11 22 14 1 0 None, mkTimedelta 0 169 0)]
  /\ dict_get [("oper-state", PStr "up")] "last-oper-change" = None
  /\ print_table
       (to_rows ([SimRouter.interface_entry
                    (SimRouter.mkInterface "tester4" "up" "enable"
                       "2023-05-11T22:14:01.3Z")]
                 ++ [("tester5", PDict [("oper-state", PStr "up")])])%list)
       "Up" "(up -> down) [BEFORE]" SimRouter.lab_down
     = ([TableHeader "Interfaces modified by script (up -> down) [BEFORE]"
           [ (20, "Interface"); (40, "Last oper change"); (18, "Up since") ]%nat;
         TableRow ("tester4", mkDatetime 2023 5 11 22 14 1 0 None, mkTimedelta 0 169 0)],
        SimRouter.lab_down, Raise (KeyError "last-oper-change")).
Proof.
  split; [reflexivity|]. split; [reflexivity|].
  exact (proj2 (to_rows_missing_key SimRouter.lab_down
                  [SimRouter.interface_entry
                     (SimRouter.mkInterface "tester4" "up" "enable"
                        "2023-05-11T22:14:01.3Z")]
                  [] "tester5" [("oper-state", PStr "up")]
                  [("tester4", mkDatetime 2023 5 11 22 14 1 0 None, mkTimedelta 0 169 0)]
                  "Up" "(up -> down) [BEFORE]" eq_refl eq_refl)).
Defined.

(** ** Counting calls *)

Section Bounds.

Context {W : Type} `{World W}.

Variable p : action -> bool.

Local Abbreviation atmost n m := (@atmost W _ p n m).

Lemma atmost_ret {A} (a : A) : atmost 0 (ret a).
Proof. intros w. apply le_n. Qed.

Lemma atmost_raise {A} (e : exn) : atmost 0 (raise (A := A) e).
Proof. intros w. apply le_n. Qed.

Lemma atmost_emit (a : action) (n : nat) :
  (if p a then 1 else 0) <= n -> atmost n (emit a).
Proof. intros Hn w. cbn. destruct (p a); cbn; lia. Qed.

Lemma atmost_bind {A B} (n1 n2 n : nat) (m : M A) (f : A -> M B) :
  atmost n1 m -> (forall a, atmost n2 (f a)) -> n1 + n2 <= n -> atmost n (bind m f).
Proof.
  intros Hm Hf Hn w. specialize (Hm w). rewrite run_bind.
  destruct (m w) as [[t1 w1] [a|e]]; cbn in *; [|lia].
  specialize (Hf a w1). destruct (f a w1) as [[t2 w2] r]; cbn in *.
  rewrite filter_app, length_app. lia.
Qed.

Lemma atmost_if {A} (b : bool) (n : nat) (m1 m2 : M A) :
  atmost n m1 -> atmost n m2 -> atmost n (if b then m1 else m2).
Proof. now destruct b. Qed.

Lemma atmost_try_except {A} (n1 n2 n : nat) (m : M A) (on_mgmt on_type : string -> M A) :
  atmost n1 m ->
  (forall msg, atmost n2 (on_mgmt msg)) ->
  (forall msg, atmost n2 (on_type msg)) ->
  n1 + n2 <= n ->
  atmost n (try_except m on_mgmt on_type).
Proof.
  intros Hm H1 H2 Hn w. specialize (Hm w). unfold try_except.
  destruct (m w) as [[t1 w1] [a|e]]; cbn in *; [lia|].
  destruct e; cbn; try lia.
  - specialize (H1 msg w1). destruct (on_mgmt msg w1) as [[t2 w2] r]; cbn in *.
    rewrite filter_app, length_app. lia.
  - specialize (H2 msg w1). destruct (on_type msg w1) as [[t2 w2] r]; cbn in *.
    rewrite filter_app, length_app. lia.
Qed.

(** [p] flags nothing but mutations, pauses and releases, and weighs
    them [cs], [cz] and [cd]. *)
Variables cs cz cd : nat.
Hypothesis p_other :
  forall a, is_set a = false -> is_sleep a = false -> is_disconnect a = false ->
            p a = false.
Hypothesis p_set : forall path payload, (if p (CandidateSet path payload) then 1 else 0) <= cs.
Hypothesis p_sleep : forall secs, (if p (Sleep secs) then 1 else 0) <= cz.
Hypothesis p_disconnect : (if p Disconnect then 1 else 0) <= cd.

Lemma atmost_other (a : action) :
  is_set a = false -> is_sleep a = false -> is_disconnect a = false ->
  atmost 0 (emit a).
Proof. intros H1 H2 H3. apply atmost_emit. now rewrite p_other. Qed.

Lemma atmost_running_get (path : string) (filter : pyval) :
  atmost 0 (connection_running_get path filter).
Proof. intros w. cbn. now rewrite p_other. Qed.

Lemma atmost_find_interfaces (oper_status_filter : string) :
  atmost 0 (find_interfaces oper_status_filter).
Proof.
  unfold find_interfaces.
  apply (atmost_bind 0 0); [apply atmost_running_get | intros; apply atmost_ret | lia].
Qed.

Lemma atmost_print_log (message : string) : atmost 0 (print_log message).
Proof. intros w. cbn. now rewrite p_other. Qed.

Lemma atmost_print_table (d : dict pyval) (info header : string) :
  atmost 0 (print_table (to_rows d) info header).
Proof.
  intros w.
  destruct (print_table_cases d info header w) as (ys & r & _ & _ & ->).
  assert (Hrows : filter p (map TableRow ys) = []).
  { induction ys as [|x ys IH]; [reflexivity|].
    cbn. now rewrite p_other, IH. }
  destruct r as [rows|e]; cbn [trace_of fst filter].
  - rewrite p_other, filter_app, Hrows by reflexivity.
    cbn. rewrite p_other by reflexivity. apply le_n.
  - rewrite p_other, Hrows by reflexivity. apply le_n.
Qed.

Lemma atmost_time_sleep (secs : nat) : atmost cz (time_sleep secs).
Proof. intros w. cbn. specialize (p_sleep secs). destruct (p (Sleep secs)); cbn; lia. Qed.

Lemma atmost_candidate_set (path : string) (payload : pyval) :
  atmost cs (connection_candidate_set path payload).
Proof.
  intros w. unfold connection_candidate_set.
  destruct (candidate_set w path payload) as [r w']. cbn.
  specialize (p_set path payload). destruct (p (CandidateSet path payload)); cbn; lia.
Qed.

Lemma atmost_modify (d : dict pyval) (change : string) :
  atmost cs (modify_downstream_interfaces d change).
Proof.
  unfold modify_downstream_interfaces.
  apply (atmost_bind 0 cs); [apply atmost_if; [apply atmost_ret | apply atmost_raise] | |lia].
  intros _. apply (atmost_bind 0 cs); [now apply atmost_other | |lia].
  intros _. apply (atmost_bind cs 0); [|intros; apply atmost_ret | lia].
  apply atmost_if.
  - apply (atmost_try_except cs 0); [apply atmost_candidate_set | | | lia].
    + intros msg. now apply atmost_other.
    + intros msg. apply (atmost_bind 0 0); [now apply atmost_other | |lia].
      intros _. now apply atmost_other.
  - intros w. cbn. lia.
Qed.

Lemma atmost_count : atmost 0 count_ebgp_sessions_established.
Proof.
  unfold count_ebgp_sessions_established.
  apply (atmost_bind 0 0); [apply atmost_running_get | |lia].
  intros S. apply (atmost_bind 0 0); [apply atmost_running_get | |lia].
  intros C. apply atmost_ret.
Qed.

Lemma atmost_transition (before after change info1 header1 info2 header2 idle : string) :
  atmost (cs + 2 * cz)
    (active_interfaces <- find_interfaces before ;;
     if dict_truthy active_interfaces
     then
       print_table (to_rows active_interfaces) info1 header1 ;;
       time_sleep 1 ;;
       modify_downstream_interfaces active_interfaces change ;;
       time_sleep 1 ;;
       inactive_interfaces <- find_interfaces after ;;
       if dict_truthy inactive_interfaces
       then print_table (to_rows inactive_interfaces) info2 header2
       else ret tt
     else print idle).
Proof.
  apply (atmost_bind 0 (cs + 2 * cz)); [apply atmost_find_interfaces | |lia].
  intros d. apply atmost_if.
  2: { intros w. cbn. rewrite p_other; cbn; [lia | reflexivity..]. }
  apply (atmost_bind 0 (cs + 2 * cz)); [apply atmost_print_table | |lia].
  intros _. apply (atmost_bind cz (cs + cz)); [apply atmost_time_sleep | |lia].
  intros _. apply (atmost_bind cs cz); [apply atmost_modify | |lia].
  intros _. apply (atmost_bind cz 0); [apply atmost_time_sleep | |lia].
  intros _. apply (atmost_bind 0 0); [apply atmost_find_interfaces | |lia].
  intros d'. apply atmost_if; [apply atmost_print_table | apply atmost_ret].
Qed.

Lemma atmost_main : atmost (cs + 2 * cz + cd) main.
Proof.
  assert (Hd : atmost cd disconnect).
  { intros w. cbn. destruct (p Disconnect); cbn in *; lia. }
  assert (Hd' : atmost (cs + 2 * cz + cd) disconnect).
  { intros w. specialize (Hd w). lia. }
  unfold main.
  apply (atmost_bind 0 (cs + 2 * cz + cd)); [now apply atmost_other | |lia].
  intros _. apply (atmost_bind 0 (cs + 2 * cz + cd)); [| |lia].
  { intros w. cbn. now rewrite p_other. }
  intros [event|]; [|exact Hd'].
  apply (atmost_bind 0 (cs + 2 * cz + cd)); [| |lia].
  { unfold subject_starts_with_digit.
    destruct (subject event); [apply atmost_raise | apply atmost_ret]. }
  intros malformed. apply atmost_if; [exact Hd'|].
  apply (atmost_bind (cs + 2 * cz) cd); [|intros; exact Hd | lia].
  repeat apply atmost_if.
  - unfold backwardsHandler.
    apply (atmost_bind 0 (cs + 2 * cz)); [apply atmost_print_log | |lia].
    intros _. apply (atmost_bind 0 (cs + 2 * cz)); [apply atmost_count | |lia].
    intros n. apply atmost_if.
    + intros w. specialize (atmost_print_log
                              (found_peerings n ++ "Situation is manageable." ++ nl) w).
      lia.
    + apply (atmost_bind 0 (cs + 2 * cz)); [apply atmost_print_log | |lia].
      intros _. apply atmost_transition.
  - unfold establishedHandler.
    apply (atmost_bind 0 (cs + 2 * cz)); [apply atmost_print_log | |lia].
    intros _. apply (atmost_bind 0 (cs + 2 * cz)); [apply atmost_count | |lia].
    intros n. apply atmost_if; [apply atmost_transition|].
    intros w. cbn. lia.
  - intros w. cbn. lia.
Qed.

End Bounds.

(** X10: whatever the router answers and however the run ends, one
    invocation of [main] calls [candidate.set] at most once, sleeps at
    most twice and releases the session at most once. *)
Theorem main_bounds {W} `{World W} (w : W) :
  mutations (trace_of (main w)) <= 1
  /\ pauses (trace_of (main w)) <= 2
  /\ releases (trace_of (main w)) <= 1.
Proof.
  split; [|split].
  - apply (atmost_main is_set 1 0 0); try (intros; cbn; lia).
    intros a Hs _ _. exact Hs.
  - apply (atmost_main is_sleep 0 1 0); try (intros; cbn; lia).
    intros a _ Hz _. exact Hz.
  - apply (atmost_main is_disconnect 0 0 1); try (intros; cbn; lia).
    intros a _ _ Hd. exact Hd.
Qed.

(** ** The direction of a transition *)

Lemma dict_set_entry (change : string) (names : list string) (interface : string) :
  exists names',
    dict_set (map (payload_entry change) names) interface
      (PDict [("interface-name", PStr interface); ("admin-state", PStr change)])
    = map (payload_entry change) names'.
Proof.
  induction names as [|name names [names' IH]].
  - now exists [interface].
  - cbn [map dict_set payload_entry]. destruct (String.eqb interface name) eqn:E.
    + apply String.eqb_eq in E. subst. now exists (name :: names).
    + exists (name :: names'). cbn [map]. now rewrite <- IH.
Qed.

Lemma interface_payload_entries (d : dict pyval) (change : string) :
  exists names, interface_payload d change = map (payload_entry change) names.
Proof.
  unfold interface_payload.
  assert (Hloop : forall keys names0, exists names,
            fold_left
              (fun (payload : dict pyval) interface =>
                 dict_set payload interface
                   (PDict [("interface-name", PStr interface);
                           ("admin-state", PStr change)]))
              keys (map (payload_entry change) names0)
            = map (payload_entry change) names).
  { induction keys as [|k keys IH]; intros names0; [now exists names0|].
    cbn [fold_left]. destruct (dict_set_entry change names0 k) as [names1 ->].
    apply IH. }
  exact (Hloop (dict_keys d) []).
Qed.

Lemma writes_only_transition {W} `{World W}
    (before after change info1 header1 info2 header2 idle : string) :
  emits (writes_only change)
    (active_interfaces <- find_interfaces before ;;
     if dict_truthy active_interfaces
     then
       print_table (to_rows active_interfaces) info1 header1 ;;
       time_sleep 1 ;;
       modify_downstream_interfaces active_interfaces change ;;
       time_sleep 1 ;;
       inactive_interfaces <- find_interfaces after ;;
       if dict_truthy inactive_interfaces
       then print_table (to_rows inactive_interfaces) info2 header2
       else ret tt
     else print idle)
    (fun _ => True).
Proof.
  apply emits_transition.
  - intros a Hs _. destruct a; try exact I. discriminate.
  - intros d _. split; [reflexivity|].
    destruct (interface_payload_entries d change) as [names E].
    exists names. unfold cfg_payload. now rewrite E.
Qed.

(** X11: whatever the router answers, a [candidate.set] of the
    degradation handler goes to the configuration of the Base router and
    sets nothing but [admin-state] to [disable], each entry under the name
    it carries; one of the establishment handler sets nothing but
    [enable].  Neither handler ever sends the other direction. *)
Theorem handler_directions {W} `{World W} (w : W) (subject : string) :
  Forall (writes_only "disable") (trace_of (backwardsHandler subject w))
  /\ Forall (writes_only "enable") (trace_of (establishedHandler subject w)).
Proof.
  assert (Hother : forall change a, is_set a = false -> writes_only change a).
  { intros change a Hs. destruct a; try exact I. discriminate. }
  split.
  - assert (Hb : emits (writes_only "disable") (backwardsHandler subject) (fun _ => True)).
    { unfold backwardsHandler.
      eapply emits_bind with (Q1 := fun _ => True);
        [apply emits_print_log; intros; exact I|].
      intros _ _. eapply emits_bind;
        [apply emits_count; intros; now apply Hother|].
      intros n _. apply emits_if; [apply emits_print_log; intros; exact I|].
      eapply emits_bind with (Q1 := fun _ => True);
        [apply emits_print_log; intros; exact I|].
      intros _ _. apply writes_only_transition. }
    exact (proj1 (Hb w)).
  - assert (He : emits (writes_only "enable") (establishedHandler subject) (fun _ => True)).
    { unfold establishedHandler.
      eapply emits_bind with (Q1 := fun _ => True);
        [apply emits_print_log; intros; exact I|].
      intros _ _. eapply emits_bind;
        [apply emits_count; intros; now apply Hother|].
      intros n _. apply emits_if; [|now apply emits_ret].
      apply writes_only_transition. }
    exact (proj1 (He w)).
Qed.

(** ** When a step fails *)

(** The Session Counter asks for the neighbours, and then for the
    groups unless the first query raised. *)
Lemma count_trace {W} `{World W} (w : W) :
  trace_of (count_ebgp_sessions_established w) = [RunningGet bgp_state_path nb_filter]
  \/ trace_of (count_ebgp_sessions_established w)
     = [RunningGet bgp_state_path nb_filter; RunningGet bgp_conf_path ebgp_group_filter].
Proof.
  unfold count_ebgp_sessions_established, bind, connection_running_get.
  destruct (running_get w bgp_state_path nb_filter) as [S|e]; [right | now left].
  now destruct (running_get w bgp_conf_path ebgp_group_filter).
Qed.

(** X12: when the Session Counter raises, either handler ends with that
    exception right there.  Its calls are the log line of the event and
    the queries of the Session Counter, one or two of them, and nothing
    else: no query of the interfaces, so nothing is selected, no pause, no
    [candidate.set]; the router is left as it is. *)
Theorem handlers_stop_when_count_fails {W} `{World W} (w : W) (subject : string)
    (e : exn) :
  result_of (count_ebgp_sessions_established w) = Raise e ->
  (result_of (backwardsHandler subject w) = Raise e
   /\ world_of (backwardsHandler subject w) = w
   /\ mutations (trace_of (backwardsHandler subject w)) = 0
   /\ pauses (trace_of (backwardsHandler subject w)) = 0)
  /\ (result_of (establishedHandler subject w) = Raise e
      /\ world_of (establishedHandler subject w) = w
      /\ mutations (trace_of (establishedHandler subject w)) = 0
      /\ pauses (trace_of (establishedHandler subject w)) = 0)
  /\ trace_of (backwardsHandler subject w)
     = Print ("At time " ++ strftime_localtime w ++ ": " ++ degradation_notice subject)
       :: trace_of (count_ebgp_sessions_established w)
  /\ trace_of (establishedHandler subject w)
     = Print ("At time " ++ strftime_localtime w ++ ": " ++ establishment_notice subject)
       :: trace_of (count_ebgp_sessions_established w)
  /\ (trace_of (count_ebgp_sessions_established w)
      = [RunningGet bgp_state_path nb_filter]
      \/ trace_of (count_ebgp_sessions_established w)
         = [RunningGet bgp_state_path nb_filter;
            RunningGet bgp_conf_path ebgp_group_filter])
  /\ (forall flt : pyval,
        ~ In (RunningGet interface_state_path flt) (trace_of (backwardsHandler subject w))
        /\ ~ In (RunningGet interface_state_path flt)
               (trace_of (establishedHandler subject w))).
Proof.
  intros Ec.
  destruct (handler_count_fails subject w e Ec) as (pre & Hq & Eb & pre' & Hq' & Ee).
  assert (Tb : trace_of (backwardsHandler subject w)
               = Print ("At time " ++ strftime_localtime w ++ ": "
                        ++ degradation_notice subject)
                 :: trace_of (count_ebgp_sessions_established w)).
  { unfold backwardsHandler. rewrite run_bind, print_log_run; cbv beta iota.
    rewrite run_bind.
    destruct (count_ebgp_sessions_established w) as [[tc wc] rc].
    cbn in Ec. subst rc. reflexivity. }
  assert (Te : trace_of (establishedHandler subject w)
               = Print ("At time " ++ strftime_localtime w ++ ": "
                        ++ establishment_notice subject)
                 :: trace_of (count_ebgp_sessions_established w)).
  { unfold establishedHandler. rewrite run_bind, print_log_run; cbv beta iota.
    rewrite run_bind.
    destruct (count_ebgp_sessions_established w) as [[tc wc] rc].
    cbn in Ec. subst rc. reflexivity. }
  split; [|split; [|split; [exact Tb | split; [exact Te | split; [apply count_trace|]]]]].
  - rewrite Eb. cbn [result_of world_of trace_of fst snd].
    repeat split; [now apply quiet_mutations | now apply quiet_pauses].
  - rewrite Ee. cbn [result_of world_of trace_of fst snd].
    repeat split; [now apply quiet_mutations | now apply quiet_pauses].
  - intros flt. rewrite Tb, Te.
    destruct (count_trace w) as [-> | ->]; split; intros Hin; cbn in Hin;
      repeat (destruct Hin as [Hin|Hin]; [discriminate Hin|]); exact Hin.
Qed.

Lemma handlers_stop_when_count_fails_witness :
  result_of (count_ebgp_sessions_established
               (SimRouter.with_query_fault SimRouter.lab_down (OtherError "LookupError")))
  = Raise (OtherError "LookupError")
  /\ result_of (backwardsHandler "Peer 1: 10.1.5.5"
                  (SimRouter.with_query_fault SimRouter.lab_down (OtherError "LookupError")))
     = Raise (OtherError "LookupError")
  /\ mutations (trace_of (backwardsHandler "Peer 1: 10.1.5.5"
                   (SimRouter.with_query_fault SimRouter.lab_down
                      (OtherError "LookupError")))) = 0
  /\ trace_of (backwardsHandler "Peer 1: 10.1.5.5"
                 (SimRouter.with_query_fault SimRouter.lab_down (OtherError "LookupError")))
     = [Print ("At time "
               ++ strftime_localtime
                    (SimRouter.with_query_fault SimRouter.lab_down
                       (OtherError "LookupError"))
               ++ ": " ++ degradation_notice "Peer 1: 10.1.5.5");
        RunningGet bgp_state_path nb_filter]
  /\ trace_of (establishedHandler "Peer 1: 10.1.5.5"
                 (SimRouter.with_query_fault SimRouter.lab_down (OtherError "LookupError")))
     = [Print ("At time "
               ++ strftime_localtime
                    (SimRouter.with_query_fault SimRouter.lab_down
                       (OtherError "LookupError"))
               ++ ": " ++ establishment_notice "Peer 1: 10.1.5.5");
        RunningGet bgp_state_path nb_filter].
Proof.
  split; [reflexivity|].
  pose proof (handlers_stop_when_count_fails
                (SimRouter.with_query_fault SimRouter.lab_down
                   (OtherError "LookupError"))
                "Peer 1: 10.1.5.5" (OtherError "LookupError") eq_refl) as Hw.
  split; [exact (proj1 (proj1 Hw))|].
  split; [exact (proj1 (proj2 (proj2 (proj1 Hw))))|].
  split; [exact (proj1 (proj2 (proj2 Hw)))|].
  exact (proj1 (proj2 (proj2 (proj2 Hw)))).
Defined.

(** X13: on a router where the selection with filter [down] is empty the
    establishment handler makes no [candidate.set] and no pause and leaves
    the router as it was, whatever the count. *)
Theorem restore_idempotent {W} `{World W} (w : W) (subject : string) :
  result_of (find_interfaces "down" w) = Ok [] ->
  mutations (trace_of (establishedHandler subject w)) = 0
  /\ pauses (trace_of (establishedHandler subject w)) = 0
  /\ world_of (establishedHandler subject w) = w.
Proof.
  intros Edown.
  assert (Hone : quiet (trace_of (establishedHandler subject w))
                 /\ world_of (establishedHandler subject w) = w).
  { destruct (count_run w) as (tc & [n|e] & Erun & Hqc & _).
    - destruct (establishedHandler_run subject w n) as (pre & Hq & Hrun);
        [now rewrite Erun|].
      destruct (MIN_NUM_ACTIVE_BGP_SESSIONS <=? n)%nat.
      + rewrite (Hrun _ _ _
                   (transition_idle "down" "up" "enable" "Down" "(down -> up) [BEFORE]"
                      "Up" "(down -> up) [AFTER]"
                      "No changes required, interfaces already up." w Edown)).
        split; [|reflexivity].
        apply quiet_app; [exact Hq | repeat constructor].
      + rewrite Hrun. now split.
    - destruct (handler_count_fails subject w e) as (_ & _ & _ & pre & Hq & Ee);
        [now rewrite Erun|].
      rewrite Ee. now split. }
  destruct Hone as [Hq Hw].
  repeat split; [now apply quiet_mutations | now apply quiet_pauses | exact Hw].
Qed.

Lemma restore_idempotent_witness :
  result_of (find_interfaces "down" SimRouter.lab_up) = Ok []
  /\ mutations (trace_of (establishedHandler "Peer 1: 10.1.5.5" SimRouter.lab_up)) = 0
  /\ world_of (establishedHandler "Peer 1: 10.1.5.5" SimRouter.lab_up) = SimRouter.lab_up.
Proof.
  split; [reflexivity|].
  pose proof (restore_idempotent SimRouter.lab_up "Peer 1: 10.1.5.5" eq_refl) as Hw.
  split; [exact (proj1 Hw) | exact (proj2 (proj2 Hw))].
Defined.

(** X14: an establishment event whose session count has reached the
    threshold starts the restoration: the handler selects with filter
    [down], and a non-empty selection that can be reported is sent to
    [candidate.set] with [enable]. *)
Theorem establishment_at_threshold {W} `{World W} (w : W) (subject : string)
    (count : nat) :
  result_of (count_ebgp_sessions_established w) = Ok count ->
  MIN_NUM_ACTIVE_BGP_SESSIONS <= count ->
  In (RunningGet interface_state_path (oper_state_filter "down"))
     (trace_of (establishedHandler subject w))
  /\ forall d rows,
       result_of (find_interfaces "down" w) = Ok d ->
       dict_truthy d = true ->
       result_of (to_rows d w) = Ok rows ->
       In (CandidateSet cfg_path (cfg_payload d "enable"))
          (trace_of (establishedHandler subject w)).
Proof.
  intros Ec Hle.
  destruct (establishedHandler_run subject w count Ec) as (pre & Hq & Hrun).
  apply Nat.leb_le in Hle. rewrite Hle in Hrun.
  match type of Hrun with
  | forall t w' r, ?m = _ -> _ =>
      specialize (Hrun (trace_of m) (world_of m) (result_of m));
      assert (Hm : m = (trace_of m, world_of m, result_of m))
        by (destruct m as [[? ?] ?]; reflexivity);
      specialize (Hrun Hm); clear Hm
  end.
  rewrite Hrun. cbn [trace_of fst]. split.
  - apply in_or_app. right. apply in_bind_l.
    destruct (find_interfaces_run "down" w) as [r ->]. now left.
  - intros d rows Ed Hd Hrows. apply in_or_app. right.
    now apply (transition_mutates "down" "up" "enable" "Down" "(down -> up) [BEFORE]"
                 "Up" "(down -> up) [AFTER]"
                 "No changes required, interfaces already up." w d rows).
Qed.


Lemma establishment_at_threshold_witness :
  result_of (count_ebgp_sessions_established SimRouter.lab_restored) = Ok 1
  /\ MIN_NUM_ACTIVE_BGP_SESSIONS <= 1
  /\ dict_keys (downstream
                  (map SimRouter.interface_entry
                     (SimRouter.interfaces (world_of (main SimRouter.lab_down)))))
     = ["tester4"; "tester5"]
  /\ In (CandidateSet cfg_path
           (cfg_payload
              (downstream
                 (map SimRouter.interface_entry
                    (SimRouter.interfaces (world_of (main SimRouter.lab_down)))))
              "enable"))
        (trace_of (establishedHandler "Peer 1: 10.1.5.5" SimRouter.lab_restored)).
Proof.
  split; [reflexivity|]. split; [exact (le_n 1)|]. split; [reflexivity|].
  exact (proj2 (establishment_at_threshold SimRouter.lab_restored "Peer 1: 10.1.5.5" 1
                  eq_refl (le_n 1)) _ _ eq_refl eq_refl eq_refl).
Defined.

(** ** The transition, step by step *)

Section Steps.

Context {W : Type} `{World W}.

Variables before after change info1 header1 info2 header2 idle : string.

Local Abbreviation transition :=
  (active_interfaces <- find_interfaces before ;;
   if dict_truthy active_interfaces
   then
     print_table (to_rows active_interfaces) info1 header1 ;;
     time_sleep 1 ;;
     modify_downstream_interfaces active_interfaces change ;;
     time_sleep 1 ;;
     inactive_interfaces <- find_interfaces after ;;
     if dict_truthy inactive_interfaces
     then print_table (to_rows inactive_interfaces) info2 header2
     else ret tt
   else print idle).

(** The report fails: the transition ends in the middle of the table,
    before the first pause. *)
Lemma transition_report_fails (w : W) (d : dict pyval) (e : exn) :
  result_of (find_interfaces before w) = Ok d ->
  dict_truthy d = true ->
  result_of (to_rows d w) = Raise e ->
  exists table,
    transition w
    = (RunningGet interface_state_path (oper_state_filter before) :: table, w, Raise e)
    /\ quiet table.
Proof.
  intros E Hd Hrows. rewrite run_bind.
  destruct (find_interfaces_run before w) as [r E0].
  rewrite E0 in *. cbn in E. subst r. cbv beta iota. rewrite Hd.
  rewrite run_bind.
  destruct (print_table_run d info1 header1 w) as (tp & rp & Ep & Hq & _).
  destruct (print_table_cases d info1 header1 w) as (ys & r & Er & _ & Ep').
  rewrite Er in Hrows. cbn in Hrows. subst r. rewrite Ep' in Ep.
  inversion Ep; subst. rewrite Ep'.
  eexists. split; [reflexivity | exact Hq].
Qed.

Lemma mutations_zero_mutated (t : list action) : mutations t = 0 -> mutated t = [].
Proof.
  induction t as [|a t IH]; [reflexivity|].
  rewrite mutations_cons. intros Hz.
  change (a :: t) with ([a] ++ t)%list. rewrite mutated_app, IH by lia.
  destruct a; try reflexivity. cbn in Hz. lia.
Qed.

Lemma downstream_nodup (snapshot : dict pyval) :
  NoDup (dict_keys snapshot) -> NoDup (dict_keys (downstream snapshot)).
Proof.
  induction snapshot as [|[k v] rest IH]; intros Hnd; [constructor|].
  inversion Hnd as [|? ? Hk Hrest]; subst.
  unfold downstream. cbn [filter fst].
  destruct (str_contains downstream_tag k); [|now apply IH].
  cbn. constructor; [|now apply IH].
  intros Hin. apply Hk. unfold dict_keys in *.
  apply in_map_iff in Hin. destruct Hin as ([k' v'] & <- & Hin).
  apply filter_In in Hin. apply in_map_iff. exists (k', v'). now split.
Qed.

Lemma cfg_payload_names (d : dict pyval) :
  NoDup (dict_keys d) -> payload_interfaces (cfg_payload d change) = dict_keys d.
Proof.
  intros Hnd. unfold cfg_payload, payload_interfaces, interface_payload. cbn.
  rewrite app_nil_r, (payload_loop change (dict_keys d) [] Hnd).
  unfold dict_keys at 1. cbn [app]. rewrite map_map. cbn. apply map_id.
Qed.

(** The report succeeds: what is written is the downstream part of the
    snapshot, no more and no less. *)
Lemma transition_mutated (w : W) (snapshot : dict pyval) (rows : list row) :
  existsb (String.eqb change) ["enable"; "disable"] = true ->
  running_get w interface_state_path (oper_state_filter before) = Ok snapshot ->
  NoDup (dict_keys snapshot) ->
  dict_truthy (downstream snapshot) = true ->
  result_of (to_rows (downstream snapshot) w) = Ok rows ->
  mutated (trace_of (transition w)) = dict_keys (downstream snapshot).
Proof.
  intros Hchange Eget Hnd Hd Hrows.
  assert (Efind : result_of (find_interfaces before w) = Ok (downstream snapshot)).
  { unfold find_interfaces. rewrite run_bind. unfold connection_running_get.
    fold (oper_state_filter before). rewrite Eget. cbv beta iota.
    now rewrite (select_loop snapshot [] Hnd). }
  pose proof (transition_mutates before after change info1 header1 info2 header2 idle
                w _ rows Hchange Efind Hd Hrows) as Hin.
  assert (Hle : mutations (trace_of (transition w)) <= 1).
  { assert (Hb : @atmost W _ is_set (1 + 2 * 0) transition).
    { apply (atmost_transition is_set 1 0 0); try (intros; cbn; lia).
      intros a Hs _ _. exact Hs. }
    exact (Hb w). }
  destruct (in_split _ _ Hin) as (pre & tail & Esplit).
  rewrite Esplit in Hle |- *.
  rewrite mutations_app, mutations_cons in Hle. cbn [is_set] in Hle.
  change (CandidateSet cfg_path (cfg_payload (downstream snapshot) change) :: tail)
    with ([CandidateSet cfg_path (cfg_payload (downstream snapshot) change)] ++ tail)%list.
  rewrite !mutated_app, (mutations_zero_mutated pre), (mutations_zero_mutated tail) by lia.
  rewrite app_nil_r. cbn [app mutated flat_map]. rewrite app_nil_r.
  apply cfg_payload_names, downstream_nodup, Hnd.
Qed.

End Steps.


(** X15: when building the BEFORE report fails - a selected interface
    without [last-oper-change], a timestamp the clock library cannot
    parse - the degradation handler ends with that exception before its
    first pause: the downstream interfaces are not disabled, and the
    router is left as it was. *)
Theorem report_failure_blocks_restriction {W} `{World W} (w : W) (subject : string)
    (count : nat) (d : dict pyval) (e : exn) :
  result_of (count_ebgp_sessions_established w) = Ok count ->
  count < MIN_NUM_ACTIVE_BGP_SESSIONS ->
  result_of (find_interfaces "up" w) = Ok d ->
  dict_truthy d = true ->
  result_of (to_rows d w) = Raise e ->
  result_of (backwardsHandler subject w) = Raise e
  /\ mutations (trace_of (backwardsHandler subject w)) = 0
  /\ pauses (trace_of (backwardsHandler subject w)) = 0
  /\ world_of (backwardsHandler subject w) = w.
Proof.
  intros Ec Hlt Efind Hd Hrows.
  destruct (backwardsHandler_run subject w count Ec) as (pre & Hq & Hrun).
  apply Nat.leb_gt in Hlt. rewrite Hlt in Hrun.
  destruct (transition_report_fails "up" "down" "disable" "Up" "(up -> down) [BEFORE]"
              "Down" "(up -> down) [AFTER]"
              "No changes required, interfaces already down." w d e Efind Hd Hrows)
    as (table & Et & Hqt).
  rewrite (Hrun _ _ _ Et).
  cbn [result_of trace_of world_of fst snd].
  assert (Hq' : quiet (pre ++ RunningGet interface_state_path (oper_state_filter "up")
                           :: table)).
  { apply quiet_app; [exact Hq|]. constructor; [now split | exact Hqt]. }
  repeat split; [now apply quiet_mutations | now apply quiet_pauses].
Qed.

Lemma report_failure_blocks_restriction_witness :
  result_of (count_ebgp_sessions_established (Unparsed.mkRouter SimRouter.lab_down)) = Ok 0
  /\ 0 < MIN_NUM_ACTIVE_BGP_SESSIONS
  /\ dict_keys (downstream (map SimRouter.interface_entry SimRouter.lab_interfaces))
     = ["tester4"; "tester5"]
  /\ result_of (backwardsHandler "Peer 1: 10.1.5.5" (Unparsed.mkRouter SimRouter.lab_down))
     = Raise (ValueError "Invalid isoformat string: 2023-05-11T22:14:01")
  /\ mutations (trace_of (backwardsHandler "Peer 1: 10.1.5.5"
                            (Unparsed.mkRouter SimRouter.lab_down))) = 0.
Proof.
  split; [reflexivity|]. split; [exact Nat.lt_0_1|]. split; [reflexivity|].
  pose proof (report_failure_blocks_restriction
                (Unparsed.mkRouter SimRouter.lab_down) "Peer 1: 10.1.5.5" 0
                (downstream (map SimRouter.interface_entry SimRouter.lab_interfaces))
                (ValueError "Invalid isoformat string: 2023-05-11T22:14:01")
                eq_refl Nat.lt_0_1 eq_refl eq_refl eq_refl) as Hw.
  split; [exact (proj1 Hw) | exact (proj1 (proj2 Hw))].
Defined.

(** X16: a degradation below the threshold whose selection is not empty
    and can be reported writes exactly the interfaces of the [up]
    snapshot whose name contains [tester]: each of them, once, in the
    order of the snapshot, and no other. *)
Theorem restriction_writes_downstream {W} `{World W} (w : W) (subject : string)
    (count : nat) (snapshot : dict pyval) (rows : list row) :
  result_of (count_ebgp_sessions_established w) = Ok count ->
  count < MIN_NUM_ACTIVE_BGP_SESSIONS ->
  running_get w interface_state_path (oper_state_filter "up") = Ok snapshot ->
  NoDup (dict_keys snapshot) ->
  dict_truthy (downstream snapshot) = true ->
  result_of (to_rows (downstream snapshot) w) = Ok rows ->
  mutated (trace_of (backwardsHandler subject w)) = dict_keys (downstream snapshot).
Proof.
  intros Ec Hlt Eget Hnd Hd Hrows.
  destruct (backwardsHandler_run subject w count Ec) as (pre & Hq & Hrun).
  apply Nat.leb_gt in Hlt. rewrite Hlt in Hrun.
  pose proof (transition_mutated "up" "down" "disable" "Up" "(up -> down) [BEFORE]"
                "Down" "(up -> down) [AFTER]"
                "No changes required, interfaces already down."
                w snapshot rows eq_refl Eget Hnd Hd Hrows) as Hmut.
  match type of Hrun with
  | forall t w' r, ?m = _ -> _ =>
      specialize (Hrun (trace_of m) (world_of m) (result_of m));
      assert (Hm : m = (trace_of m, world_of m, result_of m))
        by (destruct m as [[? ?] ?]; reflexivity);
      specialize (Hrun Hm); clear Hm
  end.
  rewrite Hrun. cbn [trace_of fst].
  now rewrite mutated_app, (quiet_mutated _ Hq), Hmut.
Qed.

Lemma restriction_writes_downstream_witness :
  result_of (count_ebgp_sessions_established SimRouter.lab_down) = Ok 0
  /\ 0 < MIN_NUM_ACTIVE_BGP_SESSIONS
  /\ running_get SimRouter.lab_down interface_state_path (oper_state_filter "up")
     = Ok (map SimRouter.interface_entry SimRouter.lab_interfaces)
  /\ NoDup (dict_keys (map SimRouter.interface_entry SimRouter.lab_interfaces))
  /\ mutated (trace_of (backwardsHandler "Peer 1: 10.1.5.5" SimRouter.lab_down))
     = dict_keys (downstream (map SimRouter.interface_entry SimRouter.lab_interfaces)).
Proof.
  assert (Hnd : NoDup (dict_keys (map SimRouter.interface_entry SimRouter.lab_interfaces))).
  { repeat constructor; cbn; intuition discriminate. }
  split; [reflexivity|]. split; [exact Nat.lt_0_1|]. split; [reflexivity|].
  split; [exact Hnd|].
  exact (restriction_writes_downstream SimRouter.lab_down "Peer 1: 10.1.5.5" 0
           (map SimRouter.interface_entry SimRouter.lab_interfaces) _
           eq_refl Nat.lt_0_1 eq_refl Hnd eq_refl eq_refl).
Defined.

(** X17: an establishment at the threshold whose selection is not empty
    and can be reported writes exactly the interfaces of the [down]
    snapshot whose name contains [tester]. *)
Theorem restoration_writes_downstream {W} `{World W} (w : W) (subject : string)
    (count : nat) (snapshot : dict pyval) (rows : list row) :
  result_of (count_ebgp_sessions_established w) = Ok count ->
  MIN_NUM_ACTIVE_BGP_SESSIONS <= count ->
  running_get w interface_state_path (oper_state_filter "down") = Ok snapshot ->
  NoDup (dict_keys snapshot) ->
  dict_truthy (downstream snapshot) = true ->
  result_of (to_rows (downstream snapshot) w) = Ok rows ->
  mutated (trace_of (establishedHandler subject w)) = dict_keys (downstream snapshot).
Proof.
  intros Ec Hle Eget Hnd Hd Hrows.
  destruct (establishedHandler_run subject w count Ec) as (pre & Hq & Hrun).
  apply Nat.leb_le in Hle. rewrite Hle in Hrun.
  pose proof (transition_mutated "down" "up" "enable" "Down" "(down -> up) [BEFORE]"
                "Up" "(down -> up) [AFTER]"
                "No changes required, interfaces already up."
                w snapshot rows eq_refl Eget Hnd Hd Hrows) as Hmut.
  match type of Hrun with
  | forall t w' r, ?m = _ -> _ =>
      specialize (Hrun (trace_of m) (world_of m) (result_of m));
      assert (Hm : m = (trace_of m, world_of m, result_of m))
        by (destruct m as [[? ?] ?]; reflexivity);
      specialize (Hrun Hm); clear Hm
  end.
  rewrite Hrun. cbn [trace_of fst].
  now rewrite mutated_app, (quiet_mutated _ Hq), Hmut.
Qed.

Lemma restoration_writes_downstream_witness :
  result_of (count_ebgp_sessions_established SimRouter.lab_restored) = Ok 1
  /\ MIN_NUM_ACTIVE_BGP_SESSIONS <= 1
  /\ mutated (trace_of (establishedHandler "Peer 1: 10.1.5.5" SimRouter.lab_restored))
     = ["tester4"; "tester5"].
Proof.
  assert (Hnd : NoDup (dict_keys
                         (map SimRouter.interface_entry
                            (List.filter
                               (fun i => String.eqb (SimRouter.oper_state i) "down")
                               (SimRouter.interfaces SimRouter.lab_restored))))).
  { repeat constructor; cbn; intuition discriminate. }
  split; [reflexivity|]. split; [exact (le_n 1)|].
  exact (restoration_writes_downstream SimRouter.lab_restored "Peer 1: 10.1.5.5" 1
           (map SimRouter.interface_entry
              (List.filter (fun i => String.eqb (SimRouter.oper_state i) "down")
                 (SimRouter.interfaces SimRouter.lab_restored)))
           _ eq_refl (le_n 1) eq_refl Hnd eq_refl eq_refl).
Defined.


(** ** An invocation that fails *)

(** X18: a run of [main] that ends with an exception has connected and
    read the event, in that order, and has not called [disconnect]: the
    exception leaves [main] with the session open. *)
Theorem raise_skips_disconnect {W} `{World W} (w w' : W) (t : list action) (e : exn) :
  main w = (t, w', Raise e) ->
  releases t = 0
  /\ exists body,
       t = Connect unused unused :: GetEvent :: body
       /\ Forall (fun a => is_session a = false) body.
Proof.
  intros E. rewrite main_run in E.
  destruct (get_event w) as [event|]; [|discriminate].
  destruct (subject event) as [|c rest].
  - inversion E; subst. split; [reflexivity|]. exists []. now split.
  - destruct (isdigit c); [discriminate|].
    pose proof (handler_for_not_session event w) as Hh.
    destruct (handler_for event w) as [[th wh] [[]|e']]; [discriminate|].
    inversion E; subst. cbn [trace_of fst] in Hh. split.
    + change (releases th = 0). now apply not_session_releases.
    + exists th. now split.
Qed.

Lemma raise_skips_disconnect_witness :
  main (SimRouter.with_query_fault SimRouter.lab_down (OtherError "LookupError"))
  = (trace_of (main (SimRouter.with_query_fault SimRouter.lab_down
                       (OtherError "LookupError"))),
     SimRouter.with_query_fault SimRouter.lab_down (OtherError "LookupError"),
     Raise (OtherError "LookupError"))
  /\ releases (trace_of (main (SimRouter.with_query_fault SimRouter.lab_down
                                 (OtherError "LookupError")))) = 0.
Proof.
  split; [reflexivity|].
  exact (proj1 (raise_skips_disconnect
                  (SimRouter.with_query_fault SimRouter.lab_down (OtherError "LookupError"))
                  _ _ (OtherError "LookupError") eq_refl)).
Defined.
